(** * A shallow embedding of the document-intelligence pipeline

    The development models the four pipeline stage handlers
    (lambda-layer-1 .. lambda-layer-4) and the website-crawl tool
    (strands_agents/using_multiple_agents.py) as functions in a state and
    exception monad over an explicit world: the workflow-state table, the
    log of asynchronous invocations, the objects written to storage, the
    HTTP requests sent, and an abstract external state that the remote
    services (model endpoint, search, crawl, object storage, clock) read
    and advance.

    Part I holds the definitions: Python values and exceptions, the world
    and its monad, one module per source file ([MultiAgents], [Ingestion],
    [Analysis], [Research], [Report]) with the source's function names, the
    vocabulary of the statements, and stand-ins for running the model.
    Part II holds the properties. *)

From Stdlib Require Import ZArith NArith List String Ascii Lia.
From Stdlib.Strings Require Import Byte.
From stdpp Require Import base gmap strings list.

Local Set Warnings "-register-all".
Local Open Scope N_scope.

(* ================================================================== *)
(** * Part I. Definitions *)
(* ================================================================== *)

(** ** Python strings, bytes and values *)

(** A Python [str] is a sequence of Unicode code points. *)
Definition pystr : Type := list N.

Definition bytes : Type := list byte.

(** Source literals are ASCII; [py] reads them as code points. *)
Definition py (s : string) : pystr :=
  (fun a => N_of_ascii a) <$> String.list_ascii_of_string s.
Arguments py : simpl never.

(** Values that travel as JSON: payloads, model output, table attributes.
    A float is carried by its [repr]; the handlers do no float
    arithmetic. *)
Inductive pyval : Type :=
| PNone
| PBool (b : bool)
| PInt (z : Z)
| PFloat (repr : string)
| PStr (s : pystr)
| PList (l : list pyval)
| PDict (d : list (pystr * pyval)).

(** A Python [dict] with string keys, in insertion order. *)
Definition pydict : Type := list (pystr * pyval).

Fixpoint dict_get {V : Type} (k : pystr) (d : list (pystr * V)) : option V :=
  match d with
  | [] => None
  | (k', v) :: d' => if decide (k' = k) then Some v else dict_get k d'
  end.

(** [d[k] = v]: an existing key keeps its position, a new key is appended. *)
Fixpoint dict_set {V : Type} (k : pystr) (v : V) (d : list (pystr * V))
  : list (pystr * V) :=
  match d with
  | [] => [(k, v)]
  | (k', v') :: d' =>
      if decide (k' = k) then (k, v) :: d' else (k', v') :: dict_set k v d'
  end.

Definition dict_keys {V : Type} (d : list (pystr * V)) : list pystr := d.*1.

(** ** String operations used by the handlers *)

Fixpoint startswith (p s : pystr) : bool :=
  match p, s with
  | [], _ => true
  | a :: p', b :: s' => if decide (a = b) then startswith p' s' else false
  | _ :: _, [] => false
  end.

Definition endswith (suffix s : pystr) : bool :=
  startswith (reverse suffix) (reverse s).

Definition dot : N := 46.
Definition newline : N := 10.

(** [s.split(sep)] for a one-character separator: never empty. *)
Fixpoint split_on (sep : N) (s : pystr) : list pystr :=
  match s with
  | [] => [[]]
  | c :: s' =>
      if decide (c = sep) then [] :: split_on sep s'
      else match split_on sep s' with
           | [] => [[c]]
           | w :: ws => (c :: w) :: ws
           end
  end.

Definition contains_char (c : N) (s : pystr) : bool := bool_decide (c ∈ s).

(** [str.lower] on the ASCII letters.  The handlers use a lowered key
    only to compare it with the extension literals, which are ASCII and
    contain neither [k] nor [i], the two ASCII letters that some non-ASCII
    character lowers to; so leaving the other characters alone decides
    every such comparison as Python does. *)
Definition lower_char (c : N) : N :=
  if (65 <=? c) && (c <=? 90) then c + 32 else c.

Definition lower (s : pystr) : pystr := lower_char <$> s.

(** [str.isspace] for one code point. *)
Definition is_space (c : N) : bool :=
  ((9 <=? c) && (c <=? 13)) || ((28 <=? c) && (c <=? 32))
  || (c =? 133) || (c =? 160) || (c =? 5760)
  || ((8192 <=? c) && (c <=? 8202))
  || (c =? 8232) || (c =? 8233) || (c =? 8239) || (c =? 8287) || (c =? 12288).

Fixpoint lstrip (s : pystr) : pystr :=
  match s with
  | c :: s' => if is_space c then lstrip s' else s
  | [] => []
  end.

Definition strip (s : pystr) : pystr := reverse (lstrip (reverse (lstrip s))).

(** [len(s.split())]: the number of maximal runs of non-space characters. *)
Fixpoint count_words (in_word : bool) (s : pystr) : N :=
  match s with
  | [] => 0
  | c :: s' =>
      if is_space c then count_words false s'
      else if in_word then count_words true s' else 1 + count_words true s'
  end.

Definition count_char (c : N) (s : pystr) : N :=
  N.of_nat (length (filter (fun x => x = c) s)).

Definition len (s : pystr) : N := N.of_nat (length s).

(** [sep.join(parts)]. *)
Fixpoint join (sep : pystr) (parts : list pystr) : pystr :=
  match parts with
  | [] => []
  | [p] => p
  | p :: ps => p ++ sep ++ join sep ps
  end.

(** [str(n)] for a non-negative integer: decimal digits, most significant
    first.  [digits_le] yields them least significant first. *)
Fixpoint digits_le (fuel : nat) (n : N) : list N :=
  match fuel with
  | O => []
  | S fuel' =>
      (48 + n mod 10) :: (if n / 10 =? 0 then [] else digits_le fuel' (n / 10))
  end.

Definition str_of_N (n : N) : pystr :=
  reverse (digits_le (S (N.to_nat (N.log2 n))) n).

(** [s[-k:]]: the last [k] characters (all of [s] when it is shorter). *)
Definition last_chars (k : nat) (s : pystr) : pystr :=
  drop (length s - k)%nat s.

(** Truthiness of a string: non-empty. *)
Definition nonempty (s : pystr) : bool :=
  match s with [] => false | _ => true end.

(** ** Exceptions *)

Inductive exn_class : Type :=
| KeyError
| IndexError
| AttributeError
| TypeError
| ValueError
| UnicodeDecodeError
| JSONDecodeError            (* json.JSONDecodeError *)
| RequestException           (* requests: connection, timeout, HTTP status *)
| RequestsJSONDecodeError    (* requests' own, a subclass of both above *)
| PlainException             (* raise Exception(...) *)
| DecimalException           (* decimal.Overflow, decimal.Inexact, decimal.Rounded *)
| ServiceError.              (* anything a remote client raises *)

(** An exception is its class and the text [str(e)]. *)
Record exn : Type := Exn { exn_kind : exn_class; exn_str : pystr }.

Definition is_JSONDecodeError (e : exn) : bool :=
  match exn_kind e with
  | JSONDecodeError | RequestsJSONDecodeError => true
  | _ => false
  end.

Definition is_RequestException (e : exn) : bool :=
  match exn_kind e with
  | RequestException | RequestsJSONDecodeError => true
  | _ => false
  end.

Inductive result (A : Type) : Type :=
| Return (a : A)
| Raise (e : exn).
Arguments Return {A} a.
Arguments Raise {A} e.

(** [str(KeyError(k))] is the repr of the key. *)
Definition key_error (k : string) : exn :=
  Exn KeyError (py "'" ++ py k ++ py "'").

Definition type_name (v : pyval) : string :=
  match v with
  | PNone => "NoneType"
  | PBool _ => "bool"
  | PInt _ => "int"
  | PFloat _ => "float"
  | PStr _ => "str"
  | PList _ => "list"
  | PDict _ => "dict"
  end.

(** [v.get(k)] and [v.get(k, default)]: only a dict has [get]. *)
Definition py_get (v : pyval) (k : string) (default : pyval) : result pyval :=
  match v with
  | PDict d => Return (match dict_get (py k) d with Some x => x | None => default end)
  | _ => Raise (Exn AttributeError
                  (py "'" ++ py (type_name v) ++ py "' object has no attribute 'get'"))
  end.

Definition truthy (v : pyval) : bool :=
  match v with
  | PNone => false
  | PBool b => b
  | PInt z => negb (z =? 0)%Z
  | PFloat r => negb (bool_decide (r = "0.0"%string ∨ r = "-0.0"%string))
  | PStr s => nonempty s
  | PList l => match l with [] => false | _ => true end
  | PDict d => match d with [] => false | _ => true end
  end.

Definition is_str (s : pystr) (v : pyval) : bool :=
  match v with PStr t => bool_decide (t = s) | _ => false end.

Fixpoint is_substring (p s : pystr) : bool :=
  startswith p s || match s with [] => false | _ :: s' => is_substring p s' end.

(** ["k" in data]. *)
Definition py_contains (k : string) (data : pyval) : result bool :=
  match data with
  | PDict d => Return (bool_decide (py k ∈ dict_keys d))
  | PList l => Return (existsb (is_str (py k)) l)
  | PStr s => Return (is_substring (py k) s)
  | _ => Raise (Exn TypeError
                  (py "argument of type '" ++ py (type_name data)
                   ++ py "' is not iterable"))
  end.

(** ** Values on their way into and out of the table

    The table is reached through boto3's resource interface, which
    serializes every value it is handed and deserializes every value it
    hands back. *)

(** An integer handed to the table goes through a decimal context of 38
    digits and largest exponent 126 that rounds half to even and traps
    overflow and rounding: an integer of more than 38 digits raises
    [decimal.Overflow] when it has more than 127 digits, or has 127 and
    rounds up to a 128th, [decimal.Rounded] when the digits cut off are
    all zero and [decimal.Inexact] otherwise.  The exception's text lists
    the signals. *)
Definition number_fault (z : Z) : option exn :=
  let n := Z.abs_N z in
  if n <? 10 ^ 38 then None
  else
    let digits := N.of_nat (length (str_of_N n)) in
    let cut := 10 ^ (digits - 38) in
    let kept := n / cut in
    let rest := n mod cut in
    let rounds_up := (cut <? 2 * rest) || ((2 * rest =? cut) && N.odd kept) in
    let overflow :=
      (127 <? digits) || ((digits =? 127) && rounds_up && (kept =? 10 ^ 38 - 1)) in
    Some (Exn DecimalException
            (if overflow
             then py "[<class 'decimal.Overflow'>, <class 'decimal.Inexact'>, <class 'decimal.Rounded'>]"
             else if rest =? 0 then py "[<class 'decimal.Rounded'>]"
             else py "[<class 'decimal.Inexact'>, <class 'decimal.Rounded'>]")).

(** What the serializer raises on a value, if anything: the elements of
    a list and the values of a mapping are serialized in order, a float is
    refused wherever it stands. *)
Fixpoint dynamodb_fault (v : pyval) : option exn :=
  match v with
  | PFloat _ =>
      Some (Exn TypeError
              (py "Float types are not supported. Use Decimal types instead."))
  | PInt z => number_fault z
  | PList l => head (omap dynamodb_fault l)
  | PDict d => head (omap (fun kv => dynamodb_fault kv.2) d)
  | PNone | PBool _ | PStr _ => None
  end.

(** The serialization of the values of one call, in order. *)
Fixpoint serialize_values (values : list pyval) : result unit :=
  match values with
  | [] => Return tt
  | v :: rest =>
      match dynamodb_fault v with
      | Some e => Raise e
      | None => serialize_values rest
      end
  end.

(** Whether the serializer accepts a value. *)
Definition serializable (v : pyval) : bool :=
  match dynamodb_fault v with None => true | Some _ => false end.

(** Every number comes back from the table as a [decimal.Decimal]. *)
Fixpoint has_number (v : pyval) : bool :=
  match v with
  | PInt _ | PFloat _ => true
  | PList l => existsb has_number l
  | PDict d => existsb (fun kv => has_number kv.2) d
  | PNone | PBool _ | PStr _ => false
  end.

Definition stored_type_name (v : pyval) : string :=
  match v with
  | PInt _ | PFloat _ => "decimal.Decimal"
  | _ => type_name v
  end.

(** [v.get(k, default)] on a value read from the table. *)
Definition stored_get (v : pyval) (k : string) (default : pyval) : result pyval :=
  match v with
  | PDict d => Return (match dict_get (py k) d with Some x => x | None => default end)
  | _ => Raise (Exn AttributeError
                  (py "'" ++ py (stored_type_name v)
                   ++ py "' object has no attribute 'get'"))
  end.

(** [for x in v] on a value read from the table. *)
Definition stored_iter (v : pyval) : result (list pyval) :=
  match v with
  | PList l => Return l
  | PStr s => Return ((fun c => PStr [c]) <$> s)
  | PDict d => Return (PStr <$> dict_keys d)
  | _ => Raise (Exn TypeError
                  (py "'" ++ py (stored_type_name v) ++ py "' object is not iterable"))
  end.

(** [json.dumps(v, indent=2)] on a value read from the table: a
    [Decimal] is not JSON serializable. *)
Definition dumps_stored (dumps : pyval -> pystr) (v : pyval) : result pystr :=
  if has_number v
  then Raise (Exn TypeError (py "Object of type Decimal is not JSON serializable"))
  else Return (dumps v).

(** ** The workflow-state table *)

(** One record of the table [agent-workflow-state], keyed by its session
    id.  The attributes the downstream stages read or write are fields; an
    absent attribute is [None].  The attributes written once at ingestion
    and not read again by any stage are kept by name in [other_attrs]. *)
Record item : Type := Item {
  workflow_stage : option pystr;
  document_content : option pystr;
  analysis_result : option pyval;
  extracted_topics : option pyval;
  research_findings : option pydict;
  final_report : option pystr;
  error_message : option pystr;
  updated_at : option pyval;
  other_attrs : pydict;
}.

Definition empty_item : item :=
  Item None None None None None None None None [].

(** ** Effects on the outside *)

Record invocation : Type := Invocation {
  function_name : pystr;
  invocation_type : pystr;
  payload : pystr;
}.

Record s3_object : Type := S3Object {
  put_bucket : pystr;
  put_key : pystr;
  put_body : bytes;
  put_content_type : pystr;
}.

Inductive http_method : Type := POST | GET.

Record http_request : Type := HttpRequest {
  method : http_method;
  url : pystr;
  headers : list (pystr * pystr);
  json_body : option pyval;
  timeout : option N;
}.

(** What the handlers look at in a [requests] response: what
    [response.raise_for_status()] does (an HTTPError for an error status)
    and what [response.json()] gives. *)
Record http_response : Type := HttpResponse {
  raise_for_status : result unit;
  response_json : result pyval;
}.

(** Pure library functions the source calls (json, hashlib, codecs,
    PyPDF2, python-docx, repr). *)
Record pylib : Type := PyLib {
  json_dumps : pyval -> pystr;
  json_dumps_indent2 : pyval -> pystr;
  json_loads : pystr -> result pyval;
  md5_hexdigest : bytes -> pystr;
  encode_utf8 : pystr -> result bytes;
  (* bytes.decode: the text, or the message of the UnicodeDecodeError *)
  decode_utf8 : bytes -> pystr + pystr;
  decode_utf8_ignore : bytes -> pystr;
  decode_cp1252 : bytes -> pystr + pystr;
  pdf_pages : bytes -> result (list (result pystr));
  docx_paragraphs : bytes -> result (list pystr);
  py_repr : pyval -> pystr;
}.

(** Values read from the process environment or fixed at import time. *)
Record config : Type := Config {
  FIRECRAWL_API_KEY : option pystr;
  TAVILY_API_KEY : option pystr;
  NEXT_FUNCTION_NAME : pystr;
  MAX_CONTENT_SIZE : N;
  PDF_SUPPORT : bool;
  DOCX_SUPPORT : bool;
}.

(** [str(v)] as an f-string renders it. *)
Definition py_str (lib : pylib) (v : pyval) : pystr :=
  match v with
  | PStr s => s
  | PNone => py "None"
  | _ => py_repr lib v
  end.

Definition str_of_option (o : option pystr) : pystr :=
  match o with Some s => s | None => py "None" end.

Section World.

(** The state of everything outside the process. *)
Context {Ext : Type}.

(** The remote services: each call reads and advances the external
    state and either answers or raises.  The table itself is part of the
    world below; [get_item] acts on it directly, [update_item] once its
    values have been serialized, and the two writes the source guards with
    a [try] ([put_item] in [store_document_data], the update in
    [_update_error_state]) ask a fault oracle first whether the call
    raises. *)
Record services : Type := Services {
  s3_get_object : pystr -> pystr -> Ext -> result bytes * Ext;
  put_item_fault : Ext -> option exn * Ext;
  update_item_fault : Ext -> option exn * Ext;
  lambda_invoke : invocation -> Ext -> result pyval * Ext;
  bedrock_invoke_model : pystr -> pystr -> Ext -> result pystr * Ext;
  requests_post : http_request -> Ext -> result http_response * Ext;
  requests_get : http_request -> Ext -> result http_response * Ext;
  ssm_get_parameter : pystr -> Ext -> result pystr * Ext;
  time_time : Ext -> N * Ext;
  utcnow_isoformat : Ext -> pystr * Ext;
}.

Record world : Type := World {
  table : gmap pystr item;
  invoked : list invocation;
  s3_written : list s3_object;
  http_sent : list http_request;
  ext : Ext;
}.

(** ** The state and exception monad *)

Definition M (A : Type) : Type := world -> result A * world.

#[export] Instance M_ret : MRet M := fun A a w => (Return a, w).

#[export] Instance M_bind : MBind M := fun A B f m w =>
  match m w with
  | (Return a, w') => f a w'
  | (Raise e, w') => (Raise e, w')
  end.

Definition raise {A : Type} (e : exn) : M A := fun w => (Raise e, w).

Definition lift_result {A : Type} (r : result A) : M A := fun w => (r, w).

(** [try: body except Exception as e: handler e]. *)
Definition try_except {A : Type} (body : M A) (handler : exn -> M A) : M A :=
  fun w =>
    match body w with
    | (Return a, w') => (Return a, w')
    | (Raise e, w') => handler e w'
    end.

(** A call to a remote service. *)
Definition call {A : Type} (f : Ext -> result A * Ext) : M A :=
  fun w =>
    let '(r, x) := f (ext w) in
    (r, World (table w) (invoked w) (s3_written w) (http_sent w) x).

Definition ask {A : Type} (f : Ext -> A * Ext) : M A :=
  call (fun x => let '(a, x') := f x in (Return a, x')).

Definition log_http (r : http_request) : M unit :=
  fun w => (Return tt,
            World (table w) (invoked w) (s3_written w) (http_sent w ++ [r]) (ext w)).

Definition log_invocation (i : invocation) : M unit :=
  fun w => (Return tt,
            World (table w) (invoked w ++ [i]) (s3_written w) (http_sent w) (ext w)).

Definition log_s3_put (o : s3_object) : M unit :=
  fun w => (Return tt,
            World (table w) (invoked w) (s3_written w ++ [o]) (http_sent w) (ext w)).

Definition set_table (t : gmap pystr item) : M unit :=
  fun w => (Return tt, World t (invoked w) (s3_written w) (http_sent w) (ext w)).

Definition get_table : M (gmap pystr item) := fun w => (Return (table w), w).

End World.

Arguments services : clear implicits.
Arguments world : clear implicits.
Arguments M : clear implicits.

(** ** What the handlers share *)

Section Common.

Context {Ext : Type} (svc : services Ext) (lib : pylib).

(** The body of the event every downstream stage receives; only
    ['session_id'] is read. *)
Record stage_event : Type := StageEvent { event_session_id : option pystr }.

Record lambda_context : Type := LambdaContext { aws_request_id : pystr }.

Definition lines (ls : list pystr) : pystr := join [newline] ls.

(** A handler's return value: [{"statusCode": code, "body": body}]. *)
Definition response (code : Z) (body : pystr) : pyval :=
  PDict [ (py "statusCode", PInt code); (py "body", PStr body) ].

Definition error_body (msg : pystr) : pystr :=
  json_dumps lib (PDict [ (py "error", PStr msg) ]).

(** [table.update_item(Key={'session_id': sid}, UpdateExpression='SET ...',
    ExpressionAttributeValues=...)]: the values are serialized, which
    raises on a float or an oversized integer; then the attributes named
    by the expression are set on the record, which is created when the key
    is new.  [values] lists the values of the call that hold JSON produced
    by the model; the others are stage names and messages, which are
    strings, and readings of the clock, which are integers of ten digits:
    they always serialize. *)
Definition update_item (sid : pystr) (values : list pyval)
    (set_attrs : item -> item) : M Ext unit :=
  lift_result (serialize_values values);;
  tbl ← get_table;
  set_table (<[sid := set_attrs (default empty_item (tbl !! sid))]> tbl).

(** [lambda_client.invoke(FunctionName=..., InvocationType='Event',
    Payload=...)]: the request is issued, then answered or refused. *)
Definition invoke_async (fname : pystr) (body : pyval) : M Ext pyval :=
  let i := Invocation fname (py "Event") (json_dumps lib body) in
  log_invocation i;; call (lambda_invoke svc i).

Definition do_post (r : http_request) : M Ext http_response :=
  log_http r;; call (requests_post svc r).

Definition do_get (r : http_request) : M Ext http_response :=
  log_http r;; call (requests_get svc r).

Definition not_subscriptable (v : pyval) : exn :=
  Exn TypeError (py "'" ++ py (type_name v) ++ py "' object is not subscriptable").

(** [v[k]] for a string key. *)
Definition py_getitem (v : pyval) (k : string) : result pyval :=
  match v with
  | PDict d =>
      match dict_get (py k) d with
      | Some x => Return x
      | None => Raise (key_error k)
      end
  | PList _ => Raise (Exn TypeError (py "list indices must be integers or slices, not str"))
  | PStr _ => Raise (Exn TypeError (py "string indices must be integers, not 'str'"))
  | _ => Raise (not_subscriptable v)
  end.

(** [v[0]]. *)
Definition py_first (v : pyval) : result pyval :=
  match v with
  | PList (x :: _) => Return x
  | PList [] => Raise (Exn IndexError (py "list index out of range"))
  | PStr (c :: _) => Return (PStr [c])
  | PStr [] => Raise (Exn IndexError (py "string index out of range"))
  | PDict _ => Raise (Exn KeyError (py "0"))
  | _ => Raise (not_subscriptable v)
  end.

(** [json.loads(v)]: the argument has to be text. *)
Definition py_json_loads (v : pyval) : result pyval :=
  match v with
  | PStr s => json_loads lib s
  | _ => Raise (Exn TypeError
                  (py "the JSON object must be str, bytes or bytearray, not "
                   ++ py (type_name v)))
  end.

(** [json.loads(response['body'].read())['content'][0]['text']]. *)
Definition first_content_text (raw_body : pystr) : result pyval :=
  match json_loads lib raw_body with
  | Raise e => Raise e
  | Return response_body =>
      match py_getitem response_body "content" with
      | Raise e => Raise e
      | Return blocks =>
          match py_first blocks with
          | Raise e => Raise e
          | Return block => py_getitem block "text"
          end
      end
  end.

Definition user_message (prompt : pystr) : pyval :=
  PList [ PDict [ (py "role", PStr (py "user")); (py "content", PStr prompt) ] ].

Definition sonnet : pystr := py "anthropic.claude-3-sonnet-20240229-v1:0".
Definition haiku : pystr := py "anthropic.claude-3-haiku-20240307-v1:0".

End Common.

(** ** The website-crawl tool (strands_agents/using_multiple_agents.py) *)

Module MultiAgents.

Section Model.

Context {Ext : Type} (svc : services Ext) (lib : pylib) (cfg : config).

Definition crawl_payload (target query : pystr) : pyval :=
  PDict [ (py "url", PStr target);
          (py "sitemap", PStr (py "include"));
          (py "crawlEntireDomain", PBool true);
          (py "prompt", PStr query);
          (py "scrapeOptions",
            PDict [ (py "onlyMainContent", PBool true);
                    (py "maxAge", PInt 172800000);
                    (py "parsers", PList [PStr (py "pdf")]);
                    (py "formats", PList [PStr (py "markdown")]) ]) ].

(** The submission headers.  The source puts the f-prefix on the key,
    [f"Authorization": "Bearer {FIRECRAWL_API_KEY}"], so the value is the
    plain literal, braces included. *)
Definition crawl_post_headers : list (pystr * pystr) :=
  [ (py "Authorization", py "Bearer {FIRECRAWL_API_KEY}");
    (py "Content-Type", py "application/json") ].

(** The retrieval headers: [f"Bearer {FIRECRAWL_API_KEY}"]. *)
Definition crawl_get_headers : list (pystr * pystr) :=
  [ (py "Authorization", py "Bearer " ++ str_of_option (FIRECRAWL_API_KEY cfg)) ].

(** The body of the [try] block. *)
Definition crawl_website_body (target query : pystr) : M Ext pyval :=
  let base_url := py "https://api.firecrawl.dev/v2/crawl" in
  response ← do_post svc (HttpRequest POST base_url crawl_post_headers
                         (Some (crawl_payload target query)) None);
  submitted ← lift_result (response_json response);
  (* the log line evaluates response_json.get('id') *)
  _ ← lift_result (py_get submitted "id" PNone);
  job_id ← lift_result (py_get submitted "id" PNone);
  let result_base_url := base_url ++ py "/" ++ py_str lib job_id in
  final_response ← do_get svc (HttpRequest GET result_base_url crawl_get_headers
                             None None);
  (* the log line evaluates final_respnse.json().get('status') *)
  logged ← lift_result (response_json final_response);
  _ ← lift_result (py_get logged "status" PNone);
  lift_result (response_json final_response).

Definition crawl_website (target query : pystr) : M Ext pyval :=
  try_except (crawl_website_body target query)
    (fun e => mret (PDict [ (py "error", PStr (exn_str e)) ])).

End Model.

End MultiAgents.

(** ** Document ingestion (lambda-layer-1/lambda_function.py) *)

Module Ingestion.

Section Model.

Context {Ext : Type} (svc : services Ext) (lib : pylib) (cfg : config).

Definition extract_pdf_short : pystr :=
  py "WARNING: Extracted text is very short - PDF might be image-based or protected".

Definition page_header (page_num : N) : pystr :=
  py "--- Page " ++ str_of_N (page_num + 1) ++ py " ---" ++ [newline].

(** The per-page loop: [page_num] counts from 0. *)
Fixpoint pdf_text_content (page_num : N) (pages : list (result pystr))
  : list pystr :=
  match pages with
  | [] => []
  | Return page_text :: rest =>
      (if nonempty (strip page_text)
       then [page_header page_num ++ page_text] else [])
      ++ pdf_text_content (page_num + 1) rest
  | Raise _ :: rest =>
      (page_header page_num ++ py "[Error extracting page content]")
      :: pdf_text_content (page_num + 1) rest
  end.

Definition extract_pdf_text (pdf_bytes : bytes) : pystr :=
  if negb (PDF_SUPPORT cfg)
  then py "ERROR: PDF processing not available - PyPDF2 library not installed"
  else
    match pdf_pages lib pdf_bytes with
    | Return pages =>
        let full_text := join [newline; newline] (pdf_text_content 0 pages) in
        if len (strip full_text) <? 10 then extract_pdf_short else full_text
    | Raise e => py "Error processing PDF: " ++ exn_str e
    end.

Definition extract_docx_text (docx_bytes : bytes) : pystr :=
  if negb (DOCX_SUPPORT cfg)
  then py "ERROR: Word document processing not available - python-docx library not installed"
  else
    match docx_paragraphs lib docx_bytes with
    | Return paragraphs =>
        let full_text :=
          join [newline] (filter (fun t => nonempty (strip t) = true) paragraphs) in
        if len (strip full_text) <? 10
        then py "WARNING: Extracted text is very short - document might be empty"
        else full_text
    | Raise e => py "Error processing Word document: " ++ exn_str e
    end.

Record extraction_result : Type := ExtractionResult {
  filename : pystr;
  file_extension : pystr;
  file_size : N;
  extraction_method : pystr;
  extraction_success : bool;
  content : pystr;
  metadata : pydict;
  warnings : list pystr;
}.

Definition set_content (c : pystr) (r : extraction_result) : extraction_result :=
  ExtractionResult (filename r) (file_extension r) (file_size r)
    (extraction_method r) (extraction_success r) c (metadata r) (warnings r).

Definition set_method (m : pystr) (r : extraction_result) : extraction_result :=
  ExtractionResult (filename r) (file_extension r) (file_size r)
    m (extraction_success r) (content r) (metadata r) (warnings r).

Definition set_success (b : bool) (r : extraction_result) : extraction_result :=
  ExtractionResult (filename r) (file_extension r) (file_size r)
    (extraction_method r) b (content r) (metadata r) (warnings r).

Definition set_metadata (k : pystr) (v : pyval) (r : extraction_result)
  : extraction_result :=
  ExtractionResult (filename r) (file_extension r) (file_size r)
    (extraction_method r) (extraction_success r) (content r)
    (dict_set k v (metadata r)) (warnings r).

Definition add_warning (w : pystr) (r : extraction_result) : extraction_result :=
  ExtractionResult (filename r) (file_extension r) (file_size r)
    (extraction_method r) (extraction_success r) (content r) (metadata r)
    (warnings r ++ [w]).

Definition _get_file_extension (name : pystr) : pystr :=
  if contains_char dot name
  then dot :: List.last (split_on dot name) []
  else [].

(** The encodings tried for [.txt], [.md] and [.csv], in order. *)
Inductive encoding : Type := UTF_8 | UTF_8_SIG | LATIN_1 | CP1252.

Definition encoding_name (enc : encoding) : pystr :=
  match enc with
  | UTF_8 => py "utf-8"
  | UTF_8_SIG => py "utf-8-sig"
  | LATIN_1 => py "latin-1"
  | CP1252 => py "cp1252"
  end.

Definition text_encodings : list encoding := [UTF_8; UTF_8_SIG; LATIN_1; CP1252].

(** [utf-8-sig] drops a leading byte-order mark EF BB BF. *)
Definition drop_bom (b : bytes) : bytes :=
  match b with
  | xef :: xbb :: xbf :: rest => rest
  | _ => b
  end.

(** [file_bytes.decode(encoding)].  Latin-1 maps every byte to the code
    point of the same number. *)
Definition decode (enc : encoding) (b : bytes) : pystr + pystr :=
  match enc with
  | UTF_8 => decode_utf8 lib b
  | UTF_8_SIG => decode_utf8 lib (drop_bom b)
  | LATIN_1 => inl (Byte.to_N <$> b)
  | CP1252 => decode_cp1252 lib b
  end.

(** The [for encoding in ...: try ... break / except: continue] loop:
    the first encoding that decodes, with the text; [None] is the
    [else] branch of the loop. *)
Fixpoint try_encodings (encs : list encoding) (b : bytes)
  : option (encoding * pystr) :=
  match encs with
  | [] => None
  | enc :: rest =>
      match decode enc b with
      | inl text => Some (enc, text)
      | inr _ => try_encodings rest b
      end
  end.

Definition fallback_warning : pystr :=
  py "Used fallback encoding - some characters might be corrupted".

Definition json_keys_of (v : pyval) : pyval :=
  match v with
  | PDict d => PList (PStr <$> dict_keys d)
  | _ => PNone
  end.

(** The branch on the extension, inside the [try]: the record as the
    branch leaves it, and the exception when one escapes the branch. *)
Definition extract_branch (file_bytes : bytes) (r : extraction_result)
  : extraction_result * option exn :=
  let ext := lower (file_extension r) in
  if decide (ext = py ".pdf") then
    (set_method (py "PyPDF2") (set_content (extract_pdf_text file_bytes) r), None)
  else if decide (ext = py ".docx" ∨ ext = py ".doc") then
    if decide (ext = py ".docx") then
      (set_method (py "python-docx")
         (set_content (extract_docx_text file_bytes) r), None)
    else
      (add_warning (py "Legacy .doc format not supported")
         (set_content
            (py "ERROR: .doc files not supported, please convert to .docx") r),
       None)
  else if decide (ext = py ".txt" ∨ ext = py ".md" ∨ ext = py ".csv") then
    match try_encodings text_encodings file_bytes with
    | Some (enc, text) =>
        (set_method (py "text_decode_" ++ encoding_name enc) (set_content text r),
         None)
    | None =>
        (add_warning fallback_warning
           (set_method (py "text_decode_fallback")
              (set_content (decode_utf8_ignore lib file_bytes) r)), None)
    end
  else if decide (ext = py ".json") then
    match decode_utf8 lib file_bytes with
    | inr msg => (r, Some (Exn UnicodeDecodeError msg))
    | inl text =>
        match json_loads lib text with
        | Return json_content =>
            (set_metadata (py "json_keys") (json_keys_of json_content)
               (set_method (py "json_parse")
                  (set_content (json_dumps_indent2 lib json_content) r)), None)
        | Raise e =>
            if is_JSONDecodeError e
            then (set_content (py "ERROR: Invalid JSON file - " ++ exn_str e) r, None)
            else (r, Some e)
        end
    end
  else
    match decode_utf8 lib file_bytes with
    | inl text =>
        (add_warning (py "Unsupported file type " ++ file_extension r
                        ++ py ", treated as text")
           (set_method (py "generic_text") (set_content text r)), None)
    | inr _ =>
        (add_warning (py "Unsupported file type " ++ file_extension r
                        ++ py ", used fallback text extraction")
           (set_method (py "generic_text_fallback")
              (set_content (decode_utf8_ignore lib file_bytes) r)), None)
    end.

(** "Check if extraction was successful". *)
Definition check_success (r : extraction_result) : extraction_result :=
  if nonempty (content r) && negb (startswith (py "ERROR:") (content r))
  then set_success true r else r.

(** "Add content statistics". *)
Definition add_statistics (r : extraction_result) : extraction_result :=
  let c := content r in
  set_metadata (py "has_content") (PBool (0 <? len (strip c)))
    (set_metadata (py "line_count")
       (PInt (Z.of_N (if nonempty c then count_char newline c + 1 else 0)))
       (set_metadata (py "word_count")
          (PInt (Z.of_N (if nonempty c then count_words false c else 0)))
          (set_metadata (py "content_length") (PInt (Z.of_N (len c))) r))).

Definition extract_text_content (file_bytes : bytes) (name : pystr)
  : extraction_result :=
  let r0 := ExtractionResult name (_get_file_extension name)
              (N.of_nat (length file_bytes)) (py "unknown") false [] [] [] in
  match extract_branch file_bytes r0 with
  | (r, None) => add_statistics (check_success r)
  | (r, Some e) =>
      add_warning (py "Unexpected error during extraction: " ++ exn_str e)
        (set_content (py "ERROR: Failed to process file - " ++ exn_str e) r)
  end.

Definition _generate_session_id (name content : pystr) : M Ext pystr :=
  let base_name :=
    if contains_char dot name then List.hd [] (split_on dot name) else name in
  data ← lift_result (encode_utf8 lib content);
  let content_hash := take 8 (md5_hexdigest lib data) in
  now ← ask (time_time svc);
  let timestamp := last_chars 6 (str_of_N now) in
  mret (base_name ++ py "_" ++ content_hash ++ py "_" ++ timestamp).

Definition document_item (sid : pystr) (r : extraction_result)
    (bucket key : pystr) (created updated : N) (stamp : pystr) : item :=
  let c := content r in
  let content_truncated := MAX_CONTENT_SIZE cfg <? len c in
  let stored_content :=
    if content_truncated then take (N.to_nat (MAX_CONTENT_SIZE cfg)) c else c in
  Item (Some (py "document_processed")) (Some stored_content)
    None None None None None (Some (PInt (Z.of_N updated)))
    ([ (py "session_id", PStr sid);
       (py "content_truncated", PBool content_truncated);
       (py "full_content_length", PInt (Z.of_N (len c)));
       (py "original_filename", PStr (filename r));
       (py "file_type", PStr (file_extension r));
       (py "file_size", PInt (Z.of_N (file_size r)));
       (py "extraction_method", PStr (extraction_method r));
       (py "extraction_success", PBool (extraction_success r));
       (py "extraction_warnings", PList (PStr <$> warnings r));
       (py "content_metadata", PDict (metadata r));
       (py "s3_bucket", PStr bucket);
       (py "s3_key", PStr key);
       (py "created_at", PInt (Z.of_N created));
       (py "processing_timestamp", PStr stamp) ]
     ++ (if content_truncated
         then [ (py "full_content_s3_location",
                 PStr (py "s3://" ++ bucket ++ py "/" ++ key)) ]
         else [])).

(** [put_item] replaces the record under the key; a fault of the call
    is what the source's [except] turns into [False]. *)
Definition store_document_data (sid : pystr) (r : extraction_result)
    (bucket key : pystr) : M Ext bool :=
  try_except
    (created ← ask (time_time svc);
     updated ← ask (time_time svc);
     stamp ← ask (utcnow_isoformat svc);
     let it := document_item sid r bucket key created updated stamp in
     fault ← ask (put_item_fault svc);
     match fault with
     | Some e => raise e
     | None => tbl ← get_table; set_table (<[sid := it]> tbl);; mret true
     end)
    (fun _ => mret false).

Definition _update_error_state (sid error_text : pystr) : M Ext unit :=
  try_except
    (now ← ask (time_time svc);
     fault ← ask (update_item_fault svc);
     match fault with
     | Some e => raise e
     | None =>
         update_item sid [] (fun it =>
           Item (Some (py "error_document_processing")) (document_content it)
             (analysis_result it) (extracted_topics it) (research_findings it)
             (final_report it) (Some error_text) (Some (PInt (Z.of_N now)))
             (other_attrs it))
     end)
    (fun _ => mret tt).

Definition trigger_next_stage (sid : pystr) : M Ext bool :=
  try_except
    (stamp ← ask (utcnow_isoformat svc);
     _ ← invoke_async svc lib (NEXT_FUNCTION_NAME cfg)
           (PDict [ (py "session_id", PStr sid);
                    (py "trigger_source", PStr (py "document_ingestion"));
                    (py "timestamp", PStr stamp) ]);
     mret true)
    (fun e =>
       _update_error_state sid
         (py "Failed to trigger analysis stage: " ++ exn_str e);;
       mret false).

(** One entry of [event['Records']]. *)
Record s3_entity : Type := S3Entity { bucket_name : pystr; object_key : pystr }.

Record event_record : Type := EventRecord {
  eventSource : option pystr;
  s3 : option s3_entity;
}.

(** An event that is not a mapping: JSON [null], a boolean, a number, a
    string or a list. *)
Inductive non_mapping : Type :=
| NullEvent
| BoolEvent (b : bool)
| IntEvent (z : Z)
| FloatEvent (repr : string)
| TextEvent (s : pystr)
| ListEvent (l : list pyval).

Definition event_value (e : non_mapping) : pyval :=
  match e with
  | NullEvent => PNone
  | BoolEvent b => PBool b
  | IntEvent z => PInt z
  | FloatEvent r => PFloat r
  | TextEvent s => PStr s
  | ListEvent l => PList l
  end.

(** The ingestion events of the model: a mapping whose ['Records'] is a
    list of records (each a mapping; its ['s3'] entry, when it has one,
    names a bucket and a key); a mapping without ['Records'] whose
    ['bucket'] and ['key'] are strings; a mapping with neither ['Records']
    nor both ['bucket'] and ['key']; and an event that is not a mapping. *)
Inductive ingestion_event : Type :=
| RecordsEvent (records : list event_record)
| DirectEvent (bucket key : pystr)
| OtherEvent
| NonMappingEvent (e : non_mapping).

Definition document_extensions : list pystr :=
  [ py ".pdf"; py ".txt"; py ".docx"; py ".doc"; py ".md"; py ".json"; py ".csv" ].

Definition get_object (bucket key : pystr) : M Ext bytes :=
  call (s3_get_object svc bucket key).

(** The body of the loop over [event['Records']] for one record. *)
Definition process_record (record : event_record) : M Ext unit :=
  if decide (eventSource record = Some (py "aws:s3")) then
    match s3 record with
    | None => raise (key_error "s3")
    | Some loc =>
        let bucket := bucket_name loc in
        let key := object_key loc in
        if negb (existsb (fun e => endswith e (lower key)) document_extensions)
        then mret tt
        else
          fetched ← try_except (b ← get_object bucket key; mret (Some b))
                       (fun _ => mret None);
          match fetched with
          | None => mret tt
          | Some file_bytes =>
              let r := extract_text_content file_bytes key in
              if negb (extraction_success r) then mret tt
              else
                sid ← _generate_session_id key (content r);
                stored ← store_document_data sid r bucket key;
                if (stored : bool) then _ ← trigger_next_stage sid; mret tt
                else mret tt
          end
    end
  else mret tt.

Fixpoint process_records (records : list event_record) : M Ext unit :=
  match records with
  | [] => mret tt
  | record :: rest => process_record record;; process_records rest
  end.

Definition ingestion_completed : pyval :=
  response 200
    (json_dumps lib (PDict [ (py "message", PStr (py "Document ingestion completed")) ])).

Definition lambda_handler (event : ingestion_event) : M Ext pyval :=
  try_except
    (match event with
     | RecordsEvent records =>
         process_records records;; mret ingestion_completed
     | DirectEvent bucket key =>
         file_bytes ← get_object bucket key;
         let r := extract_text_content file_bytes key in
         sid ← _generate_session_id key (content r);
         stored ← store_document_data sid r bucket key;
         if (stored : bool) then
           _ ← trigger_next_stage sid;
           mret (response 200
                   (json_dumps lib
                      (PDict [ (py "message", PStr (py "Document processed successfully"));
                               (py "session_id", PStr sid);
                               (py "extraction_success", PBool (extraction_success r));
                               (py "content_length", PInt (Z.of_N (len (content r))));
                               (py "warnings", PList (PStr <$> warnings r)) ])))
         else mret ingestion_completed
     | OtherEvent =>
         mret (response 400 (error_body lib (py "Invalid event format")))
     | NonMappingEvent e =>
         (* the membership tests raise on a value that is not a container;
            the subscript of a string or a list by a string raises, and
            what follows it is not reached *)
         let event := event_value e in
         has_records ← lift_result (py_contains "Records" event);
         if (has_records : bool) then
           _ ← lift_result (py_getitem event "Records");
           mret ingestion_completed
         else
           has_bucket ← lift_result (py_contains "bucket" event);
           has_key ← (if (has_bucket : bool)
                       then lift_result (py_contains "key" event) else mret false);
           if has_bucket && has_key then
             _ ← lift_result (py_getitem event "bucket");
             mret ingestion_completed
           else mret (response 400 (error_body lib (py "Invalid event format")))
     end)
    (fun e => mret (response 500 (error_body lib (exn_str e)))).

End Model.

End Ingestion.

(** ** The Analysis Stage (lambda-layer-2/analysis_lambda.py) *)

Module Analysis.

Section Model.

Context {Ext : Type} (svc : services Ext) (lib : pylib) (cfg : config).

Definition invoke_bedrock_model (prompt : pystr) : M Ext pyval :=
  let request_body :=
    json_dumps lib
      (PDict [ (py "anthropic_version", PStr (py "bedrock-2023-05-31"));
               (py "max_tokens", PInt 4000);
               (py "messages", user_message prompt) ]) in
  raw ← call (bedrock_invoke_model svc sonnet request_body);
  lift_result (first_content_text lib raw).

Definition update_workflow_error (sid error_text : pystr) : M Ext unit :=
  now ← ask (time_time svc);
  update_item sid [] (fun it =>
    Item (Some (py "error")) (document_content it) (analysis_result it)
      (extracted_topics it) (research_findings it) (final_report it)
      (Some error_text) (Some (PInt (Z.of_N now))) (other_attrs it)).

Definition analysis_prompt (document : pystr) : pystr :=
  lines [ [];
          py "    Analyze the following document and extract:";
          py "    1. Key topics (max 5)";
          py "    2. Important entities (people, organizations, locations)";
          py "    3. Main themes";
          py "    4. Research questions that provide valuable context";
          py "    ";
          py "    Document:";
          py "    " ++ document;
          py "    ";
          py "    Respond in JSON format with keys: topics, entities, themes, research_questions";
          py "    " ].

Definition lambda_handler (event : stage_event) : M Ext pyval :=
  match event_session_id event with
  | None | Some [] =>
      mret (response 400 (error_body lib (py "Missing session_id")))
  | Some sid =>
      tbl ← get_table;
      match tbl !! sid with
      | None => mret (response 404 (error_body lib (py "Session not found")))
      | Some it =>
          let document := default [] (document_content it) in
          if negb (nonempty document)
          then mret (response 400 (error_body lib (py "No document content found")))
          else
            outcome ← try_except
              (response_text ← invoke_bedrock_model (analysis_prompt document);
               parsed ← lift_result (py_json_loads lib response_text);
               mret (inl parsed))
              (fun e =>
                 update_workflow_error sid (py "Bedrock analysis failed: " ++ exn_str e);;
                 mret (inr (response 500 (error_body lib (exn_str e)))));
            match outcome with
            | inr failed => mret failed
            | inl parsed =>
                topics ← lift_result (py_get parsed "topics" (PList []));
                now ← ask (time_time svc);
                update_item sid [parsed; topics] (fun it =>
                  Item (Some (py "analysis_complete")) (document_content it)
                    (Some parsed) (Some topics) (research_findings it)
                    (final_report it) (error_message it)
                    (Some (PInt (Z.of_N now))) (other_attrs it));;
                try_except
                  (_ ← invoke_async svc lib (py "research-agent")
                         (PDict [ (py "session_id", PStr sid) ]);
                   mret tt)
                  (fun e =>
                     update_workflow_error sid
                       (py "Failed to trigger research stage: " ++ exn_str e));;
                mret (response 200
                        (json_dumps lib
                           (PDict [ (py "message", PStr (py "Analysis complete"));
                                    (py "session_id", PStr sid) ])))
            end
      end
  end.

End Model.

End Analysis.

(** ** The Research Stage (lambda-layer-3/research_lambda.py) *)

Module Research.

Section Model.

Context {Ext : Type} (svc : services Ext) (lib : pylib) (cfg : config).

Definition get_tavily_api_key : M Ext pystr :=
  match TAVILY_API_KEY cfg with
  | Some (c :: k) => mret (c :: k)
  | _ =>
      try_except (call (ssm_get_parameter svc (py "/lambda/tavily/api-key")))
        (fun _ => mret [])
  end.

(** [for x in v]. *)
Definition py_iter (v : pyval) : result (list pyval) :=
  match v with
  | PList l => Return l
  | PStr s => Return ((fun c => PStr [c]) <$> s)
  | PDict d => Return (PStr <$> dict_keys d)
  | _ => Raise (Exn TypeError
                  (py "'" ++ py (type_name v) ++ py "' object is not iterable"))
  end.

(** One entry of the result list built from [data["results"]]. *)
Definition search_result (entry : pyval) : result pyval :=
  match entry with
  | PDict d =>
      Return (PDict
        [ (py "title", default (PStr []) (dict_get (py "title") d));
          (py "url", default (PStr []) (dict_get (py "url") d));
          (py "content", default (PStr []) (dict_get (py "content") d));
          (py "score", default (PInt 0) (dict_get (py "score") d));
          (py "published_date", default (PStr []) (dict_get (py "published_date") d)) ])
  | _ => py_get entry "title" (PStr [])
  end.

Fixpoint search_results (entries : list pyval) : result (list pyval) :=
  match entries with
  | [] => Return []
  | entry :: rest =>
      match search_result entry with
      | Raise e => Raise e
      | Return r =>
          match search_results rest with
          | Raise e => Raise e
          | Return rs => Return (r :: rs)
          end
      end
  end.

Definition tavily_summary (answer : pyval) : pyval :=
  PDict [ (py "title", PStr (py "Tavily AI Summary"));
          (py "url", PStr (py "tavily://answer"));
          (py "content", answer);
          (py "score", PFloat "1.0");
          (py "published_date", PStr []) ].

(** What follows [data = response.json()] inside the [try]. *)
Definition format_results (data : pyval) : result (list pyval) :=
  match py_contains "results" data with
  | Raise e => Raise e
  | Return has_results =>
      let listed :=
        if has_results
        then match py_getitem data "results" with
             | Raise e => Raise e
             | Return entries =>
                 match py_iter entries with
                 | Raise e => Raise e
                 | Return es => search_results es
                 end
             end
        else Return [] in
      match listed with
      | Raise e => Raise e
      | Return results =>
          match py_get data "answer" (PStr []) with
          | Raise e => Raise e
          | Return tavily_answer =>
              Return (if truthy tavily_answer
                      then tavily_summary tavily_answer :: results
                      else results)
          end
      end
  end.

Definition perform_tavily_search (query : pystr) : M Ext (list pyval) :=
  api_key ← get_tavily_api_key;
  if negb (nonempty api_key)
  then raise (Exn ValueError (py "Tavily API key not found"))
  else
    let request :=
      HttpRequest POST (py "https://api.tavily.com/search")
        [ (py "Content-Type", py "application/json") ]
        (Some (PDict [ (py "api_key", PStr api_key);
                       (py "query", PStr query);
                       (py "search_depth", PStr (py "advanced"));
                       (py "include_answer", PBool true);
                       (py "include_raw_content", PBool false);
                       (py "max_results", PInt 5);
                       (py "include_domains", PList []);
                       (py "exclude_domains", PList []) ]))
        (Some 30) in
    try_except
      (resp ← do_post svc request;
       lift_result (raise_for_status resp);;
       data ← lift_result (response_json resp);
       lift_result (format_results data))
      (fun e =>
         if is_RequestException e
         then raise (Exn PlainException (py "Tavily API request failed: " ++ exn_str e))
         else if is_JSONDecodeError e
         then raise (Exn PlainException
                       (py "Failed to parse Tavily API response: " ++ exn_str e))
         else raise e).

Definition quoted (s : string) : pystr := [34] ++ py s ++ [34].

Definition research_prompt (question : pystr) (raw_results : list pyval) : pystr :=
  lines [ [];
          py "            You are a research assistant. Summarize the following search results for the question:";
          py "            ";
          py "            Question: " ++ question;
          py "            Results: " ++ json_dumps_indent2 lib (PList raw_results);
          py "            ";
          py "            Provide a factual, concise answer in JSON format:";
          py "            {";
          py "              " ++ quoted "summary" ++ py ": " ++ quoted "..." ++ py ",";
          py "              " ++ quoted "reliability_score" ++ py ": "
            ++ quoted "High/Medium/Low" ++ py ",";
          py "              " ++ quoted "sources" ++ py ": [" ++ quoted "url1"
            ++ py ", " ++ quoted "url2" ++ py "],";
          py "              " ++ quoted "key_findings" ++ py ": [" ++ quoted "finding1"
            ++ py ", " ++ quoted "finding2" ++ py "]";
          py "            }";
          py "            " ].

Definition finding (summary : pystr) : pyval :=
  PDict [ (py "summary", PStr summary);
          (py "reliability_score", PStr (py "Low"));
          (py "sources", PList []);
          (py "key_findings", PList []) ].

Definition invoke_bedrock_model (prompt model_id : pystr) : M Ext pyval :=
  let body :=
    json_dumps lib
      (PDict [ (py "anthropic_version", PStr (py "bedrock-2023-05-31"));
               (py "max_tokens", PInt 1500);
               (py "temperature", PFloat "0.1");
               (py "messages", user_message prompt) ]) in
  try_except
    (raw ← call (bedrock_invoke_model svc model_id body);
     text ← lift_result (first_content_text lib raw);
     lift_result (py_json_loads lib text))
    (fun e =>
       if is_JSONDecodeError e
       then mret (finding (py "Error parsing model response"))
       else raise (Exn PlainException
                     (py "Bedrock model invocation failed: " ++ exn_str e))).

(** The [try] of the per-question loop: search, then validate. *)
Definition answer_question (question : pystr) : M Ext pyval :=
  raw_results ← perform_tavily_search question;
  invoke_bedrock_model (research_prompt question raw_results) sonnet.

(** The finding the loop stores under [question]: the validated answer,
    or the fallback of the [except]. *)
Definition process_question (question : pystr) : M Ext pyval :=
  try_except (answer_question question)
    (fun e => mret (finding (py "Error processing question: " ++ exn_str e))).

Fixpoint research_loop (questions : list pystr) (findings : pydict) : M Ext pydict :=
  match questions with
  | [] => mret findings
  | question :: rest =>
      found ← process_question question;
      research_loop rest (dict_set question found findings)
  end.

Definition trigger_next_stage (sid next_function : pystr) : M Ext pyval :=
  try_except
    (status ← invoke_async svc lib next_function
                (PDict [ (py "session_id", PStr sid);
                         (py "previous_stage", PStr (py "research_complete")) ]);
     mret (PDict [ (py "statusCode", PInt 200);
                   (py "message", PStr (py "Successfully triggered " ++ next_function));
                   (py "invocation_response", status) ]))
    (fun e =>
       mret (PDict [ (py "statusCode", PInt 500);
                     (py "message",
                      PStr (py "Failed to trigger " ++ next_function ++ py ": "
                            ++ exn_str e)) ])).

Fixpoint as_strings (l : list pyval) : option (list pystr) :=
  match l with
  | [] => Some []
  | PStr s :: rest => cons s <$> as_strings rest
  | _ :: _ => None
  end.

(** The findings dict is keyed by the question, and the table holds
    string-keyed maps: the loop is modelled for questions that are
    strings.  What the stage does when [research_questions] iterates
    over anything else is left open as [research_untyped]. *)
Variable research_untyped : pystr -> list pyval -> lambda_context -> M Ext pyval.

Definition no_questions : pyval :=
  PDict [ (py "statusCode", PInt 400);
          (py "body", PStr (py "No research questions found")) ].

Definition lambda_handler (event : stage_event)
    (context : lambda_context) : M Ext pyval :=
  match event_session_id event with
  | None => raise (key_error "session_id")
  | Some sid =>
      tbl ← get_table;
      match tbl !! sid with
      | None => raise (key_error "Item")
      | Some it =>
          research_questions ←
            lift_result (stored_get (default (PDict []) (analysis_result it))
                           "research_questions" (PList []));
          if negb (truthy research_questions) then mret no_questions
          else
            iterated ← lift_result (stored_iter research_questions);
            match as_strings iterated with
            | None => research_untyped sid iterated context
            | Some questions =>
                findings ← research_loop questions [];
                update_item sid [PDict findings] (fun it =>
                  Item (Some (py "research_complete")) (document_content it)
                    (analysis_result it) (extracted_topics it) (Some findings)
                    (final_report it) (error_message it)
                    (Some (PStr (aws_request_id context))) (other_attrs it));;
                trigger_next_stage sid (py "report-generation-agent")
            end
      end
  end.

End Model.

End Research.

(** ** The Report Generation Stage (lambda-layer-4/report_lambda.py) *)

Module Report.

Section Model.

Context {Ext : Type} (svc : services Ext) (lib : pylib) (cfg : config).

Definition report_prompt (document : pystr) (analysis findings : pyval) : pystr :=
  lines [ [];
          py "    You are a professional research report writer.";
          py "    ";
          py "    Create a detailed research report using the following information:";
          py "    ";
          py "    - Original Document:";
          py "    " ++ take 1000 document ++ py "...";
          py "    ";
          py "    - Document Analysis:";
          py "    " ++ json_dumps_indent2 lib analysis;
          py "    ";
          py "    - Research Findings:";
          py "    " ++ json_dumps_indent2 lib findings;
          py "    ";
          py "    Structure the report with:";
          py "    1. Executive Summary";
          py "    2. Key Findings";
          py "    3. Detailed Analysis";
          py "    4. Supporting Research";
          py "    5. Conclusions and Recommendations";
          py "    ";
          py "    Write in clear, professional English.";
          py "    " ].

Definition invoke_bedrock_model (prompt model_id : pystr) : M Ext pyval :=
  let body :=
    json_dumps lib
      (PDict [ (py "anthropic_version", PStr (py "bedrock-2023-05-31"));
               (py "max_tokens", PInt 4000);
               (py "messages", user_message prompt) ]) in
  raw ← call (bedrock_invoke_model svc model_id body);
  lift_result (first_content_text lib raw).

(** [report_text.encode("utf-8")]. *)
Definition py_encode (v : pyval) : result (pystr * bytes) :=
  match v with
  | PStr s =>
      match encode_utf8 lib s with
      | Return b => Return (s, b)
      | Raise e => Raise e
      end
  | _ => Raise (Exn AttributeError
                  (py "'" ++ py (type_name v) ++ py "' object has no attribute 'encode'"))
  end.

Definition report_bucket : pystr := py "learningawswithdadiyaharshwappnet".

Definition lambda_handler (event : stage_event) : M Ext pyval :=
  match event_session_id event with
  | None => raise (key_error "session_id")
  | Some sid =>
      tbl ← get_table;
      match tbl !! sid with
      | None => raise (key_error "Item")
      | Some it =>
          let analysis := default (PDict []) (analysis_result it) in
          let findings := PDict (default [] (research_findings it)) in
          let document := default [] (document_content it) in
          (* the two json.dumps of the prompt *)
          _ ← lift_result (dumps_stored (json_dumps_indent2 lib) analysis);
          _ ← lift_result (dumps_stored (json_dumps_indent2 lib) findings);
          report_text ← invoke_bedrock_model
                          (report_prompt document analysis findings) haiku;
          key_time ← ask (time_time svc);
          let report_key :=
            py "reports/" ++ sid ++ py "_report_" ++ str_of_N key_time ++ py ".txt" in
          '(text, body) ← lift_result (py_encode report_text);
          log_s3_put (S3Object report_bucket report_key body (py "text/plain"));;
          now ← ask (time_time svc);
          update_item sid [] (fun it =>
            Item (Some (py "report_generated")) (document_content it)
              (analysis_result it) (extracted_topics it) (research_findings it)
              (Some text) (error_message it) (Some (PInt (Z.of_N now)))
              (other_attrs it));;
          mret (response 200
                  (json_dumps lib
                     (PDict [ (py "message", PStr (py "Report generated successfully"));
                              (py "session_id", PStr sid);
                              (py "report_s3_url",
                               PStr (py "s3://" ++ report_bucket ++ py "/" ++ report_key)) ])))
      end
  end.

End Model.

End Report.

Import MultiAgents Ingestion Analysis Research Report.

(** ** Vocabulary of the statements *)

(** The mapping the crawl tool returns for an exception. *)
Definition error_mapping (e : exn) : pyval :=
  PDict [ (py "error", PStr (exn_str e)) ].

(** The submission request of the crawl tool. *)
Definition submission (target query : pystr) : http_request :=
  HttpRequest POST (py "https://api.firecrawl.dev/v2/crawl") crawl_post_headers
    (Some (crawl_payload target query)) None.

(** The part of [s] before its first [c]; all of [s] when [c] is absent. *)
Fixpoint before_first (c : N) (s : pystr) : pystr :=
  match s with
  | [] => []
  | x :: s' => if decide (x = c) then [] else x :: before_first c s'
  end.

(** The last six decimal digits of [t], most significant first. *)
Definition six_digits (t : N) : pystr :=
  (fun i => 48 + t / 10 ^ i mod 10) <$> [5; 4; 3; 2; 1; 0].

(** The session identifier in the specification's words: the filename
    without its extension (the extension being what
    [_get_file_extension] takes off the end), the first 8 hex characters
    of the MD5 of the content, the last 6 digits of the timestamp. *)
Definition without_extension (name : pystr) : pystr :=
  take (length name - length (_get_file_extension name)) name.

Definition spec_session_id (lib : pylib) (name : pystr) (data : bytes) (t : N)
  : pystr :=
  without_extension name ++ py "_" ++ take 8 (md5_hexdigest lib data)
  ++ py "_" ++ six_digits t.

(** How a computation may change the world: [respects R m] when every
    run of [m] takes a world to one related to it by [R]. *)
Definition respects {Ext A : Type} (R : relation (world Ext)) (m : M Ext A) : Prop :=
  ∀ w, R w (m w).2.

(** Neither the table, nor the invocations, nor the stored objects change. *)
Definition quiet {Ext : Type} (w w' : world Ext) : Prop :=
  table w' = table w ∧ invoked w' = invoked w ∧ s3_written w' = s3_written w.

(** The stage of the record of a session, when there is one. *)
Definition stage_of {Ext : Type} (w : world Ext) (sid : pystr) : option pystr :=
  table w !! sid ≫= workflow_stage.

(** Only the record of [sid] may change, and when it does its stage
    afterwards is one of [stages]. *)
Definition advances {Ext : Type} (sid : pystr) (stages : list pystr)
    (w w' : world Ext) : Prop :=
  (∀ k, k ≠ sid → table w' !! k = table w !! k)
  ∧ (table w' !! sid = table w !! sid
     ∨ ∃ s, stage_of w' sid = Some s ∧ s ∈ stages).

(** Every object the storage hands out for this record fails extraction. *)
Definition extraction_fails {Ext : Type} (svc : services Ext) (lib : pylib)
    (cfg : config) (record : event_record) : Prop :=
  ∀ loc file_bytes x x',
    s3 record = Some loc →
    s3_get_object svc (bucket_name loc) (object_key loc) x = (Return file_bytes, x') →
    extraction_success (extract_text_content lib cfg file_bytes (object_key loc)) = false.

(** [d[k] = v] for each pair in turn. *)
Definition dict_set_all {V : Type} (kvs : list (pystr * V)) (d : list (pystr * V))
  : list (pystr * V) :=
  fold_left (fun d kv => dict_set kv.1 kv.2 d) kvs d.

(** The research loop in the specification's words: each question in
    turn gets one finding, the validated answer or, when answering it
    raises, the fallback with the error text.  The second component is the
    world after the last question. *)
Fixpoint answer_all {Ext : Type} (svc : services Ext) (lib : pylib) (cfg : config)
    (questions : list pystr) (w : world Ext) : list pyval * world Ext :=
  match questions with
  | [] => ([], w)
  | question :: rest =>
      let '(r, w1) := answer_question svc lib cfg question w in
      let found :=
        match r with
        | Return validated => validated
        | Raise e => finding (py "Error processing question: " ++ exn_str e)
        end in
      let '(others, w2) := answer_all svc lib cfg rest w1 in
      (found :: others, w2)
  end.


(** The order of the stages that are not error states. *)
Definition stage_rank (s : pystr) : option nat :=
  if decide (s = py "document_processed") then Some 0%nat
  else if decide (s = py "analysis_complete") then Some 1%nat
  else if decide (s = py "research_complete") then Some 2%nat
  else if decide (s = py "report_generated") then Some 3%nat
  else None.

Definition error_stage (s : pystr) : Prop :=
  s = py "error" ∨ s = py "error_document_processing".

(** [b] is not behind [a]: the same, or [a] is a stage of the order and
    [b] is a later one or an error state.  An error state, or no stage,
    is followed by itself only. *)
Definition not_behind (a b : option pystr) : Prop :=
  a = b
  ∨ ∃ s s' ra, a = Some s ∧ b = Some s' ∧ stage_rank s = Some ra
      ∧ (error_stage s' ∨ ∃ rb, stage_rank s' = Some rb ∧ (ra ≤ rb)%nat).

(** One execution of a downstream stage. *)
Inductive stage_call : Type :=
| RunAnalysis (event : stage_event)
| RunResearch (event : stage_event) (context : lambda_context)
| RunReport (event : stage_event).

Definition call_event (c : stage_call) : stage_event :=
  match c with
  | RunAnalysis event | RunResearch event _ | RunReport event => event
  end.

Definition run_stage {Ext : Type} (svc : services Ext) (lib : pylib) (cfg : config)
    (untyped : pystr -> list pyval -> lambda_context -> M Ext pyval)
    (c : stage_call) : M Ext pyval :=
  match c with
  | RunAnalysis event => Analysis.lambda_handler svc lib event
  | RunResearch event context => Research.lambda_handler svc lib cfg untyped event context
  | RunReport event => Report.lambda_handler svc lib event
  end.

Fixpoint run_stages {Ext : Type} (svc : services Ext) (lib : pylib) (cfg : config)
    (untyped : pystr -> list pyval -> lambda_context -> M Ext pyval)
    (cs : list stage_call) (w : world Ext) : world Ext :=
  match cs with
  | [] => w
  | c :: rest => run_stages svc lib cfg untyped rest (run_stage svc lib cfg untyped c w).2
  end.

(** The stage a record is in when the pipeline hands it to a stage: the
    one its predecessor sets on success. *)
Definition expected_stage (c : stage_call) : pystr :=
  match c with
  | RunAnalysis _ => py "document_processed"
  | RunResearch _ _ => py "analysis_complete"
  | RunReport _ => py "research_complete"
  end.

(** The record's research questions, when the stage would loop over
    them, are strings. *)
Definition typed_questions (it : item) : bool :=
  match py_get (default (PDict []) (analysis_result it)) "research_questions" (PList []) with
  | Return research_questions =>
      if truthy research_questions
      then match py_iter research_questions with
           | Return iterated =>
               match as_strings iterated with Some _ => true | None => false end
           | Raise _ => true
           end
      else true
  | Raise _ => true
  end.

(** The hand-off of the pipeline: the stage is run for a session whose
    record is in the stage its predecessor left it in. *)
Definition handed_off {Ext : Type} (c : stage_call) (w : world Ext) : bool :=
  match event_session_id (call_event c) with
  | Some sid =>
      match table w !! sid with
      | Some it =>
          bool_decide (workflow_stage it = Some (expected_stage c))
          && match c with RunResearch _ _ => typed_questions it | _ => true end
      | None => false
      end
  | None => false
  end.

Fixpoint handoff_run {Ext : Type} (svc : services Ext) (lib : pylib) (cfg : config)
    (untyped : pystr -> list pyval -> lambda_context -> M Ext pyval)
    (cs : list stage_call) (w : world Ext) : bool :=
  match cs with
  | [] => true
  | c :: rest =>
      handed_off c w
      && handoff_run svc lib cfg untyped rest (run_stage svc lib cfg untyped c w).2
  end.

(** An event holds neither ['Records'] nor both ['bucket'] and ['key'],
    by Python's membership test; [false] when the test raises. *)
Definition lacks_trigger_keys (event : pyval) : bool :=
  match py_contains "Records" event,
        py_contains "bucket" event, py_contains "key" event with
  | Return false, Return has_bucket, Return has_key => negb (has_bucket && has_key)
  | _, _, _ => false
  end.

(** The keys of an entry of the search results, in order. *)
Definition result_keys : list pystr :=
  [ py "title"; py "url"; py "content"; py "score"; py "published_date" ].

Definition result_entry (v : pyval) : Prop :=
  ∃ d, v = PDict d ∧ dict_keys d = result_keys.

(** No search key can be had: the environment has none (or an empty
    one) and the parameter store never hands out a non-empty one. *)
Definition key_unavailable {Ext : Type} (svc : services Ext) (cfg : config) : Prop :=
  (TAVILY_API_KEY cfg = None ∨ TAVILY_API_KEY cfg = Some [])
  ∧ ∀ x, match (ssm_get_parameter svc (py "/lambda/tavily/api-key") x).1 with
         | Return (_ :: _) => False
         | _ => True
         end.

(** The request body of the Research Stage's model call. *)
Definition research_request (lib : pylib) (prompt : pystr) : pystr :=
  json_dumps lib
    (PDict [ (py "anthropic_version", PStr (py "bedrock-2023-05-31"));
             (py "max_tokens", PInt 1500);
             (py "temperature", PFloat "0.1");
             (py "messages", user_message prompt) ]).

(** ** Stand-ins for running the model on concrete inputs

    A printer for the JSON subset, library functions that agree with the
    real ones on the inputs the examples use, and services that answer
    from fixed data. *)
Module Demo.

Definition hex_digit (n : N) : N := if n <? 10 then 48 + n else 87 + n.

Definition hex4 (n : N) : pystr :=
  [ hex_digit (n / 4096 mod 16); hex_digit (n / 256 mod 16);
    hex_digit (n / 16 mod 16); hex_digit (n mod 16) ].

(** [json.dumps] of one character with [ensure_ascii]. *)
Definition escape_char (c : N) : pystr :=
  if c =? 34 then [92; 34]
  else if c =? 92 then [92; 92]
  else if c =? 10 then [92; 110]
  else if c =? 13 then [92; 114]
  else if c =? 9 then [92; 116]
  else if c =? 8 then [92; 98]
  else if c =? 12 then [92; 102]
  else if (32 <=? c) && (c <? 127) then [c]
  else if c <? 65536 then [92; 117] ++ hex4 c
  else let v := c - 65536 in
       [92; 117] ++ hex4 (55296 + v / 1024) ++ [92; 117] ++ hex4 (56320 + v mod 1024).

Definition dumps_str (s : pystr) : pystr :=
  [34] ++ concat (escape_char <$> s) ++ [34].

Definition dumps_int (z : Z) : pystr :=
  if (z <? 0)%Z then py "-" ++ str_of_N (Z.to_N (- z)) else str_of_N (Z.to_N z).

Definition indentation (indent : option nat) (level : nat) : pystr :=
  match indent with
  | None => []
  | Some k => newline :: replicate (k * level) 32
  end.

Definition item_separator (indent : option nat) : pystr :=
  match indent with None => py ", " | Some _ => py "," end.

(** [json.dumps(v)] and [json.dumps(v, indent=k)]. *)
Fixpoint dumps (indent : option nat) (level : nat) (v : pyval) : pystr :=
  match v with
  | PNone => py "null"
  | PBool true => py "true"
  | PBool false => py "false"
  | PInt z => dumps_int z
  | PFloat r => py r
  | PStr s => dumps_str s
  | PList [] => py "[]"
  | PList l =>
      py "["
      ++ join (item_separator indent)
           ((fun x => indentation indent (S level) ++ dumps indent (S level) x) <$> l)
      ++ indentation indent level ++ py "]"
  | PDict [] => py "{}"
  | PDict d =>
      py "{"
      ++ join (item_separator indent)
           ((fun kv => indentation indent (S level) ++ dumps_str kv.1 ++ py ": "
                       ++ dumps indent (S level) kv.2) <$> d)
      ++ indentation indent level ++ py "}"
  end.

(** [json.loads] on the texts of a fixed list of values; anything else
    is refused. *)
Fixpoint loads (known : list pyval) (text : pystr) : result pyval :=
  match known with
  | [] => Raise (Exn JSONDecodeError (py "Expecting value: line 1 column 1 (char 0)"))
  | v :: rest => if decide (dumps None 0 v = text) then Return v else loads rest text
  end.

(** UTF-8 restricted to ASCII input, where it is the identity. *)
Definition decode_ascii (b : bytes) : pystr + pystr :=
  if forallb (fun x => Byte.to_N x <? 128) b
  then inl (Byte.to_N <$> b)
  else inr (py "'utf-8' codec can't decode byte: invalid start byte").

Definition encode_ascii (s : pystr) : result bytes :=
  Return ((fun c => default x00 (Byte.of_N c)) <$> s).

(** [digest] stands for the hex digest of the one content an example
    hashes. *)
Definition lib (known : list pyval) (digest : pystr) : pylib :=
  PyLib (dumps None 0) (dumps (Some 2%nat) 0) (loads known)
    (fun _ => digest) encode_ascii decode_ascii
    (fun b => Byte.to_N <$> filter (fun x => Byte.to_N x < 128) b)
    decode_ascii
    (fun _ => Raise (Exn ServiceError (py "EOF marker not found")))
    (fun _ => Raise (Exn ServiceError (py "File is not a zip file")))
    (dumps None 0).

Definition cfg : config :=
  Config (Some (py "fc-123")) (Some (py "tvly-456")) (py "analysis-agent")
    50000 true true.

(** Services without state of their own: a fixed object in storage, a
    fixed clock, and the given answers. *)
Definition services_with (file : result bytes)
    (bedrock : pystr -> result pystr)
    (post get : http_request -> result http_response)
    (invoke : invocation -> result pyval) (now : N) : services unit :=
  Services (fun _ _ x => (file, x))
    (fun x => (None, x)) (fun x => (None, x))
    (fun i x => (invoke i, x))
    (fun _ body x => (bedrock body, x))
    (fun r x => (post r, x))
    (fun r x => (get r, x))
    (fun _ x => (Raise (Exn ServiceError (py "ParameterNotFound")), x))
    (fun x => (now, x))
    (fun x => (py "2023-11-14T22:13:20", x)).

Definition accepted : invocation -> result pyval := fun _ => Return (PInt 202).

Definition unreachable : http_request -> result http_response :=
  fun _ => Raise (Exn RequestException (py "Connection refused")).

Definition empty_world : world unit := World ∅ [] [] [] tt.

Definition now : N := 1700000000.

(** The body a model endpoint answers with when its text is [t]. *)
Definition text_body (t : pystr) : pyval :=
  PDict [ (py "content", PList [ PDict [ (py "text", PStr t) ] ]) ].

Definition bedrock_text (t : pystr) : pystr -> result pystr :=
  fun _ => Return (dumps None 0 (text_body t)).

(** The same when the text is [v] as JSON. *)
Definition model_body (v : pyval) : pyval := text_body (dumps None 0 v).

Definition bedrock_says (v : pyval) : pystr -> result pystr :=
  fun _ => Return (dumps None 0 (model_body v)).

Definition validated_finding : pyval :=
  PDict [ (py "summary", PStr (py "Revenue grew 12% in Q3."));
          (py "reliability_score", PStr (py "High"));
          (py "sources", PList [ PStr (py "https://example.com/q3") ]);
          (py "key_findings", PList [ PStr (py "12% growth") ]) ].

Definition query_of (r : http_request) : option pystr :=
  match json_body r with
  | Some (PDict d) =>
      match dict_get (py "query") d with
      | Some (PStr q) => Some q
      | _ => None
      end
  | _ => None
  end.

(** A search service that times out on one query and answers the others. *)
Definition search_failing_on (bad : pystr) : http_request -> result http_response :=
  fun r =>
    if decide (query_of r = Some bad)
    then Raise (Exn RequestException (py "Read timed out."))
    else Return (HttpResponse (Return tt)
                   (Return (PDict [ (py "results", PList []);
                                    (py "answer", PStr (py "It grew.")) ]))).

Definition no_untyped : pystr -> list pyval -> lambda_context -> M unit pyval :=
  fun _ _ _ => raise (Exn TypeError (py "unhashable type: 'list'")).

(** A model endpoint for a whole pipeline run: it tells the three
    prompts apart and answers each in kind. *)
Definition analysis_value : pyval :=
  PDict [ (py "topics", PList [ PStr (py "Q3 revenue") ]);
          (py "entities", PList []);
          (py "themes", PList [ PStr (py "growth") ]);
          (py "research_questions",
           PList [ PStr (py "How did Q3 revenue compare with Q2?");
                   PStr (py "What drove the growth?") ]) ].

Definition report_text : pystr := py "Executive Summary: revenue grew 12% in Q3.".

Definition pipeline_bedrock : pystr -> result pystr :=
  fun body =>
    if is_substring (py "Analyze the following document") body
    then Return (dumps None 0 (model_body analysis_value))
    else if is_substring (py "You are a research assistant") body
    then Return (dumps None 0 (model_body validated_finding))
    else Return (dumps None 0 (text_body report_text)).

Definition pipeline_lib : pylib :=
  lib [ model_body analysis_value; analysis_value;
        model_body validated_finding; validated_finding;
        text_body report_text ] [].

Definition pipeline_services : services unit :=
  services_with (Return []) pipeline_bedrock (search_failing_on []) unreachable
    accepted now.

End Demo.

(** ** Stand-ins that fail, and sample inputs *)

Module Samples.

(** The same services with a table that refuses [put_item]. *)
Definition put_refused (svc : services unit) : services unit :=
  Services (s3_get_object svc)
    (fun x => (Some (Exn ServiceError (py "ProvisionedThroughputExceededException")), x))
    (update_item_fault svc) (lambda_invoke svc) (bedrock_invoke_model svc)
    (requests_post svc) (requests_get svc) (ssm_get_parameter svc)
    (time_time svc) (utcnow_isoformat svc).


(** A model endpoint that is down. *)
Definition model_down : pystr -> result pystr :=
  fun _ => Raise (Exn ServiceError (py "ModelTimeoutException")).

(** A validated finding in which the model states its confidence as a
    number. *)
Definition scored_finding : pyval :=
  PDict [ (py "summary", PStr (py "Revenue grew 12% in Q3."));
          (py "reliability_score", PStr (py "High"));
          (py "sources", PList [ PStr (py "https://example.com/q3") ]);
          (py "key_findings", PList [ PStr (py "12% growth") ]);
          (py "confidence", PFloat "0.9") ].

(** A configuration that stores at most ten characters. *)
Definition small_cfg : config :=
  Config (Some (py "fc-123")) (Some (py "tvly-456")) (py "analysis-agent")
    10 true true.

(** A configuration without a search key. *)
Definition no_key_cfg : config :=
  Config (Some (py "fc-123")) None (py "analysis-agent") 50000 true true.

(** The text [Our Q3 revenue grew 12%.] as the bytes of a file, and the
    library whose digest is the MD5 of that text. *)
Definition sample_bytes : bytes :=
  [ x4f; x75; x72; x20; x51; x33; x20; x72; x65; x76; x65; x6e; x75; x65; x20;
    x67; x72; x65; x77; x20; x31; x32; x25; x2e ].

Definition sample_lib (known : list pyval) : pylib :=
  Demo.lib known (py "82719c71365454a9b6c7cab60f2923ec").

(** UTF-8 restricted to ASCII and the byte-order mark EF BB BF, which
    decodes to U+FEFF wherever it stands. *)
Fixpoint decode_ascii_bom (b : bytes) : option pystr :=
  match b with
  | [] => Some []
  | xef :: xbb :: xbf :: rest => cons 65279 <$> decode_ascii_bom rest
  | x :: rest =>
      if Byte.to_N x <? 128 then cons (Byte.to_N x) <$> decode_ascii_bom rest
      else None
  end.

Definition bom_lib : pylib :=
  let lib := Demo.lib [] [] in
  PyLib (json_dumps lib) (json_dumps_indent2 lib) (json_loads lib)
    (md5_hexdigest lib) (encode_utf8 lib)
    (fun b => match decode_ascii_bom b with
              | Some text => inl text
              | None => inr (py "'utf-8' codec can't decode byte: invalid start byte")
              end)
    (decode_utf8_ignore lib) (decode_cp1252 lib) (pdf_pages lib)
    (docx_paragraphs lib) (py_repr lib).

End Samples.

(* ================================================================== *)
(** * Part II. Properties *)
(* ================================================================== *)

(** Unfolding of the monad operations. *)
Ltac unfold_monad :=
  unfold mbind, M_bind, mret, M_ret, raise, lift_result,
    try_except, ask, call, log_http, log_invocation, log_s3_put,
    set_table, get_table in *;
  change (serialize_values []) with (@Return unit tt) in *;
  cbn [ext table invoked s3_written http_sent fst snd] in *.

Ltac world_simpl := cbn [ext table invoked s3_written http_sent fst snd] in *.

(** Destructs the next answers of the clock. *)
Ltac step_oracles :=
  repeat match goal with
    | |- context [time_time ?s ?x] =>
        let t := fresh "t" in let x' := fresh "x" in
        destruct (time_time s x) as [t x']
    | |- context [utcnow_isoformat ?s ?x] =>
        let t := fresh "stamp" in let x' := fresh "x" in
        destruct (utcnow_isoformat s x) as [t x']
    end;
  cbn [ext table invoked s3_written http_sent fst snd].

(** ** The website-crawl tool *)

Section CrawlTool.

Context {Ext : Type} (svc : services Ext) (lib : pylib) (cfg : config).
Implicit Types (w : world Ext) (target query : pystr).

(** C8.  For every url, query, service behaviour and starting world,
    [crawl_website] returns a value and never raises; when the body of
    its [try] raises [e], what it returns is [{"error": str(e)}]. *)
Theorem crawl_website_never_raises target query w :
  (∃ d w', crawl_website svc lib cfg target query w = (Return d, w'))
  ∧ crawl_website svc lib cfg target query w =
      match crawl_website_body svc lib cfg target query w with
      | (Return v, w') => (Return v, w')
      | (Raise e, w') => (Return (error_mapping e), w')
      end.
Proof.
  unfold crawl_website, try_except.
  destruct (crawl_website_body svc lib cfg target query w) as [[v|e] w'];
    split; eauto.
Qed.

(** An exception of the submission call comes back as the error mapping. *)
Lemma crawl_submission_failure target query w e x :
  requests_post svc (submission target query) (ext w) = (Raise e, x) →
  (crawl_website svc lib cfg target query w).1 = Return (error_mapping e).
Proof.
  intros H. unfold crawl_website, crawl_website_body, do_post.
  unfold_monad. unfold submission in H. rewrite H. reflexivity.
Qed.

(** An exception of the retrieval call comes back as the error mapping. *)
Lemma crawl_retrieval_failure target query w resp submitted job x e x' :
  requests_post svc (submission target query) (ext w) = (Return resp, x) →
  response_json resp = Return submitted →
  py_get submitted "id" PNone = Return job →
  requests_get svc
    (HttpRequest GET (py "https://api.firecrawl.dev/v2/crawl" ++ py "/" ++ py_str lib job)
       (crawl_get_headers cfg) None None) x = (Raise e, x') →
  (crawl_website svc lib cfg target query w).1 = Return (error_mapping e).
Proof.
  intros Hpost Hjson Hid Hget.
  unfold crawl_website, crawl_website_body, do_post, do_get.
  unfold_monad. unfold submission in Hpost.
  rewrite Hpost. cbv beta iota zeta. rewrite Hjson, Hid.
  cbn [ext table invoked s3_written http_sent]. rewrite Hget. reflexivity.
Qed.

(** Whatever the services answer, the first request of a call is the
    submission, and its Authorization value is the literal of the source. *)
Lemma crawl_sends_submission_first target query w :
  (∃ rest, http_sent (crawl_website svc lib cfg target query w).2
           = http_sent w ++ submission target query :: rest)
  ∧ dict_get (py "Authorization") (headers (submission target query))
    = Some (py "Bearer {FIRECRAWL_API_KEY}").
Proof.
  split; [|reflexivity].
  unfold crawl_website, crawl_website_body, do_post, do_get, submission.
  unfold_monad.
  repeat match goal with
    | |- context [requests_post svc ?r ?x] =>
        destruct (requests_post svc r x) as [[?|?] ?]; world_simpl
    | |- context [requests_get svc ?r ?x] =>
        destruct (requests_get svc r x) as [[?|?] ?]; world_simpl
    | |- context [response_json ?r] => destruct (response_json r); world_simpl
    | |- context [py_get ?v ?k ?d] => destruct (py_get v k d); world_simpl
    end;
    rewrite <- ?app_assoc; eauto.
Qed.

End CrawlTool.

(** C9.  With [FIRECRAWL_API_KEY] set to [fc-123], a crawl service that
    accepts the job and a retrieval that answers: the submission POST
    carries the Authorization value [Bearer {FIRECRAWL_API_KEY}], the
    literal text with the braces, while the retrieval GET carries
    [Bearer fc-123]. *)
Lemma crawl_submission_authorization_literal :
  let post := fun _ => Return (HttpResponse (Return tt)
                                 (Return (PDict [ (py "id", PStr (py "job-1")) ]))) in
  let get := fun _ => Return (HttpResponse (Return tt)
                                (Return (PDict [ (py "status", PStr (py "scraping")) ]))) in
  let svc := Demo.services_with (Return []) (fun _ => Return []) post get
               Demo.accepted Demo.now in
  let w' := (crawl_website svc (Demo.lib [] []) Demo.cfg
               (py "https://example.com") (py "pricing") Demo.empty_world).2 in
  FIRECRAWL_API_KEY Demo.cfg = Some (py "fc-123")
  ∧ (fun r => (method r, dict_get (py "Authorization") (headers r))) <$> http_sent w'
    = [ (POST, Some (py "Bearer {FIRECRAWL_API_KEY}"));
        (GET, Some (py "Bearer fc-123")) ].
Proof. vm_compute. split; reflexivity. Qed.

(** ** Text extraction *)

Section Extraction.

Context (lib : pylib) (cfg : config).
Implicit Types (r : extraction_result) (file_bytes : bytes) (name : pystr).

Lemma startswith_app (p s : pystr) : startswith p (p ++ s) = true.
Proof.
  induction p as [|a p IH]; [reflexivity|].
  cbn [startswith app]. rewrite decide_True by done. exact IH.
Qed.

(** The branch on the extension never sets the success flag ... *)
Lemma extract_branch_success file_bytes r :
  extraction_success (extract_branch lib cfg file_bytes r).1 = extraction_success r.
Proof.
  unfold extract_branch.
  repeat first
    [ reflexivity
    | case_decide
    | match goal with
      | |- context [match ?x with _ => _ end] => destruct x
      end ].
Qed.

(** ... and [check_success] sets it from the content alone. *)
Lemma check_success_spec r :
  extraction_success r = false →
  extraction_success (check_success r)
  = nonempty (content r) && negb (startswith (py "ERROR:") (content r))
  ∧ content (check_success r) = content r.
Proof.
  intros H. unfold check_success.
  destruct (nonempty (content r) && negb (startswith (py "ERROR:") (content r)));
    cbn; auto.
Qed.

Lemma check_success_keeps r :
  extraction_method (check_success r) = extraction_method r
  ∧ warnings (check_success r) = warnings r.
Proof. unfold check_success. destruct (_ && _); done. Qed.

Lemma add_statistics_keeps r :
  extraction_success (add_statistics r) = extraction_success r
  ∧ content (add_statistics r) = content r
  ∧ extraction_method (add_statistics r) = extraction_method r
  ∧ warnings (add_statistics r) = warnings r.
Proof. done. Qed.

(** C5.  For every file and name, the [extraction_success] flag of the
    result is true exactly when the resulting content is non-empty and
    does not start with [ERROR:]; and when an exception escapes the
    branch on the extension, the flag is false. *)
Theorem extraction_success_iff file_bytes name :
  let r := extract_text_content lib cfg file_bytes name in
  (extraction_success r = true
   ↔ content r ≠ [] ∧ startswith (py "ERROR:") (content r) = false)
  ∧ match extract_branch lib cfg file_bytes
            (ExtractionResult name (_get_file_extension name)
               (N.of_nat (length file_bytes)) (py "unknown") false [] [] [])
      with
      | (_, Some _) => extraction_success r = false
      | (_, None) => True
      end.
Proof.
  cbv zeta. unfold extract_text_content.
  pose proof (extract_branch_success file_bytes
    (ExtractionResult name (_get_file_extension name)
       (N.of_nat (length file_bytes)) (py "unknown") false [] [] [])) as Hflag.
  destruct (extract_branch _ _ _ _) as [r [e|]]; cbn [fst extraction_success] in Hflag.
  - assert (Hr : extraction_success
                   (add_warning (py "Unexpected error during extraction: " ++ exn_str e)
                      (set_content (py "ERROR: Failed to process file - " ++ exn_str e) r))
                 = false) by exact Hflag.
    split; [|exact Hr]. rewrite Hr. cbn [content add_warning set_content].
    change (py "ERROR: Failed to process file - " ++ exn_str e)
      with (py "ERROR:" ++ (py " Failed to process file - " ++ exn_str e)).
    rewrite startswith_app. split; [done | intros [_ ?]; done].
  - split; [|done].
    destruct (add_statistics_keeps (check_success r)) as (-> & -> & _).
    destruct (check_success_spec r Hflag) as [-> ->].
    destruct (content r) as [|c s]; cbn [nonempty andb].
    + split; [done | intros [? _]; done].
    + destruct (startswith (py "ERROR:") (c :: s)); cbn; split; try done.
      intros [_ ?]; done.
Qed.

(** A result that only carries the short-content warning counts as
    extracted: a PDF whose pages are all blank. *)
Lemma short_pdf_counts_as_success :
  let lib := PyLib (Demo.dumps None 0) (Demo.dumps (Some 2%nat) 0) (Demo.loads [])
               (fun _ => []) Demo.encode_ascii Demo.decode_ascii (fun _ => [])
               Demo.decode_ascii (fun _ => Return [Return (py "  ")])
               (fun _ => Return []) (Demo.dumps None 0) in
  let r := extract_text_content lib Demo.cfg [] (py "scan.pdf") in
  content r = extract_pdf_short ∧ extraction_success r = true.
Proof. vm_compute. done. Qed.

(** The attempt loop stops at Latin-1 at the latest. *)
Lemma try_encodings_total file_bytes :
  ∃ enc text, try_encodings lib text_encodings file_bytes = Some (enc, text)
              ∧ enc ∈ [UTF_8; UTF_8_SIG; LATIN_1].
Proof.
  unfold text_encodings. cbn [try_encodings decode].
  destruct (decode_utf8 lib file_bytes) as [t|?].
  { exists UTF_8, t. split; [done | rewrite !elem_of_cons; tauto]. }
  destruct (decode_utf8 lib (drop_bom file_bytes)) as [t|?].
  { exists UTF_8_SIG, t. split; [done | rewrite !elem_of_cons; tauto]. }
  exists LATIN_1, (Byte.to_N <$> file_bytes).
  split; [done | rewrite !elem_of_cons; tauto].
Qed.

(** C10.  For every byte sequence under a [.txt], [.md] or [.csv] name
    (in any letter case), the attempt loop finds an encoding, Latin-1 at
    the latest; the result is not the fallback's: its method is one of
    text_decode_utf-8, text_decode_utf-8-sig, text_decode_latin-1 and the
    fallback warning is not among its warnings. *)
Theorem text_decode_fallback_unreachable file_bytes name :
  lower (_get_file_extension name) ∈ [ py ".txt"; py ".md"; py ".csv" ] →
  let r := extract_text_content lib cfg file_bytes name in
  try_encodings lib text_encodings file_bytes ≠ None
  ∧ extraction_method r ∈ [ py "text_decode_utf-8"; py "text_decode_utf-8-sig";
                           py "text_decode_latin-1" ]
  ∧ extraction_method r ≠ py "text_decode_fallback"
  ∧ fallback_warning ∉ warnings r.
Proof.
  intros Hext r.
  destruct (try_encodings_total file_bytes) as (enc & text & Htry & Henc).
  assert (Hr : extraction_method r = py "text_decode_" ++ encoding_name enc
               ∧ warnings r = []).
  { subst r. unfold extract_text_content, extract_branch.
    cbn [file_extension].
    set (ext := lower (_get_file_extension name)) in *.
    assert (Hcases : ext = py ".txt" ∨ ext = py ".md" ∨ ext = py ".csv")
      by (revert Hext; rewrite !elem_of_cons, elem_of_nil; tauto).
    rewrite (decide_False (P := ext = py ".pdf"))
      by (destruct Hcases as [-> | [-> | ->]]; vm_compute; congruence).
    rewrite (decide_False (P := ext = py ".docx" ∨ ext = py ".doc"))
      by (destruct Hcases as [-> | [-> | ->]]; vm_compute; intros [?|?]; congruence).
    rewrite (decide_True (P := ext = py ".txt" ∨ ext = py ".md" ∨ ext = py ".csv"))
      by done.
    rewrite Htry. cbv beta iota.
    destruct (add_statistics_keeps
                (check_success
                   (set_method (py "text_decode_" ++ encoding_name enc)
                      (set_content text
                         (ExtractionResult name (_get_file_extension name)
                            (N.of_nat (length file_bytes)) (py "unknown") false
                            [] [] [])))))
      as (_ & _ & -> & ->).
    destruct (check_success_keeps
                (set_method (py "text_decode_" ++ encoding_name enc)
                   (set_content text
                      (ExtractionResult name (_get_file_extension name)
                         (N.of_nat (length file_bytes)) (py "unknown") false
                         [] [] []))))
      as (-> & ->).
    done. }
  destruct Hr as [Hm Hw]. rewrite Hm, Hw, Htry.
  split; [done|].
  assert (Hthree : enc = UTF_8 ∨ enc = UTF_8_SIG ∨ enc = LATIN_1)
    by (revert Henc; rewrite !elem_of_cons, elem_of_nil; tauto).
  split; [|split; [|apply not_elem_of_nil]].
  - rewrite !elem_of_cons.
    destruct Hthree as [-> | [-> | ->]]; vm_compute; auto.
  - destruct Hthree as [-> | [-> | ->]]; vm_compute; congruence.
Qed.

End Extraction.

Lemma text_decode_fallback_unreachable_witness :
  lower (_get_file_extension (py "NOTES.TXT")) ∈ [ py ".txt"; py ".md"; py ".csv" ]
  ∧ extraction_method
      (extract_text_content (Demo.lib [] []) Demo.cfg [xff; x41] (py "NOTES.TXT"))
    ≠ py "text_decode_fallback".
Proof.
  assert (H : lower (_get_file_extension (py "NOTES.TXT"))
              ∈ [ py ".txt"; py ".md"; py ".csv" ])
    by (apply elem_of_cons; left; reflexivity).
  split; [exact H|].
  apply (text_decode_fallback_unreachable (Demo.lib [] []) Demo.cfg
           [xff; x41] (py "NOTES.TXT") H).
Defined.

(** ** Session identifiers *)

Section SessionId.

Context {Ext : Type} (svc : services Ext) (lib : pylib).
Implicit Types (w : world Ext) (name content : pystr).

Lemma split_on_nonempty c s : split_on c s ≠ [].
Proof. destruct s as [|x s]; cbn; [done|]. case_decide; [done|]. destruct (split_on c s); done. Qed.

(** [filename.split('.')[0] if '.' in filename else filename] is the
    part before the first dot. *)
Lemma hd_split_on c s : List.hd [] (split_on c s) = before_first c s.
Proof.
  induction s as [|x s IH]; [reflexivity|].
  cbn [split_on before_first]. case_decide; [reflexivity|].
  pose proof (split_on_nonempty c s).
  destruct (split_on c s) as [|p ps]; [done|]. cbn in *. by rewrite IH.
Qed.

Lemma before_first_absent c s : c ∉ s → before_first c s = s.
Proof.
  induction s as [|x s IH]; [reflexivity|]. intros Hc.
  apply not_elem_of_cons in Hc as [Hx Hs].
  cbn. rewrite decide_False by congruence. by rewrite IH.
Qed.

Lemma base_name_before_first_dot name :
  (if contains_char dot name then List.hd [] (split_on dot name) else name)
  = before_first dot name.
Proof.
  unfold contains_char. case_bool_decide as Hdot.
  - apply hd_split_on.
  - symmetry. by apply before_first_absent.
Qed.

(** With fuel for six digits and a number of at least six digits, the
    first six digits produced are the six lowest ones. *)
Lemma digits_le_six fuel t :
  (6 ≤ fuel)%nat → 100000 ≤ t →
  ∃ rest, digits_le fuel t = reverse (six_digits t) ++ rest.
Proof.
  intros Hfuel Ht.
  do 6 (destruct fuel as [|fuel]; [lia|]).
  assert (Hdiv : ∀ d, 0 < d → d ≤ t → t / d ≠ 0)
    by (intros d ? ? H; apply N.div_small_iff in H; lia).
  assert (H1 : t / 10 ≠ 0) by (apply Hdiv; lia).
  assert (H2 : t / 10 / 10 ≠ 0) by (rewrite N.Div0.div_div; apply Hdiv; lia).
  assert (H3 : t / 10 / 10 / 10 ≠ 0) by (rewrite !N.Div0.div_div; apply Hdiv; lia).
  assert (H4 : t / 10 / 10 / 10 / 10 ≠ 0)
    by (rewrite !N.Div0.div_div; apply Hdiv; lia).
  assert (H5 : t / 10 / 10 / 10 / 10 / 10 ≠ 0)
    by (rewrite !N.Div0.div_div; apply Hdiv; lia).
  cbn [digits_le].
  apply N.eqb_neq in H1, H2, H3, H4, H5. rewrite H1, H2, H3, H4, H5.
  eexists. unfold six_digits.
  cbv [fmap list_fmap reverse rev_append app].
  change (10 ^ 0) with 1. rewrite N.div_1_r, !N.Div0.div_div.
  repeat (f_equal; try reflexivity).
Qed.

Lemma last_six_digits t :
  100000 ≤ t → last_chars 6 (str_of_N t) = six_digits t.
Proof.
  intros Ht. unfold str_of_N, last_chars.
  destruct (digits_le_six (S (N.to_nat (N.log2 t))) t) as [rest ->]; [|done|].
  { assert (16 ≤ N.log2 t); [|lia].
    change 16 with (N.log2 100000). by apply N.log2_le_mono. }
  rewrite reverse_app, reverse_involutive, length_app.
  replace (length (reverse rest) + length (six_digits t) - 6)%nat
    with (length (reverse rest)) by (cbn; lia).
  by rewrite drop_app_length.
Qed.

Lemma generate_session_id_run name content data w :
  encode_utf8 lib content = Return data →
  (_generate_session_id svc lib name content w).1
  = Return (before_first dot name ++ py "_" ++ take 8 (md5_hexdigest lib data)
            ++ py "_" ++ last_chars 6 (str_of_N (time_time svc (ext w)).1)).
Proof.
  intros Hdata. unfold _generate_session_id. rewrite base_name_before_first_dot.
  unfold_monad. rewrite Hdata.
  destruct (time_time svc (ext w)) as [t x]. reflexivity.
Qed.

(** C6, as amended.  For every filename and content (whose UTF-8
    encoding is [data]) and a clock reading of at least six digits, the
    identifier is the part of the filename before its first dot (all of
    it when it has none), [_], the first 8 characters of the MD5 hex
    digest of the content, [_], and the last six digits of the clock
    reading; so a second generation from the same filename and content
    at the same clock reading gives the same identifier. *)
Theorem session_id_shape name content data w :
  encode_utf8 lib content = Return data →
  100000 ≤ (time_time svc (ext w)).1 →
  (_generate_session_id svc lib name content w).1
  = Return (before_first dot name ++ py "_" ++ take 8 (md5_hexdigest lib data)
            ++ py "_" ++ six_digits (time_time svc (ext w)).1)
  ∧ ∀ w2, (time_time svc (ext w2)).1 = (time_time svc (ext w)).1 →
          (_generate_session_id svc lib name content w2).1
          = (_generate_session_id svc lib name content w).1.
Proof.
  intros Hdata Ht. split.
  - rewrite (generate_session_id_run _ _ data) by done.
    by rewrite last_six_digits.
  - intros w2 Hsame.
    rewrite !(generate_session_id_run _ _ data) by done. by rewrite Hsame.
Qed.

End SessionId.

Lemma session_id_shape_witness :
  let lib := Demo.lib [] (py "82719c71365454a9b6c7cab60f2923ec") in
  let svc := Demo.services_with (Return []) (fun _ => Return [])
               Demo.unreachable Demo.unreachable Demo.accepted Demo.now in
  let content := py "Our Q3 revenue grew 12%." in
  let data := default x00 ∘ Byte.of_N <$> content in
  encode_utf8 lib content = Return data
  ∧ 100000 ≤ (time_time svc (ext Demo.empty_world)).1
  ∧ (_generate_session_id svc lib (py "q3-report.txt") content Demo.empty_world).1
    = Return (py "q3-report_82719c71_000000").
Proof.
  intros lib svc content data.
  assert (Hdata : encode_utf8 lib content = Return data) by reflexivity.
  assert (Ht : 100000 ≤ (time_time svc (ext Demo.empty_world)).1)
    by (vm_compute; discriminate).
  split; [exact Hdata|]. split; [exact Ht|].
  destruct (session_id_shape svc lib (py "q3-report.txt") content data
              Demo.empty_world Hdata Ht) as [H _].
  rewrite H. vm_compute. reflexivity.
Defined.

(** C6, as stated, fails on a filename with two dots: the source keeps
    what precedes the first dot, the statement what precedes the
    extension. *)
Lemma session_id_keeps_first_component_only :
  let lib := Demo.lib [] (py "5d41402abc4b2a76b9719d911017c592") in
  let svc := Demo.services_with (Return []) (fun _ => Return [])
               Demo.unreachable Demo.unreachable Demo.accepted Demo.now in
  let generated :=
    (_generate_session_id svc lib (py "a.b.txt") (py "hello") Demo.empty_world).1 in
  let stated := spec_session_id lib (py "a.b.txt") [x68; x65; x6c; x6c; x6f] Demo.now in
  generated = Return (py "a_5d41402a_000000")
  ∧ stated = py "a.b_5d41402a_000000"
  ∧ generated ≠ Return stated.
Proof. vm_compute. repeat split; congruence. Qed.

(** ** Frames: what a computation leaves alone *)

Section Frames.

Context {Ext : Type}.
Implicit Types (w : world Ext) (R : relation (world Ext)).

#[export] Instance quiet_preorder : PreOrder (@quiet Ext).
Proof.
  split.
  - intros w. by repeat split.
  - intros w1 w2 w3 (? & ? & ?) (? & ? & ?). repeat split; congruence.
Qed.

#[export] Instance advances_preorder sid stages : PreOrder (@advances Ext sid stages).
Proof.
  split.
  - intros w. split; auto.
  - intros w1 w2 w3 [Ho1 Hs1] [Ho2 Hs2]. split.
    + intros k Hk. rewrite Ho2, Ho1; auto.
    + destruct Hs2 as [Heq|Hs2]; [|by right].
      destruct Hs1 as [Heq1|(s & Hs & Hin)]; [left; congruence|].
      right. exists s. split; [|done].
      unfold stage_of in *. by rewrite Heq.
Qed.

Lemma quiet_advances sid stages w w' : quiet w w' → advances sid stages w w'.
Proof. intros (Ht & _). split; [intros; by rewrite Ht | left; by rewrite Ht]. Qed.

Lemma respects_weaken {A} R R' (m : M Ext A) :
  (∀ w w', R w w' → R' w w') → respects R m → respects R' m.
Proof. intros HR Hm w. apply HR, Hm. Qed.

Lemma respects_ret {A} R `{!Reflexive R} (a : A) : respects R (mret a).
Proof. intros w. apply reflexivity. Qed.

Lemma respects_raise {A} R `{!Reflexive R} e : respects R (raise (A := A) e).
Proof. intros w. apply reflexivity. Qed.

Lemma respects_lift_result {A} R `{!Reflexive R} (r : result A) :
  respects R (lift_result r).
Proof. intros w. apply reflexivity. Qed.

Lemma respects_bind {A B} R `{!Transitive R} (m : M Ext A) (f : A → M Ext B) :
  respects R m → (∀ a, respects R (f a)) → respects R (m ≫= f).
Proof.
  intros Hm Hf w. specialize (Hm w). unfold mbind, M_bind.
  destruct (m w) as [[a|e] w']; cbn in *; [|done].
  etrans; [exact Hm | apply Hf].
Qed.

Lemma respects_try_except {A} R `{!Transitive R} (body : M Ext A) handler :
  respects R body → (∀ e, respects R (handler e)) →
  respects R (try_except body handler).
Proof.
  intros Hm Hf w. specialize (Hm w). unfold try_except.
  destruct (body w) as [[a|e] w']; cbn in *; [done|].
  etrans; [exact Hm | apply Hf].
Qed.

Lemma quiet_call {A} (f : Ext → result A * Ext) : respects quiet (call f).
Proof. intros w. unfold call. destruct (f (ext w)). by repeat split. Qed.

Lemma quiet_ask {A} (f : Ext → A * Ext) : respects quiet (ask f).
Proof. intros w. unfold ask, call. destruct (f (ext w)). by repeat split. Qed.

Lemma quiet_log_http r : respects (@quiet Ext) (log_http r).
Proof. intros w. by repeat split. Qed.

Lemma quiet_get_table : respects (@quiet Ext) get_table.
Proof. intros w. by repeat split. Qed.

Lemma advances_log_invocation sid stages i :
  respects (@advances Ext sid stages) (log_invocation i).
Proof. intros w. split; auto. Qed.

Lemma advances_log_s3_put sid stages o :
  respects (@advances Ext sid stages) (log_s3_put o).
Proof. intros w. split; auto. Qed.

Lemma advances_update_item sid stages values (f : item → item) :
  (∀ it, ∃ s, workflow_stage (f it) = Some s ∧ s ∈ stages) →
  respects (@advances Ext sid stages) (update_item sid values f).
Proof.
  intros Hf w. unfold update_item. unfold_monad.
  destruct (serialize_values values) as [[]|e]; [|reflexivity]. split.
  - intros k Hk. cbn. by rewrite lookup_insert_ne.
  - right. destruct (Hf (default empty_item (table w !! sid))) as (s & Hs & Hin).
    exists s. split; [|done]. unfold stage_of. cbn.
    rewrite lookup_insert_eq. exact Hs.
Qed.

End Frames.

Create HintDb frame.

#[export] Hint Resolve respects_ret respects_raise respects_lift_result
  quiet_call quiet_ask quiet_log_http quiet_get_table
  advances_log_invocation advances_log_s3_put : frame.

(** One step through a computation: a leaf by the hints, a bind or a
    [try] by its rule, a branch by cases. *)
Ltac frame_leaf := solve [eauto 3 with frame typeclass_instances].

Ltac frame_step :=
  first
    [ progress cbv zeta
    | frame_leaf
    | solve [eapply respects_weaken; [apply quiet_advances|]; frame_leaf]
    | apply advances_update_item; intros ?; eexists;
      split; [reflexivity | rewrite !elem_of_cons; tauto]
    | apply respects_bind; [apply _| |intros ?]
    | apply respects_try_except; [apply _| |intros ?]
    | match goal with
      | |- respects _ (match ?x with _ => _ end) => destruct x
      | |- respects _ (if ?b then _ else _) => destruct b
      end ].

Ltac frame := repeat frame_step.

(** ** The Analysis Stage *)

Section AnalysisStage.

Context {Ext : Type} (svc : services Ext) (lib : pylib).
Implicit Types (w : world Ext) (event : stage_event) (sid : pystr).

Lemma quiet_analysis_invoke_bedrock_model prompt :
  respects quiet (Analysis.invoke_bedrock_model svc lib prompt).
Proof. unfold Analysis.invoke_bedrock_model. frame. Qed.

Lemma advances_update_workflow_error sid stages text :
  py "error" ∈ stages →
  respects (advances sid stages) (update_workflow_error svc sid text).
Proof.
  intros Hin. unfold update_workflow_error.
  apply respects_bind; [apply _|frame|]. intros now.
  apply advances_update_item. intros it. by eexists.
Qed.

Lemma advances_invoke_async sid stages fname body :
  respects (advances sid stages) (invoke_async svc lib fname body).
Proof. unfold invoke_async. frame. Qed.

(** The Analysis Stage touches no record but its session's, and leaves
    that one at [analysis_complete] or [error] when it writes it. *)
Lemma analysis_advances event :
  respects (advances (default [] (event_session_id event))
              [py "analysis_complete"; py "error"])
    (Analysis.lambda_handler svc lib event).
Proof.
  unfold Analysis.lambda_handler.
  destruct (event_session_id event) as [[|c sid]|]; cbn [default]; [frame| |frame].
  pose proof (quiet_analysis_invoke_bedrock_model).
  assert (∀ text, respects (advances (c :: sid) [py "analysis_complete"; py "error"])
                    (update_workflow_error svc (c :: sid) text))
    by (intros; apply advances_update_workflow_error; rewrite !elem_of_cons; tauto).
  pose proof (advances_invoke_async (c :: sid) [py "analysis_complete"; py "error"]).
  frame.
Qed.

(** C4.  The three rejections of the Analysis Stage, each leaving the
    world as it found it: no session id in the payload (absent or empty)
    gives 400 "Missing session_id"; no record under the session id gives
    404 "Session not found"; a record whose document content is absent
    or empty gives 400 "No document content found". *)
Theorem analysis_rejects_without_mutation event w :
  (event_session_id event = None ∨ event_session_id event = Some [] →
   Analysis.lambda_handler svc lib event w
   = (Return (response 400 (error_body lib (py "Missing session_id"))), w))
  ∧ (∀ sid, event_session_id event = Some sid → sid ≠ [] →
       table w !! sid = None →
       Analysis.lambda_handler svc lib event w
       = (Return (response 404 (error_body lib (py "Session not found"))), w))
  ∧ (∀ sid it, event_session_id event = Some sid → sid ≠ [] →
       table w !! sid = Some it →
       document_content it = None ∨ document_content it = Some [] →
       Analysis.lambda_handler svc lib event w
       = (Return (response 400 (error_body lib (py "No document content found"))), w)).
Proof.
  unfold Analysis.lambda_handler. repeat split.
  - intros [-> | ->]; reflexivity.
  - intros sid -> Hsid Hnone. destruct sid as [|c sid]; [done|].
    unfold_monad. by rewrite Hnone.
  - intros sid it -> Hsid Hsome Hdoc. destruct sid as [|c sid]; [done|].
    unfold_monad. rewrite Hsome. by destruct Hdoc as [-> | ->].
Qed.

End AnalysisStage.

Lemma analysis_rejects_without_mutation_witness :
  let svc := Demo.services_with (Return []) (fun _ => Return [])
               Demo.unreachable Demo.unreachable Demo.accepted Demo.now in
  let lib := Demo.lib [] [] in
  let stored := Item (Some (py "document_processed")) (Some []) None None None
                  None None None [] in
  let w := World {[ py "doc_1" := stored ]} [] [] [] tt in
  Analysis.lambda_handler svc lib (StageEvent None) w
  = (Return (response 400 (error_body lib (py "Missing session_id"))), w)
  ∧ Analysis.lambda_handler svc lib (StageEvent (Some (py "doc_2"))) w
    = (Return (response 404 (error_body lib (py "Session not found"))), w)
  ∧ Analysis.lambda_handler svc lib (StageEvent (Some (py "doc_1"))) w
    = (Return (response 400 (error_body lib (py "No document content found"))), w).
Proof.
  intros svc lib stored w.
  split; [|split].
  - destruct (analysis_rejects_without_mutation svc lib (StageEvent None) w)
      as (H & _ & _).
    apply H. by left.
  - destruct (analysis_rejects_without_mutation svc lib
                (StageEvent (Some (py "doc_2"))) w) as (_ & H & _).
    apply (H (py "doc_2")); [reflexivity | discriminate | reflexivity].
  - destruct (analysis_rejects_without_mutation svc lib
                (StageEvent (Some (py "doc_1"))) w) as (_ & _ & H).
    apply (H (py "doc_1") stored); [reflexivity | discriminate | reflexivity | by right].
Defined.

(** ** Document ingestion *)

Section IngestionStage.

Context {Ext : Type} (svc : services Ext) (lib : pylib) (cfg : config).
Implicit Types (w : world Ext) (record : event_record).

Lemma process_record_skips_failed record :
  extraction_fails svc lib cfg record →
  respects quiet (process_record svc lib cfg record).
Proof.
  intros Hfail w. unfold process_record.
  case_decide; [|reflexivity].
  destruct (s3 record) as [loc|] eqn:Hloc; [|reflexivity].
  destruct (negb (existsb _ _)); [reflexivity|].
  unfold get_object. unfold_monad.
  destruct (s3_get_object svc (bucket_name loc) (object_key loc) (ext w))
    as [[file_bytes|e] x] eqn:Hget; cbn.
  - rewrite (Hfail loc file_bytes (ext w) x Hloc Hget). cbn. by repeat split.
  - by repeat split.
Qed.

Lemma process_records_skip_failed records :
  Forall (extraction_fails svc lib cfg) records →
  respects quiet (process_records svc lib cfg records).
Proof.
  induction 1 as [|record records Hrecord _ IH]; cbn [process_records].
  - apply respects_ret, _.
  - apply respects_bind; [apply _ | by apply process_record_skips_failed | done].
Qed.

Lemma store_document_data_stores sid r bucket key w :
  (∀ x, (put_item_fault svc x).1 = None) →
  ∃ it w',
    store_document_data svc cfg sid r bucket key w = (Return true, w')
    ∧ table w' = <[sid := it]> (table w)
    ∧ invoked w' = invoked w
    ∧ dict_get (py "extraction_success") (other_attrs it)
      = Some (PBool (extraction_success r)).
Proof.
  intros Hput. unfold store_document_data. unfold_monad. step_oracles.
  match goal with
  | |- context [put_item_fault svc ?x] =>
      pose proof (Hput x) as Hx; destruct (put_item_fault svc x) as [fault x']
  end.
  cbn in Hx. subst fault. cbn [ext table invoked s3_written http_sent].
  eexists _, _. repeat split.
Qed.

Lemma trigger_next_stage_invokes sid w :
  ∃ b w',
    Ingestion.trigger_next_stage svc lib cfg sid w = (Return b, w')
    ∧ function_name <$> invoked w'
      = (function_name <$> invoked w) ++ [NEXT_FUNCTION_NAME cfg]
    ∧ ∀ it, table w !! sid = Some it →
        ∃ it', table w' !! sid = Some it' ∧ other_attrs it' = other_attrs it.
Proof.
  unfold Ingestion.trigger_next_stage, invoke_async, _update_error_state, update_item.
  unfold_monad. step_oracles.
  match goal with
  | |- context [lambda_invoke svc ?i ?x] =>
      destruct (lambda_invoke svc i x) as [[status|e] x']
  end; cbn [ext table invoked s3_written http_sent].
  - eexists _, _. split; [reflexivity|]. world_simpl.
    split; [by rewrite fmap_app|]. eauto.
  - step_oracles.
    match goal with
    | |- context [update_item_fault svc ?x] =>
        destruct (update_item_fault svc x) as [[fault|] x'']
    end; world_simpl;
      (eexists _, _; split; [reflexivity|]; world_simpl;
       split; [by rewrite fmap_app|]).
    + eauto.
    + intros it Hit. rewrite lookup_insert_eq, Hit. eauto.
Qed.

(** The direct mode has no such guard.  Nothing there looks at the
    success flag: once the object is fetched and the table accepts the
    write, a record is stored with the flag as extraction left it, and the
    next stage is invoked. *)
Lemma direct_invocation_stores_regardless bucket key file_bytes x data w :
  s3_get_object svc bucket key (ext w) = (Return file_bytes, x) →
  encode_utf8 lib (content (extract_text_content lib cfg file_bytes key)) = Return data →
  (∀ x, (put_item_fault svc x).1 = None) →
  let w' := (Ingestion.lambda_handler svc lib cfg (DirectEvent bucket key) w).2 in
  (∃ sid it,
     table w' !! sid = Some it
     ∧ dict_get (py "extraction_success") (other_attrs it)
       = Some (PBool (extraction_success (extract_text_content lib cfg file_bytes key))))
  ∧ function_name <$> invoked w'
    = (function_name <$> invoked w) ++ [NEXT_FUNCTION_NAME cfg].
Proof.
  intros Hget Hdata Hput.
  unfold Ingestion.lambda_handler, get_object, _generate_session_id.
  unfold_monad. rewrite Hget. cbv beta iota zeta.
  cbn [ext table invoked s3_written http_sent]. rewrite Hdata. step_oracles.
  match goal with
  | |- context [store_document_data svc cfg ?sid ?r bucket key ?w0] =>
      destruct (store_document_data_stores sid r bucket key w0 Hput)
        as (it & w1 & -> & Htable & Hinvoked & Hflag);
      destruct (trigger_next_stage_invokes sid w1)
        as (b & w2 & -> & Hnames & Hkeeps);
      destruct (Hkeeps it) as (it' & Hit' & Hattrs);
      [by rewrite Htable, lookup_insert_eq|];
      split; [exists sid, it'; split; [exact Hit' | by rewrite Hattrs]|]
  end.
  cbn. by rewrite Hnames, Hinvoked.
Qed.

(** The guard of the notification loop.  In the notification mode,
    processing an object that fails extraction (content empty or starting
    with [ERROR:]) stores no record and invokes nothing, and so does the
    handler on a batch of such objects. *)
Theorem ingestion_skips_failed_extraction_on_notifications :
  (∀ record w,
     extraction_fails svc lib cfg record →
     quiet w (process_record svc lib cfg record w).2)
  ∧ (∀ records w,
       Forall (extraction_fails svc lib cfg) records →
       quiet w (Ingestion.lambda_handler svc lib cfg (RecordsEvent records) w).2).
Proof.
  split.
  - intros record w Hfail. by apply process_record_skips_failed.
  - intros records w Hfail.
    assert (Hrespects : respects quiet
              (Ingestion.lambda_handler svc lib cfg (RecordsEvent records))); [|apply Hrespects].
    unfold Ingestion.lambda_handler.
    apply respects_try_except; [apply _| |intros; apply respects_ret, _].
    apply respects_bind;
      [apply _ | by apply process_records_skip_failed | intros; apply respects_ret, _].
Qed.

End IngestionStage.

Lemma ingestion_skips_failed_extraction_on_notifications_witness :
  let svc := Demo.services_with (Return [x00; x01]) (fun _ => Return [])
               Demo.unreachable Demo.unreachable Demo.accepted Demo.now in
  let lib := Demo.lib [] (py "1b13b8cdaac09daa2d6fe0c892d5dc01") in
  let records := [ EventRecord (Some (py "aws:s3"))
                     (Some (S3Entity (py "uploads") (py "legacy.doc"))) ] in
  Forall (extraction_fails svc lib Demo.cfg) records
  ∧ quiet Demo.empty_world
      (Ingestion.lambda_handler svc lib Demo.cfg (RecordsEvent records)
         Demo.empty_world).2.
Proof.
  intros svc lib records.
  assert (Hfail : Forall (extraction_fails svc lib Demo.cfg) records).
  { repeat constructor. intros loc file_bytes x x' [= <-] _. reflexivity. }
  split; [exact Hfail|].
  destruct (ingestion_skips_failed_extraction_on_notifications svc lib Demo.cfg)
    as (_ & Hskip).
  apply Hskip, Hfail.
Defined.

(** C2.  The code breaks the claim in the direct mode, which lacks the
    guard on the success flag that the notification loop has: on a direct
    invocation, a legacy [.doc] object (extraction content starting with
    [ERROR:]) and an empty [.txt] object (empty content) each get a record
    in stage [document_processed] and an invocation of the Analysis
    Stage. *)
Lemma direct_invocation_stores_failed_extraction :
  let svc := Demo.services_with (Return []) (fun _ => Return [])
               Demo.unreachable Demo.unreachable Demo.accepted Demo.now in
  let doc_lib := Demo.lib [] (py "1b13b8cdaac09daa2d6fe0c892d5dc01") in
  let txt_lib := Demo.lib [] (py "d41d8cd98f00b204e9800998ecf8427e") in
  let after_doc :=
    (Ingestion.lambda_handler svc doc_lib Demo.cfg
       (DirectEvent (py "uploads") (py "legacy.doc")) Demo.empty_world).2 in
  let after_txt :=
    (Ingestion.lambda_handler svc txt_lib Demo.cfg
       (DirectEvent (py "uploads") (py "empty.txt")) Demo.empty_world).2 in
  (extraction_success (extract_text_content doc_lib Demo.cfg [] (py "legacy.doc")) = false
   ∧ stage_of after_doc (py "legacy_1b13b8cd_000000") = Some (py "document_processed")
   ∧ function_name <$> invoked after_doc = [py "analysis-agent"])
  ∧ (content (extract_text_content txt_lib Demo.cfg [] (py "empty.txt")) = []
     ∧ stage_of after_txt (py "empty_d41d8cd9_000000") = Some (py "document_processed")
     ∧ function_name <$> invoked after_txt = [py "analysis-agent"]).
Proof. vm_compute. repeat split. Qed.

(** ** Dictionaries *)

Section Dict.

Context {V : Type}.
Implicit Types (d : list (pystr * V)) (k : pystr) (v : V).

Lemma dict_get_set_eq k v d : dict_get k (dict_set k v d) = Some v.
Proof.
  induction d as [|[k' v'] d IH]; cbn.
  - by rewrite decide_True.
  - case_decide; cbn; [by rewrite decide_True | by rewrite decide_False].
Qed.

Lemma dict_get_set_ne k k' v d :
  k ≠ k' → dict_get k' (dict_set k v d) = dict_get k' d.
Proof.
  intros Hne. induction d as [|[k0 v0] d IH]; cbn.
  - by rewrite decide_False.
  - case_decide as Hk; cbn.
    + subst k0. by rewrite !decide_False.
    + case_decide; [done | exact IH].
Qed.

Lemma dict_keys_set_present k v d :
  k ∈ dict_keys d → dict_keys (dict_set k v d) = dict_keys d.
Proof.
  unfold dict_keys. induction d as [|[k' v'] d IH]; cbn; [by intros ?%elem_of_nil|].
  intros Hin. case_decide as Hk; cbn; [by subst|].
  f_equal. apply IH. apply elem_of_cons in Hin as [?|?]; [congruence | done].
Qed.

Lemma dict_keys_set_absent k v d :
  k ∉ dict_keys d → dict_keys (dict_set k v d) = dict_keys d ++ [k].
Proof.
  unfold dict_keys. induction d as [|[k' v'] d IH]; cbn; [done|].
  intros Hin. apply not_elem_of_cons in Hin as [Hne Hin].
  rewrite decide_False by congruence. cbn. f_equal. by apply IH.
Qed.

Lemma dict_set_absent k v d : k ∉ dict_keys d → dict_set k v d = d ++ [(k, v)].
Proof.
  unfold dict_keys. induction d as [|[k' v'] d IH]; cbn; [done|].
  intros Hin. apply not_elem_of_cons in Hin as [Hne Hin].
  rewrite decide_False by congruence. f_equal. by apply IH.
Qed.

Lemma elem_of_dict_keys_set k k' v d :
  k' ∈ dict_keys (dict_set k v d) ↔ k' = k ∨ k' ∈ dict_keys d.
Proof.
  destruct (decide (k ∈ dict_keys d)) as [Hin|Hin].
  - rewrite dict_keys_set_present by done. split; [auto | intros [->|?]; done].
  - rewrite dict_keys_set_absent, elem_of_app, list_elem_of_singleton by done. tauto.
Qed.

Lemma NoDup_dict_keys_set k v d :
  NoDup (dict_keys d) → NoDup (dict_keys (dict_set k v d)).
Proof.
  intros Hd. destruct (decide (k ∈ dict_keys d)) as [Hin|Hin].
  - by rewrite dict_keys_set_present.
  - rewrite dict_keys_set_absent by done. apply NoDup_app. split; [done|].
    split; [|apply NoDup_singleton].
    intros x Hx ->%list_elem_of_singleton. done.
Qed.

Lemma dict_set_all_cons k v kvs d :
  dict_set_all ((k, v) :: kvs) d = dict_set_all kvs (dict_set k v d).
Proof. reflexivity. Qed.

Lemma elem_of_dict_keys_set_all kvs d k :
  k ∈ dict_keys (dict_set_all kvs d) ↔ k ∈ dict_keys d ∨ k ∈ kvs.*1.
Proof.
  revert d. induction kvs as [|[k0 v0] kvs IH]; intros d.
  - cbn. rewrite elem_of_nil. tauto.
  - rewrite dict_set_all_cons, IH, elem_of_dict_keys_set, fmap_cons, elem_of_cons.
    cbn. tauto.
Qed.

Lemma NoDup_dict_keys_set_all kvs d :
  NoDup (dict_keys d) → NoDup (dict_keys (dict_set_all kvs d)).
Proof.
  revert d. induction kvs as [|[k0 v0] kvs IH]; intros d Hd; [done|].
  rewrite dict_set_all_cons. apply IH. by apply NoDup_dict_keys_set.
Qed.

(** A key that is not assigned again keeps its value. *)
Lemma dict_get_set_all_absent kvs d k :
  k ∉ kvs.*1 → dict_get k (dict_set_all kvs d) = dict_get k d.
Proof.
  revert d. induction kvs as [|[k0 v0] kvs IH]; intros d Hk; [done|].
  rewrite fmap_cons in Hk. apply not_elem_of_cons in Hk as [Hne Hk].
  rewrite dict_set_all_cons, IH by done.
  apply dict_get_set_ne. cbn in Hne. congruence.
Qed.

(** The value under a key is the one of its last assignment. *)
Lemma dict_get_set_all_last kvs d i k v :
  kvs !! i = Some (k, v) → k ∉ (drop (S i) kvs).*1 →
  dict_get k (dict_set_all kvs d) = Some v.
Proof.
  revert d i. induction kvs as [|[k0 v0] kvs IH]; intros d i Hi Hlast; [done|].
  rewrite dict_set_all_cons. destruct i as [|i]; cbn in Hi.
  - injection Hi as -> ->. cbn in Hlast. rewrite drop_0 in Hlast.
    rewrite dict_get_set_all_absent by done. apply dict_get_set_eq.
  - apply (IH _ i Hi Hlast).
Qed.

(** Distinct fresh keys are appended in order. *)
Lemma dict_set_all_fresh kvs d :
  NoDup (dict_keys d ++ kvs.*1) → dict_set_all kvs d = d ++ kvs.
Proof.
  revert d. induction kvs as [|[k0 v0] kvs IH]; intros d Hd.
  - by rewrite app_nil_r.
  - rewrite dict_set_all_cons. rewrite fmap_cons in Hd. cbn in Hd.
    assert (Hk0 : k0 ∉ dict_keys d).
    { apply NoDup_app in Hd as (_ & Hdisj & _). intros Hin.
      apply (Hdisj k0 Hin). apply list_elem_of_here. }
    rewrite dict_set_absent by done. rewrite IH.
    + by rewrite <- app_assoc.
    + unfold dict_keys in *. rewrite fmap_app. cbn. by rewrite <- app_assoc.
Qed.

End Dict.

(** ** What the table accepts and hands back *)

Section Serialization.

Implicit Types (v : pyval) (d : pydict) (k : pystr).

Lemma head_omap_None {A B} (f : A → option B) (l : list A) :
  head (omap f l) = None ↔ Forall (fun x => f x = None) l.
Proof.
  induction l as [|x l IH]; cbn.
  - split; [constructor | done].
  - destruct (f x) eqn:Hx; cbn.
    + split; [done | intros H; inversion H; congruence].
    + rewrite IH. split; [by constructor | by inversion 1].
Qed.

Lemma dynamodb_fault_dict d :
  dynamodb_fault (PDict d) = None ↔ Forall (fun kv => dynamodb_fault kv.2 = None) d.
Proof. cbn [dynamodb_fault]. apply head_omap_None. Qed.


Lemma dynamodb_fault_dict_set d k v :
  dynamodb_fault v = None → dynamodb_fault (PDict d) = None →
  dynamodb_fault (PDict (dict_set k v d)) = None.
Proof.
  rewrite !dynamodb_fault_dict. intros Hv.
  induction 1 as [|[k' v'] d Hv' Hd IH]; cbn.
  - by repeat constructor.
  - case_decide; by constructor.
Qed.

Lemma dynamodb_fault_dict_set_all (kvs : list (pystr * pyval)) d :
  Forall (fun v => dynamodb_fault v = None) kvs.*2 →
  dynamodb_fault (PDict d) = None →
  dynamodb_fault (PDict (dict_set_all kvs d)) = None.
Proof.
  revert d. induction kvs as [|[k v] kvs IH]; intros d Hall Hd; [done|].
  rewrite dict_set_all_cons. rewrite fmap_cons in Hall.
  apply Forall_cons in Hall as [Hv Hall].
  apply IH; [done|]. by apply dynamodb_fault_dict_set.
Qed.

Lemma serializable_all (l : list pyval) :
  forallb serializable l = true → Forall (fun v => dynamodb_fault v = None) l.
Proof.
  rewrite forallb_forall, Forall_forall. intros Hall v Hv.
  apply list_elem_of_In, Hall in Hv. unfold serializable in Hv.
  by destruct (dynamodb_fault v).
Qed.

Lemma serialize_values_one v :
  dynamodb_fault v = None → serialize_values [v] = Return tt.
Proof. intros Hv. cbn. by rewrite Hv. Qed.


(** The findings of a run serialize when each of them does. *)
Lemma findings_serialize (questions : list pystr) (found : list pyval) :
  Forall (fun v => dynamodb_fault v = None) found →
  serialize_values [PDict (dict_set_all (zip questions found) [])] = Return tt.
Proof.
  intros Hfound. apply serialize_values_one, dynamodb_fault_dict_set_all; [|done].
  apply Forall_forall. intros v Hv. apply list_elem_of_fmap in Hv as ([k v'] & -> & Hin).
  apply elem_of_zip_r in Hin. by eapply Forall_forall in Hfound.
Qed.

(** Reading from the table differs from reading a Python value only in
    the text of a failure. *)
Lemma stored_get_return v (k : string) default r :
  py_get v k default = Return r ↔ stored_get v k default = Return r.
Proof. by destruct v. Qed.

Lemma stored_iter_return v l : py_iter v = Return l ↔ stored_iter v = Return l.
Proof. by destruct v. Qed.

End Serialization.

(** ** The Research Stage *)

Section ResearchStage.

Context {Ext : Type} (svc : services Ext) (lib : pylib) (cfg : config).
Context (research_untyped : pystr → list pyval → lambda_context → M Ext pyval).
Implicit Types (w : world Ext) (event : stage_event) (sid question : pystr).

Lemma quiet_do_post r : respects quiet (do_post svc r).
Proof. unfold do_post. frame. Qed.

Lemma quiet_get_tavily_api_key : respects quiet (get_tavily_api_key svc cfg).
Proof. unfold get_tavily_api_key. frame. Qed.

Lemma quiet_perform_tavily_search question :
  respects quiet (perform_tavily_search svc cfg question).
Proof.
  unfold perform_tavily_search.
  pose proof quiet_get_tavily_api_key. pose proof quiet_do_post. frame.
Qed.

Lemma quiet_research_invoke_bedrock_model prompt model_id :
  respects quiet (Research.invoke_bedrock_model svc lib prompt model_id).
Proof. unfold Research.invoke_bedrock_model. frame. Qed.

Lemma quiet_answer_question question :
  respects quiet (answer_question svc lib cfg question).
Proof.
  unfold answer_question.
  pose proof quiet_perform_tavily_search.
  pose proof quiet_research_invoke_bedrock_model. frame.
Qed.

Lemma quiet_answer_all questions w : quiet w (answer_all svc lib cfg questions w).2.
Proof.
  revert w. induction questions as [|question rest IH]; intros w; [reflexivity|].
  cbn [answer_all]. pose proof (quiet_answer_question question w) as Hq.
  destruct (answer_question svc lib cfg question w) as [r w1].
  specialize (IH w1). destruct (answer_all svc lib cfg rest w1) as [others w2].
  cbn in *. by etrans.
Qed.

Lemma length_answer_all questions w :
  length (answer_all svc lib cfg questions w).1 = length questions.
Proof.
  revert w. induction questions as [|question rest IH]; intros w; [reflexivity|].
  cbn [answer_all]. destruct (answer_question svc lib cfg question w) as [r w1].
  specialize (IH w1). destruct (answer_all svc lib cfg rest w1) as [others w2].
  cbn in *. by rewrite IH.
Qed.

(** The loop of the source stores, question by question, what the
    specification's [answer_all] lists. *)
Lemma research_loop_answer_all questions findings w :
  research_loop svc lib cfg questions findings w
  = (Return (dict_set_all (zip questions (answer_all svc lib cfg questions w).1) findings),
     (answer_all svc lib cfg questions w).2).
Proof.
  revert findings w. induction questions as [|question rest IH]; intros findings w;
    [reflexivity|].
  cbn [research_loop answer_all]. unfold process_question. unfold_monad.
  destruct (answer_question svc lib cfg question w) as [[validated|e] w1];
    rewrite IH; destruct (answer_all svc lib cfg rest w1) as [others w2]; reflexivity.
Qed.

Lemma as_strings_of_strings (questions : list pystr) :
  as_strings (PStr <$> questions) = Some questions.
Proof. induction questions as [|q qs IH]; [done|]. cbn. by rewrite IH. Qed.

Lemma research_trigger_next_stage_invokes sid next_function w :
  ∃ r x,
    Research.trigger_next_stage svc lib sid next_function w
    = (Return r,
       World (table w)
         (invoked w ++ [ Invocation next_function (py "Event")
                           (json_dumps lib
                              (PDict [ (py "session_id", PStr sid);
                                       (py "previous_stage", PStr (py "research_complete")) ])) ])
         (s3_written w) (http_sent w) x).
Proof.
  unfold Research.trigger_next_stage, invoke_async. unfold_monad.
  match goal with
  | |- context [lambda_invoke svc ?i ?x] =>
      destruct (lambda_invoke svc i x) as [[status|e] x']
  end; eauto.
Qed.

(** The run of the stage on a record whose questions are strings. *)
Lemma research_lambda_handler_run event context w sid it d questions :
  event_session_id event = Some sid →
  table w !! sid = Some it →
  analysis_result it = Some (PDict d) →
  dict_get (py "research_questions") d = Some (PList (PStr <$> questions)) →
  questions ≠ [] →
  let found := (answer_all svc lib cfg questions w).1 in
  let w1 := (answer_all svc lib cfg questions w).2 in
  let findings := dict_set_all (zip questions found) [] in
  Forall (fun v => dynamodb_fault v = None) found →
  ∃ r x,
    Research.lambda_handler svc lib cfg research_untyped event context w
    = (Return r,
       World
         (<[sid := Item (Some (py "research_complete")) (document_content it)
                     (analysis_result it) (extracted_topics it) (Some findings)
                     (final_report it) (error_message it)
                     (Some (PStr (aws_request_id context))) (other_attrs it)]>
            (table w))
         (invoked w ++ [ Invocation (py "report-generation-agent") (py "Event")
                           (json_dumps lib
                              (PDict [ (py "session_id", PStr sid);
                                       (py "previous_stage",
                                        PStr (py "research_complete")) ])) ])
         (s3_written w) (http_sent w1) x).
Proof.
  intros Hsid Hit Hanalysis Hquestions Hnonempty found w1 findings Hserial.
  subst found w1 findings.
  unfold Research.lambda_handler. rewrite Hsid. unfold_monad. rewrite Hit, Hanalysis.
  cbn [default id stored_get]. rewrite Hquestions.
  assert (Htruthy : truthy (PList (PStr <$> questions)) = true)
    by (by destruct questions).
  rewrite Htruthy. cbn [negb stored_iter]. rewrite as_strings_of_strings.
  rewrite research_loop_answer_all.
  destruct (quiet_answer_all questions w) as (Htable & Hinvoked & Hwritten).
  unfold update_item. unfold_monad.
  rewrite (findings_serialize questions _ Hserial).
  match goal with
  | |- context [Research.trigger_next_stage svc lib sid ?f ?w0] =>
      destruct (research_trigger_next_stage_invokes sid f w0) as (r & x & ->)
  end.
  world_simpl. rewrite Htable, Hinvoked, Hwritten, Hit. cbn [default id].
  exists r, x. by rewrite ?Hanalysis.
Qed.

(** The stage on findings the table accepts.  For a session whose record
    holds a non-empty list of research questions, when every finding
    serializes (it holds no float and no integer of more than 38 digits):
    the stage returns; it lists one finding per question, the
    validated answer or, when answering raised, the fallback
    [{summary: "Error processing question: {error}", reliability_score:
    "Low", sources: [], key_findings: []}], and goes on with the remaining
    questions; the findings mapping has every question as a key, each
    once, holding the finding of the question's (last) processing, and for
    pairwise distinct questions it is the questions paired with their
    findings in order; the record is updated to [research_complete] with
    that mapping; and the invocation of [report-generation-agent] is
    issued. *)
Theorem research_findings_one_per_question event context w sid it d questions :
  event_session_id event = Some sid →
  table w !! sid = Some it →
  analysis_result it = Some (PDict d) →
  dict_get (py "research_questions") d = Some (PList (PStr <$> questions)) →
  questions ≠ [] →
  let found := (answer_all svc lib cfg questions w).1 in
  let findings := dict_set_all (zip questions found) [] in
  let run := Research.lambda_handler svc lib cfg research_untyped event context w in
  Forall (fun v => dynamodb_fault v = None) found →
  (∃ r, run.1 = Return r)
  ∧ length found = length questions
  ∧ NoDup (dict_keys findings)
  ∧ (∀ q, q ∈ dict_keys findings ↔ q ∈ questions)
  ∧ (∀ i q, questions !! i = Some q → q ∉ drop (S i) questions →
       dict_get q findings = found !! i)
  ∧ (NoDup questions → findings = zip questions found)
  ∧ (∃ it', table run.2 !! sid = Some it'
            ∧ workflow_stage it' = Some (py "research_complete")
            ∧ research_findings it' = Some findings)
  ∧ invoked run.2
    = invoked w ++ [ Invocation (py "report-generation-agent") (py "Event")
                       (json_dumps lib
                          (PDict [ (py "session_id", PStr sid);
                                   (py "previous_stage",
                                    PStr (py "research_complete")) ])) ].
Proof.
  intros Hsid Hit Hanalysis Hquestions Hnonempty found findings run Hserial.
  destruct (research_lambda_handler_run event context w sid it d questions)
    as (r & x & Hrun); try done.
  fold found findings run in Hrun.
  assert (Hlen : length found = length questions) by apply length_answer_all.
  assert (Hkeys : (zip questions found).*1 = questions)
    by (apply fst_zip; lia).
  repeat split.
  - exists r. by rewrite Hrun.
  - exact Hlen.
  - apply NoDup_dict_keys_set_all, NoDup_nil_2.
  - intros Hq. apply elem_of_dict_keys_set_all in Hq as [Hq|Hq].
    + by apply elem_of_nil in Hq.
    + by rewrite Hkeys in Hq.
  - intros Hq. apply elem_of_dict_keys_set_all. right. by rewrite Hkeys.
  - intros i q Hi Hlast.
    destruct (lookup_lt_is_Some_2 found i) as [v Hv].
    { rewrite Hlen. by eapply lookup_lt_Some. }
    rewrite Hv. apply (dict_get_set_all_last _ _ i).
    + apply lookup_zip_with_Some. eauto.
    + assert (Hdrop : (drop (S i) (zip questions found)).*1 = drop (S i) questions);
        [|by rewrite Hdrop].
      by rewrite fmap_drop, Hkeys.
  - intros Hdistinct. apply (dict_set_all_fresh (zip questions found) []).
    cbn. by rewrite Hkeys.
  - rewrite Hrun. cbn. rewrite lookup_insert_eq. eauto.
  - by rewrite Hrun.
Qed.

End ResearchStage.

Lemma research_findings_one_per_question_witness :
  let q1 := py "How did Q3 revenue compare with Q2?" in
  let q2 := py "Is the figure audited?" in
  let q3 := py "What drove the growth?" in
  let questions := [q1; q2; q3] in
  let d := [ (py "topics", PList []);
             (py "research_questions", PList (PStr <$> questions)) ] in
  let it := Item (Some (py "analysis_complete")) (Some (py "Our Q3 revenue grew 12%."))
              (Some (PDict d)) (Some (PList [])) None None None None [] in
  let sid := py "q3-report_82719c71_000000" in
  let w := World {[ sid := it ]} [] [] [] tt in
  let lib := Demo.lib [Demo.model_body Demo.validated_finding; Demo.validated_finding] [] in
  let svc := Demo.services_with (Return []) (Demo.bedrock_says Demo.validated_finding)
               (Demo.search_failing_on q2) Demo.unreachable Demo.accepted Demo.now in
  let run := Research.lambda_handler svc lib Demo.cfg Demo.no_untyped
               (StageEvent (Some sid)) (LambdaContext (py "req-1")) w in
  questions ≠ []
  ∧ (table run.2 !! sid ≫= research_findings)
    = Some [ (q1, Demo.validated_finding);
             (q2, finding (py "Error processing question: Tavily API request failed: Read timed out."));
             (q3, Demo.validated_finding) ]
  ∧ function_name <$> invoked run.2 = [py "report-generation-agent"].
Proof.
  intros q1 q2 q3 questions d it sid w lib svc run.
  assert (Hne : questions ≠ []) by discriminate.
  split; [exact Hne|].
  assert (Hserial : Forall (fun v => dynamodb_fault v = None)
                      (answer_all svc lib Demo.cfg questions w).1)
    by (apply serializable_all; vm_compute; reflexivity).
  destruct (research_findings_one_per_question svc lib Demo.cfg Demo.no_untyped
              (StageEvent (Some sid)) (LambdaContext (py "req-1")) w sid it d questions
              eq_refl eq_refl eq_refl eq_refl Hne Hserial)
    as (_ & _ & _ & _ & _ & _ & (it' & Hit' & _ & Hfindings) & Hinvoked).
  fold run in Hit', Hinvoked. rewrite Hit', Hinvoked. cbn [mbind option_bind].
  rewrite Hfindings. split; vm_compute; reflexivity.
Defined.

(** C1.  The code breaks the claim when the model states a number with a
    decimal point in a finding.  For a record with one research question
    whose search succeeds and whose answer the model validates with
    ["confidence": 0.9], no question raises and the finding is the model's
    answer; the write of the findings then raises the [TypeError] of the
    table's serializer, outside every handler: the stage raises, the
    record stays as it was, in stage [analysis_complete] and without
    findings, and the Report Generation Stage is not invoked. *)
Lemma research_float_finding_aborts_stage :
  let question := py "What drove the growth?" in
  let d := [ (py "research_questions", PList [ PStr question ]) ] in
  let it := Item (Some (py "analysis_complete")) (Some (py "Our Q3 revenue grew 12%."))
              (Some (PDict d)) (Some (PList [])) None None None None [] in
  let sid := py "q3-report_82719c71_000000" in
  let w := World {[ sid := it ]} [] [] [] tt in
  let lib := Demo.lib [Demo.model_body Samples.scored_finding; Samples.scored_finding] [] in
  let svc := Demo.services_with (Return []) (Demo.bedrock_says Samples.scored_finding)
               (Demo.search_failing_on []) Demo.unreachable Demo.accepted Demo.now in
  let run := Research.lambda_handler svc lib Demo.cfg Demo.no_untyped
               (StageEvent (Some sid)) (LambdaContext (py "req-1")) w in
  (answer_all svc lib Demo.cfg [question] w).1 = [ Samples.scored_finding ]
  ∧ run.1 = Raise (Exn TypeError
                     (py "Float types are not supported. Use Decimal types instead."))
  ∧ table run.2 !! sid = Some it
  ∧ invoked run.2 = [].
Proof. vm_compute. repeat split. Qed.

(** ** The Report Generation Stage *)

Section ReportStage.

Context {Ext : Type} (svc : services Ext) (lib : pylib).
Implicit Types (w : world Ext) (event : stage_event) (sid : pystr).

Lemma quiet_report_invoke_bedrock_model prompt model_id :
  respects quiet (Report.invoke_bedrock_model svc lib prompt model_id).
Proof. unfold Report.invoke_bedrock_model. frame. Qed.

(** The Report Generation Stage touches no record but its session's, and
    leaves that one at [report_generated] when it writes it. *)
Lemma report_advances event :
  respects (advances (default [] (event_session_id event)) [py "report_generated"])
    (Report.lambda_handler svc lib event).
Proof.
  unfold Report.lambda_handler.
  destruct (event_session_id event) as [sid|]; cbn [default]; [|frame].
  pose proof quiet_report_invoke_bedrock_model. frame.
Qed.


End ReportStage.

(** ** Missing upstream data *)

Section MissingData.

Context {Ext : Type} (svc : services Ext) (lib : pylib) (cfg : config).
Context (research_untyped : pystr → list pyval → lambda_context → M Ext pyval).
Implicit Types (w : world Ext) (event : stage_event) (sid : pystr).


End MissingData.



(** ** The order of the workflow stages *)

Section StageOrder.

Context {Ext : Type} (svc : services Ext) (lib : pylib) (cfg : config).
Context (research_untyped : pystr → list pyval → lambda_context → M Ext pyval).
Implicit Types (w : world Ext) (event : stage_event) (sid : pystr) (c : stage_call).

Lemma error_stage_no_rank s : error_stage s → stage_rank s = None.
Proof. intros [-> | ->]; reflexivity. Qed.

#[export] Instance not_behind_preorder : PreOrder not_behind.
Proof.
  split; [by left|].
  intros a b c [-> | (s & s' & ra & -> & -> & Hra & Hb)]; [done|].
  intros [<- | (s1 & s'' & ra' & [= <-] & -> & Hra' & Hc)].
  { right. exists s, s', ra. eauto. }
  right. exists s, s'', ra. do 3 (split; [done|]).
  destruct Hb as [Herr | (rb & Hrb & Hle)].
  { apply error_stage_no_rank in Herr. congruence. }
  assert (rb = ra') as -> by congruence.
  destruct Hc as [? | (rc & Hrc & Hle')]; [by left|].
  right. exists rc. split; [done | lia].
Qed.

(** A step that only touches one record, found at a stage of the order
    and left, if written, at later stages or in an error state, moves no
    record's stage backward. *)
Lemma advances_not_behind sid stages w w' s ra :
  advances sid stages w w' →
  stage_of w sid = Some s → stage_rank s = Some ra →
  (∀ s', s' ∈ stages →
     error_stage s' ∨ ∃ rb, stage_rank s' = Some rb ∧ (ra ≤ rb)%nat) →
  ∀ sid', not_behind (stage_of w sid') (stage_of w' sid').
Proof.
  intros [Hothers Hsid] Hs Hra Hstages sid'.
  destruct (decide (sid' = sid)) as [-> | Hne].
  - destruct Hsid as [Heq | (s' & Hs' & Hin)].
    + left. unfold stage_of. by rewrite Heq.
    + right. exists s, s', ra. eauto.
  - left. unfold stage_of. by rewrite Hothers.
Qed.

(** The Research Stage, on a record whose questions are strings, touches
    no record but its session's and leaves that one at
    [research_complete] when it writes it. *)
Lemma research_advances event context w sid it :
  event_session_id event = Some sid →
  table w !! sid = Some it →
  typed_questions it = true →
  advances sid [py "research_complete"] w
    (Research.lambda_handler svc lib cfg research_untyped event context w).2.
Proof.
  intros Hsid Hit Htyped. unfold Research.lambda_handler. rewrite Hsid.
  unfold_monad. rewrite Hit. unfold typed_questions in Htyped.
  destruct (stored_get _ _ _) as [rq|e] eqn:Hget; [|reflexivity].
  apply (proj2 (stored_get_return _ _ _ _)) in Hget. rewrite Hget in Htyped.
  destruct (truthy rq); cbn [negb]; [|reflexivity].
  destruct (stored_iter rq) as [iterated|e] eqn:Hiter; [|reflexivity].
  apply (proj2 (stored_iter_return _ _)) in Hiter. rewrite Hiter in Htyped.
  destruct (as_strings iterated) as [questions|]; [|done].
  rewrite research_loop_answer_all.
  destruct (quiet_answer_all svc lib cfg questions w) as (Htable & _).
  unfold update_item. unfold_monad.
  destruct (serialize_values _) as [[]|e]; cbn [lift_result];
    [|split; [intros k _ | left]; cbn; by rewrite Htable].
  match goal with
  | |- context [Research.trigger_next_stage svc lib sid ?f ?w0] =>
      destruct (research_trigger_next_stage_invokes svc lib sid f w0) as (r & x & ->)
  end.
  world_simpl. rewrite Htable. split.
  - intros k Hk. cbn. by rewrite lookup_insert_ne.
  - right. exists (py "research_complete"). unfold stage_of. cbn.
    rewrite lookup_insert_eq. split; [done | apply list_elem_of_here].
Qed.

Lemma run_stage_not_behind c w :
  handed_off c w = true →
  ∀ sid, not_behind (stage_of w sid)
           (stage_of (run_stage svc lib cfg research_untyped c w).2 sid).
Proof.
  unfold handed_off. intros Hhanded.
  destruct (event_session_id (call_event c)) as [sid|] eqn:Hsid; [|done].
  destruct (table w !! sid) as [it|] eqn:Hit; [|done].
  apply andb_prop in Hhanded as [Hstage Htyped].
  apply bool_decide_eq_true in Hstage.
  assert (Hhere : stage_of w sid = Some (expected_stage c))
    by (unfold stage_of; by rewrite Hit).
  destruct c as [event | event context | event]; cbn [call_event run_stage] in *.
  - pose proof (analysis_advances svc lib event w) as Hadv.
    rewrite Hsid in Hadv. cbn [default] in Hadv.
    apply (advances_not_behind _ _ _ _ _ 0%nat Hadv Hhere); [reflexivity|].
    intros s'. rewrite !elem_of_cons, elem_of_nil.
    intros [-> | [-> | []]];
      [right; exists 1%nat; split; [reflexivity | lia] | left; by left].
  - pose proof (research_advances event context w sid it Hsid Hit Htyped) as Hadv.
    apply (advances_not_behind _ _ _ _ _ 1%nat Hadv Hhere); [reflexivity|].
    intros s'. rewrite !elem_of_cons, elem_of_nil.
    intros [-> | []]. right. exists 2%nat. split; [reflexivity | lia].
  - pose proof (report_advances svc lib event w) as Hadv.
    rewrite Hsid in Hadv. cbn [default] in Hadv.
    apply (advances_not_behind _ _ _ _ _ 2%nat Hadv Hhere); [reflexivity|].
    intros s'. rewrite !elem_of_cons, elem_of_nil.
    intros [-> | []]. right. exists 3%nat. split; [reflexivity | lia].
Qed.

(** C7, as amended.  Along every sequence of executions of the Analysis,
    Research and Report Generation stages that follows the pipeline's
    hand-off (each stage run for a session whose record is in the stage
    its predecessor sets on success), no record's [workflow_stage] moves
    backward along document_processed < analysis_complete <
    research_complete < report_generated, and a record in an error state
    stays in it. *)
Theorem stage_never_regresses_along_handoff cs w :
  handoff_run svc lib cfg research_untyped cs w = true →
  (∀ sid, not_behind (stage_of w sid)
            (stage_of (run_stages svc lib cfg research_untyped cs w) sid))
  ∧ (∀ sid s, stage_of w sid = Some s → error_stage s →
       stage_of (run_stages svc lib cfg research_untyped cs w) sid = Some s).
Proof.
  intros Hrun.
  assert (Hmono : ∀ sid, not_behind (stage_of w sid)
                    (stage_of (run_stages svc lib cfg research_untyped cs w) sid)).
  { revert w Hrun. induction cs as [|c cs IH]; intros w Hrun sid; [by left|].
    cbn [handoff_run run_stages] in *. apply andb_prop in Hrun as [Hc Hcs].
    etrans; [by apply run_stage_not_behind | by apply IH]. }
  split; [exact Hmono|].
  intros sid s Hs Herr. specialize (Hmono sid). rewrite Hs in Hmono.
  destruct Hmono as [<- | (s0 & s' & ra & [= <-] & _ & Hra & _)]; [done|].
  apply error_stage_no_rank in Herr. congruence.
Qed.

End StageOrder.

Lemma stage_never_regresses_along_handoff_witness :
  let sid := py "q3-report_82719c71_000000" in
  let it := Item (Some (py "document_processed")) (Some (py "Our Q3 revenue grew 12%."))
              None None None None None None [] in
  let w := World {[ sid := it ]} [] [] [] tt in
  let event := StageEvent (Some sid) in
  let cs := [ RunAnalysis event; RunResearch event (LambdaContext (py "req-1"));
              RunReport event ] in
  let w' := run_stages Demo.pipeline_services Demo.pipeline_lib Demo.cfg
              Demo.no_untyped cs w in
  handoff_run Demo.pipeline_services Demo.pipeline_lib Demo.cfg Demo.no_untyped cs w
  = true
  ∧ stage_of w' sid = Some (py "report_generated")
  ∧ not_behind (stage_of w sid) (stage_of w' sid).
Proof.
  intros sid it w event cs w'.
  assert (Hrun : handoff_run Demo.pipeline_services Demo.pipeline_lib Demo.cfg
                   Demo.no_untyped cs w = true) by (vm_compute; reflexivity).
  split; [exact Hrun|]. split; [vm_compute; reflexivity|].
  apply (stage_never_regresses_along_handoff Demo.pipeline_services Demo.pipeline_lib
           Demo.cfg Demo.no_untyped cs w Hrun).
Defined.

Lemma not_behind_inv s s' :
  not_behind (Some s) (Some s') →
  s = s' ∨ ∃ ra, stage_rank s = Some ra
           ∧ (error_stage s' ∨ ∃ rb, stage_rank s' = Some rb ∧ (ra ≤ rb)%nat).
Proof.
  intros [[= ->] | (s0 & s1 & ra & [= <-] & [= <-] & Hra & H)]; [by left|].
  right. by exists ra.
Qed.

(** C7, as stated, fails: the stages write [workflow_stage] without
    reading it.  The Analysis Stage run again on a finished record takes
    it from [report_generated] back to [analysis_complete], and run on a
    record in the [error] state takes it out of that state. *)
Lemma analysis_overwrites_later_and_error_stages :
  let sid := py "q3-report_82719c71_000000" in
  let finished := Item (Some (py "report_generated"))
                    (Some (py "Our Q3 revenue grew 12%.")) None None None
                    (Some Demo.report_text) None None [] in
  let failed := Item (Some (py "error")) (Some (py "Our Q3 revenue grew 12%."))
                  None None None None (Some (py "Bedrock analysis failed: timeout"))
                  None [] in
  let run (it : item) :=
    (Analysis.lambda_handler Demo.pipeline_services Demo.pipeline_lib
       (StageEvent (Some sid)) (World {[ sid := it ]} [] [] [] tt)).2 in
  (stage_of (run finished) sid = Some (py "analysis_complete")
   ∧ ¬ not_behind (Some (py "report_generated")) (stage_of (run finished) sid))
  ∧ (stage_of (run failed) sid = Some (py "analysis_complete")
     ∧ ¬ not_behind (Some (py "error")) (stage_of (run failed) sid)).
Proof.
  intros sid finished failed run.
  assert (Hfinished : stage_of (run finished) sid = Some (py "analysis_complete"))
    by (vm_compute; reflexivity).
  assert (Hfailed : stage_of (run failed) sid = Some (py "analysis_complete"))
    by (vm_compute; reflexivity).
  rewrite Hfinished, Hfailed. repeat split.
  - intros [H | (ra & Hra & [[H | H] | (rb & Hrb & Hle)])]%not_behind_inv;
      try (vm_compute in H; congruence).
    vm_compute in Hra, Hrb. injection Hra as <-. injection Hrb as <-. lia.
  - intros [H | (ra & Hra & _)]%not_behind_inv; [vm_compute in H; congruence|].
    vm_compute in Hra. congruence.
Qed.

(** ** File names and extensions *)

Section FileNames.

Implicit Types (c : N) (s name key : pystr).

Lemma split_on_absent c s : c ∉ s → split_on c s = [s].
Proof.
  induction s as [|x s IH]; [done|]. intros [Hx Hs]%not_elem_of_cons.
  cbn. rewrite decide_False by done. by rewrite IH.
Qed.

Lemma split_on_app c a b :
  split_on c (a ++ c :: b) = split_on c a ++ split_on c b.
Proof.
  induction a as [|x a IH]; cbn [app split_on].
  - by rewrite decide_True.
  - case_decide; [by rewrite IH|].
    rewrite IH. pose proof (split_on_nonempty c a).
    by destruct (split_on c a).
Qed.

Lemma elem_of_last_occurrence c s : c ∈ s → ∃ a b, s = a ++ c :: b ∧ c ∉ b.
Proof.
  induction s as [|x s IH]; [by intros ?%elem_of_nil|]. intros Hin.
  destruct (decide (c ∈ s)) as [Hs|Hs].
  - destruct (IH Hs) as (a & b & -> & Hb). by exists (x :: a), b.
  - apply elem_of_cons in Hin as [-> | ?]; [|done]. by exists [], s.
Qed.

(** ['.' + filename.split('.')[-1]] is the name from its last dot on. *)
Lemma get_file_extension_app stem tail :
  dot ∉ tail → _get_file_extension (stem ++ dot :: tail) = dot :: tail.
Proof.
  intros Htail. unfold _get_file_extension, contains_char.
  rewrite bool_decide_eq_true_2
    by (apply elem_of_app; right; apply list_elem_of_here).
  rewrite split_on_app, (split_on_absent dot tail) by done.
  by rewrite last_last.
Qed.

(** X1.  The extension of a name without a dot is empty; the extension
    of a name with a dot is the name from its last dot on: the dot and
    what follows it, which has no dot and may be empty. *)
Theorem file_extension_from_last_dot name :
  (dot ∉ name → _get_file_extension name = [])
  ∧ (dot ∈ name →
     ∃ stem tail, name = stem ++ dot :: tail ∧ (dot ∉ tail)
                  ∧ _get_file_extension name = dot :: tail).
Proof.
  split.
  - intros Hdot. unfold _get_file_extension, contains_char.
    by rewrite bool_decide_eq_false_2.
  - intros (stem & tail & -> & Htail)%elem_of_last_occurrence.
    exists stem, tail. by rewrite get_file_extension_app.
Qed.

Lemma startswith_spec (p s : pystr) : startswith p s = true ↔ ∃ t, s = p ++ t.
Proof.
  revert s. induction p as [|a p IH]; intros s; cbn [startswith].
  - split; [by exists s | done].
  - destruct s as [|b s]; [split; [done | by intros (t & ?)]|].
    case_decide as Hab.
    + subst b. rewrite IH. split; intros (t & Ht); exists t; cbn in *; congruence.
    + split; [done|]. intros (t & Ht). cbn in Ht. congruence.
Qed.

Lemma endswith_spec (e s : pystr) : endswith e s = true ↔ ∃ a, s = a ++ e.
Proof.
  unfold endswith. rewrite startswith_spec. split.
  - intros (t & Ht). exists (reverse t).
    by rewrite <- (reverse_involutive s), Ht, reverse_app, reverse_involutive.
  - intros (a & ->). exists (reverse a). by rewrite reverse_app.
Qed.

Lemma lower_char_dot x : lower_char x = dot → x = dot.
Proof.
  unfold lower_char, dot.
  destruct (65 <=? x) eqn:H1; destruct (x <=? 90) eqn:H2; cbn; try done.
  apply N.leb_le in H1. lia.
Qed.

Lemma lower_dot_free s : dot ∉ lower s ↔ dot ∉ s.
Proof.
  unfold lower. rewrite list_elem_of_fmap. split.
  - intros H Hin. apply H. exists dot. split; [done | exact Hin].
  - intros H (x & Hx & Hin). symmetry in Hx. apply lower_char_dot in Hx.
    by subst x.
Qed.

(** A lowered key ends with a dot and dot-free letters exactly when its
    lowered extension is that ending. *)
Lemma endswith_lower_extension key t :
  dot ∉ t →
  endswith (dot :: t) (lower key) = true ↔ lower (_get_file_extension key) = dot :: t.
Proof.
  intros Ht. rewrite endswith_spec. split.
  - intros (a & Ha). unfold lower in Ha.
    apply fmap_app_inv in Ha as (stem & rest & -> & Hrest & ->).
    symmetry in Hrest. apply fmap_cons_inv in Hrest as (x & tail & Hx & -> & ->).
    symmetry in Hx. apply lower_char_dot in Hx. subst x.
    rewrite get_file_extension_app by (by apply lower_dot_free).
    reflexivity.
  - intros Hext. destruct (decide (dot ∈ key)) as [Hin|Hin].
    + apply elem_of_last_occurrence in Hin as (stem & tail & -> & Htail).
      rewrite get_file_extension_app in Hext by done.
      exists (lower stem). unfold lower in *. by rewrite fmap_app, Hext.
    + unfold _get_file_extension, contains_char in Hext.
      by rewrite bool_decide_eq_false_2 in Hext.
Qed.

End FileNames.

(** ** Extraction by file format *)

(** Decides the comparisons of a known extension with the literals. *)
Ltac decide_literals :=
  repeat match goal with
    | |- context [decide ?P] =>
        first [ rewrite (decide_True (P := P)) by (vm_compute; auto)
              | rewrite (decide_False (P := P)) by (vm_compute; intuition congruence) ]
    end.

Section ExtractionFormats.

Context (lib : pylib) (cfg : config).
Implicit Types (r : extraction_result) (file_bytes : bytes) (name key : pystr).

Lemma startswith_cons_ne a p b (s : pystr) : a ≠ b → startswith (a :: p) (b :: s) = false.
Proof. intros Hne. cbn. by rewrite decide_False. Qed.

(** A text whose first two characters are not [ER] does not start with
    [ERROR:]. *)
Lemma not_error_prefix a b (s : pystr) :
  a ≠ 69 ∨ b ≠ 82 → startswith (py "ERROR:") (a :: b :: s) = false.
Proof.
  intros Hab. change (py "ERROR:") with (69 :: 82 :: py "ROR:").
  cbn [startswith]. repeat case_decide; try done. lia.
Qed.

Lemma extract_branch_pdf file_bytes r :
  lower (file_extension r) = py ".pdf" →
  extract_branch lib cfg file_bytes r
  = (set_method (py "PyPDF2") (set_content (extract_pdf_text lib cfg file_bytes) r), None).
Proof. intros Hext. unfold extract_branch. rewrite Hext. by decide_literals. Qed.

Lemma extract_branch_docx file_bytes r :
  lower (file_extension r) = py ".docx" →
  extract_branch lib cfg file_bytes r
  = (set_method (py "python-docx")
       (set_content (extract_docx_text lib cfg file_bytes) r), None).
Proof. intros Hext. unfold extract_branch. rewrite Hext. by decide_literals. Qed.

Lemma extract_branch_json file_bytes r :
  lower (file_extension r) = py ".json" →
  extract_branch lib cfg file_bytes r
  = match decode_utf8 lib file_bytes with
    | inr msg => (r, Some (Exn UnicodeDecodeError msg))
    | inl text =>
        match json_loads lib text with
        | Return json_content =>
            (set_metadata (py "json_keys") (json_keys_of json_content)
               (set_method (py "json_parse")
                  (set_content (json_dumps_indent2 lib json_content) r)), None)
        | Raise e =>
            if is_JSONDecodeError e
            then (set_content (py "ERROR: Invalid JSON file - " ++ exn_str e) r, None)
            else (r, Some e)
        end
    end.
Proof. intros Hext. unfold extract_branch. rewrite Hext. by decide_literals. Qed.

(** Every entry of the page list starts with the page header. *)
Lemma pdf_text_content_head page_num pages :
  pdf_text_content page_num pages = []
  ∨ ∃ t rest, pdf_text_content page_num pages = (45 :: 45 :: t) :: rest.
Proof.
  revert page_num. induction pages as [|[page_text|e] pages IH]; intros page_num.
  - by left.
  - cbn [pdf_text_content]. destruct (nonempty (strip page_text)).
    + right. unfold page_header. eexists _, _. reflexivity.
    + apply IH.
  - right. cbn [pdf_text_content]. unfold page_header. eexists _, _. reflexivity.
Qed.

(** What the PDF extractor returns is non-empty and starts with [ERROR:]
    in one case only, the missing library. *)
Lemma extract_pdf_text_flag file_bytes :
  nonempty (extract_pdf_text lib cfg file_bytes)
  && negb (startswith (py "ERROR:") (extract_pdf_text lib cfg file_bytes))
  = PDF_SUPPORT cfg.
Proof.
  unfold extract_pdf_text. destruct (PDF_SUPPORT cfg); cbn [negb]; [|reflexivity].
  destruct (pdf_pages lib file_bytes) as [pages|e].
  - cbv zeta.
    destruct (pdf_text_content_head 0 pages) as [-> | (t & rest & ->)]; [reflexivity|].
    destruct (len _ <? 10); [reflexivity|].
    assert (Hjoin : ∃ t', join [newline; newline] ((45 :: 45 :: t) :: rest)
                          = 45 :: 45 :: t')
      by (destruct rest; eexists; reflexivity).
    destruct Hjoin as [t' ->]. rewrite not_error_prefix by (left; done). reflexivity.
  - change (py "Error processing PDF: " ++ exn_str e)
      with (69 :: 114 :: (py "ror processing PDF: " ++ exn_str e)).
    rewrite not_error_prefix by (right; done). reflexivity.
Qed.

(** X2.  For a name whose extension is [.pdf] in any letter case, the
    success flag of the extraction is the availability of the PDF library:
    without it every PDF fails, and with it every PDF counts as extracted,
    whatever its bytes, also when the reader fails (the content is then
    the text [Error processing PDF: ...]) or finds fewer than ten
    characters (the content is then the warning text). *)
Theorem pdf_extraction_success_is_library_support file_bytes name :
  lower (_get_file_extension name) = py ".pdf" →
  let r := extract_text_content lib cfg file_bytes name in
  extraction_success r = PDF_SUPPORT cfg
  ∧ content r = extract_pdf_text lib cfg file_bytes
  ∧ (∀ e, PDF_SUPPORT cfg = true → pdf_pages lib file_bytes = Raise e →
       content r = py "Error processing PDF: " ++ exn_str e).
Proof.
  intros Hext r. subst r. unfold extract_text_content.
  rewrite extract_branch_pdf by exact Hext.
  destruct (add_statistics_keeps
              (check_success
                 (set_method (py "PyPDF2")
                    (set_content (extract_pdf_text lib cfg file_bytes)
                       (ExtractionResult name (_get_file_extension name)
                          (N.of_nat (length file_bytes)) (py "unknown") false
                          [] [] [])))))
    as (-> & -> & _).
  match goal with
  | |- context [check_success ?r0] =>
      destruct (check_success_spec r0 eq_refl) as [-> ->]
  end.
  cbn [content set_method set_content].
  split; [apply extract_pdf_text_flag|]. split; [reflexivity|].
  intros e Hsupport Hpages. unfold extract_pdf_text.
  by rewrite Hsupport, Hpages.
Qed.

(** X3.  For a name whose extension is [.docx] in any letter case and
    with the Word library available: a file the reader cannot open is not
    a failed extraction, its content is the text [Error processing Word
    document: ...] and its success flag is true. *)
Theorem docx_reader_failure_counts_as_extracted file_bytes name e :
  lower (_get_file_extension name) = py ".docx" →
  DOCX_SUPPORT cfg = true →
  docx_paragraphs lib file_bytes = Raise e →
  let r := extract_text_content lib cfg file_bytes name in
  content r = py "Error processing Word document: " ++ exn_str e
  ∧ extraction_success r = true
  ∧ extraction_method r = py "python-docx"
  ∧ warnings r = [].
Proof.
  intros Hext Hsupport Hreader r. subst r. unfold extract_text_content.
  rewrite extract_branch_docx by exact Hext.
  destruct (add_statistics_keeps
              (check_success
                 (set_method (py "python-docx")
                    (set_content (extract_docx_text lib cfg file_bytes)
                       (ExtractionResult name (_get_file_extension name)
                          (N.of_nat (length file_bytes)) (py "unknown") false
                          [] [] [])))))
    as (-> & -> & -> & ->).
  match goal with
  | |- context [check_success ?r0] =>
      destruct (check_success_spec r0 eq_refl) as [-> ->];
      destruct (check_success_keeps r0) as [-> ->]
  end.
  cbn [content extraction_method warnings set_method set_content].
  unfold extract_docx_text. rewrite Hsupport, Hreader. cbn [negb].
  change (py "Error processing Word document: " ++ exn_str e)
    with (69 :: 114 :: (py "ror processing Word document: " ++ exn_str e)).
  rewrite not_error_prefix by (right; done). done.
Qed.

End ExtractionFormats.

Section ExtractionDispatch.

Context (lib : pylib) (cfg : config).
Implicit Types (r : extraction_result) (file_bytes : bytes) (name key : pystr).

(** The method of the result is the one the branch on the extension set. *)
Lemma extract_text_content_method file_bytes name :
  extraction_method (extract_text_content lib cfg file_bytes name)
  = extraction_method
      (extract_branch lib cfg file_bytes
         (ExtractionResult name (_get_file_extension name)
            (N.of_nat (length file_bytes)) (py "unknown") false [] [] [])).1.
Proof.
  unfold extract_text_content.
  destruct (extract_branch _ _ _ _) as [r [e|]]; [reflexivity|].
  destruct (add_statistics_keeps (check_success r)) as (_ & _ & -> & _).
  by destruct (check_success_keeps r) as [-> _].
Qed.

Lemma extract_branch_method_not_generic file_bytes r :
  lower (file_extension r) ∈ document_extensions →
  extraction_method r = py "unknown" →
  extraction_method (extract_branch lib cfg file_bytes r).1
    ∉ [ py "generic_text"; py "generic_text_fallback" ].
Proof.
  intros Hin Hmethod. unfold document_extensions in Hin.
  rewrite !elem_of_cons, elem_of_nil in Hin.
  assert (Hgoal : ∀ m, m ≠ py "generic_text" → m ≠ py "generic_text_fallback" →
                    m ∉ [ py "generic_text"; py "generic_text_fallback" ])
    by (intros m ? ?; rewrite !elem_of_cons, elem_of_nil; tauto).
  unfold extract_branch.
  destruct Hin as [H | [H | [H | [H | [H | [H | [H | []]]]]]]];
    rewrite H; decide_literals;
    repeat match goal with
      | |- context [match ?x with _ => _ end] => destruct x
      end;
    cbn [fst extraction_method set_method set_content set_metadata add_warning];
    rewrite ?Hmethod; apply Hgoal; vm_compute; congruence.
Qed.

Lemma check_success_metadata r : metadata (check_success r) = metadata r.
Proof. unfold check_success. by destruct (_ && _). Qed.

(** The statistics leave every other key of the metadata alone. *)
Lemma add_statistics_metadata r k :
  k ∉ [ py "content_length"; py "word_count"; py "line_count"; py "has_content" ] →
  dict_get k (metadata (add_statistics r)) = dict_get k (metadata r).
Proof.
  rewrite !elem_of_cons, elem_of_nil. intros Hk.
  unfold add_statistics, set_metadata. cbn [metadata].
  rewrite !dict_get_set_ne by (intros <-; apply Hk; auto 6). reflexivity.
Qed.

(** X4.  The filter of the notification handler and the dispatch of the
    extractor agree: a lowered key ends with one of the seven document
    extensions exactly when the lowered extension of the key is one of
    them; so an object that passes the filter is never extracted by the
    generic text branch. *)
Theorem notification_filter_agrees_with_dispatch key file_bytes :
  (existsb (fun e => endswith e (lower key)) document_extensions = true
   ↔ lower (_get_file_extension key) ∈ document_extensions)
  ∧ (existsb (fun e => endswith e (lower key)) document_extensions = true →
     extraction_method (extract_text_content lib cfg file_bytes key)
       ∉ [ py "generic_text"; py "generic_text_fallback" ]).
Proof.
  assert (Hiff : existsb (fun e => endswith e (lower key)) document_extensions = true
                 ↔ lower (_get_file_extension key) ∈ document_extensions).
  { rewrite existsb_exists. setoid_rewrite <- list_elem_of_In.
    assert (Hshape : ∀ e, e ∈ document_extensions → ∃ t, e = dot :: t ∧ dot ∉ t).
    { intros e. unfold document_extensions. rewrite !elem_of_cons, elem_of_nil.
      intros [-> | [-> | [-> | [-> | [-> | [-> | [-> | []]]]]]]];
        eexists; (split; [reflexivity|]); rewrite list_elem_of_In;
        vm_compute; intuition congruence. }
    split.
    - intros (e & He & Hends). destruct (Hshape e He) as (t & -> & Ht).
      apply endswith_lower_extension in Hends; [|done]. by rewrite Hends.
    - intros Hin. destruct (Hshape _ Hin) as (t & Ht & Hfree).
      exists (dot :: t). split; [by rewrite <- Ht|].
      by apply endswith_lower_extension. }
  split; [exact Hiff|]. intros Hfilter. apply Hiff in Hfilter.
  rewrite extract_text_content_method.
  by apply extract_branch_method_not_generic.
Qed.

(** X5.  For a name whose extension is [.json] in any letter case, a
    successful extraction means the bytes decoded as UTF-8 and parsed as
    JSON; the content is then the re-serialisation of the parsed value
    with indent 2, not the text of the file, and the metadata lists the
    top-level keys of an object ([None] for any other value). *)
Theorem json_extraction_is_reserialised file_bytes name :
  lower (_get_file_extension name) = py ".json" →
  let r := extract_text_content lib cfg file_bytes name in
  extraction_success r = true →
  ∃ text v,
    decode_utf8 lib file_bytes = inl text
    ∧ json_loads lib text = Return v
    ∧ content r = json_dumps_indent2 lib v
    ∧ extraction_method r = py "json_parse"
    ∧ dict_get (py "json_keys") (metadata r) = Some (json_keys_of v).
Proof.
  intros Hext r. subst r. unfold extract_text_content.
  rewrite extract_branch_json by exact Hext.
  destruct (decode_utf8 lib file_bytes) as [text|msg] eqn:Hdecoded; [|done].
  destruct (json_loads lib text) as [v|e] eqn:Hparsed.
  - intros _. exists text, v. do 2 (split; [done|]).
    match goal with
    | |- context [check_success ?r0] =>
        destruct (add_statistics_keeps (check_success r0)) as (_ & -> & -> & _);
        destruct (check_success_spec r0 eq_refl) as [_ ->];
        destruct (check_success_keeps r0) as [-> _]
    end.
    do 2 (split; [reflexivity|]).
    rewrite add_statistics_metadata, check_success_metadata.
    + cbn. by rewrite decide_True.
    + rewrite list_elem_of_In. vm_compute. intuition congruence.
  - destruct (is_JSONDecodeError e); [|done].
    match goal with
    | |- context [check_success ?r0] =>
        destruct (add_statistics_keeps (check_success r0)) as (-> & _);
        destruct (check_success_spec r0 eq_refl) as [-> _]
    end.
    cbn [content set_content].
    change (py "ERROR: Invalid JSON file - " ++ exn_str e)
      with (py "ERROR:" ++ (py " Invalid JSON file - " ++ exn_str e)).
    rewrite startswith_app. cbn. rewrite andb_false_r. done.
Qed.

End ExtractionDispatch.

Lemma file_extension_from_last_dot_witness :
  dot ∈ py "archive.tar.gz"
  ∧ ∃ stem tail, py "archive.tar.gz" = stem ++ dot :: tail ∧ (dot ∉ tail)
                 ∧ _get_file_extension (py "archive.tar.gz") = dot :: tail.
Proof.
  assert (H : dot ∈ py "archive.tar.gz")
    by (apply (bool_decide_eq_true_1 _); vm_compute; reflexivity).
  split; [exact H|].
  destruct (file_extension_from_last_dot (py "archive.tar.gz")) as [_ Hlast].
  exact (Hlast H).
Defined.

Lemma pdf_extraction_success_is_library_support_witness :
  lower (_get_file_extension (py "scan.PDF")) = py ".pdf"
  ∧ extraction_success
      (extract_text_content (Demo.lib [] []) Demo.cfg [x25; x50] (py "scan.PDF"))
    = true.
Proof.
  assert (H : lower (_get_file_extension (py "scan.PDF")) = py ".pdf")
    by (vm_compute; reflexivity).
  split; [exact H|].
  destruct (pdf_extraction_success_is_library_support (Demo.lib [] []) Demo.cfg
              [x25; x50] (py "scan.PDF") H) as (Hflag & _ & _).
  exact Hflag.
Defined.

Lemma docx_reader_failure_counts_as_extracted_witness :
  lower (_get_file_extension (py "memo.docx")) = py ".docx"
  ∧ DOCX_SUPPORT Demo.cfg = true
  ∧ docx_paragraphs (Demo.lib [] []) [x50; x4b]
    = Raise (Exn ServiceError (py "File is not a zip file"))
  ∧ content (extract_text_content (Demo.lib [] []) Demo.cfg [x50; x4b] (py "memo.docx"))
    = py "Error processing Word document: File is not a zip file"
  ∧ extraction_success
      (extract_text_content (Demo.lib [] []) Demo.cfg [x50; x4b] (py "memo.docx"))
    = true.
Proof.
  assert (H : lower (_get_file_extension (py "memo.docx")) = py ".docx")
    by (vm_compute; reflexivity).
  do 3 (split; [done|]).
  destruct (docx_reader_failure_counts_as_extracted (Demo.lib [] []) Demo.cfg
              [x50; x4b] (py "memo.docx")
              (Exn ServiceError (py "File is not a zip file")) H eq_refl eq_refl)
    as (Hcontent & Hflag & _).
  split; [exact Hcontent | exact Hflag].
Defined.

Lemma notification_filter_agrees_with_dispatch_witness :
  existsb (fun e => endswith e (lower (py "Reports/Q3.Final.PDF"))) document_extensions
  = true
  ∧ extraction_method
      (extract_text_content (Demo.lib [] []) Demo.cfg [x25; x50]
         (py "Reports/Q3.Final.PDF"))
    ∉ [ py "generic_text"; py "generic_text_fallback" ].
Proof.
  assert (H : existsb (fun e => endswith e (lower (py "Reports/Q3.Final.PDF")))
                document_extensions = true) by (vm_compute; reflexivity).
  split; [exact H|].
  destruct (notification_filter_agrees_with_dispatch (Demo.lib [] []) Demo.cfg
              (py "Reports/Q3.Final.PDF") [x25; x50]) as [_ Hmethod].
  exact (Hmethod H).
Defined.

Lemma json_extraction_is_reserialised_witness :
  let v := PDict [ (py "a", PInt 1) ] in
  let lib := Demo.lib [v] [] in
  let file_bytes := [x7b; x22; x61; x22; x3a; x20; x31; x7d] in
  let r := extract_text_content lib Demo.cfg file_bytes (py "data.JSON") in
  lower (_get_file_extension (py "data.JSON")) = py ".json"
  ∧ extraction_success r = true
  ∧ ∃ text parsed,
      decode_utf8 lib file_bytes = inl text
      ∧ json_loads lib text = Return parsed
      ∧ content r = json_dumps_indent2 lib parsed
      ∧ extraction_method r = py "json_parse"
      ∧ dict_get (py "json_keys") (metadata r) = Some (json_keys_of parsed).
Proof.
  intros v lib file_bytes r.
  assert (Hext : lower (_get_file_extension (py "data.JSON")) = py ".json")
    by (vm_compute; reflexivity).
  assert (Hflag : extraction_success r = true) by (vm_compute; reflexivity).
  split; [exact Hext|]. split; [exact Hflag|].
  exact (json_extraction_is_reserialised lib Demo.cfg file_bytes (py "data.JSON")
           Hext Hflag).
Defined.

(** ** Storing a document and handing it on *)

Section IngestionStorage.

Context {Ext : Type} (svc : services Ext) (lib : pylib) (cfg : config).
Implicit Types (w : world Ext) (r : extraction_result) (sid bucket key : pystr).

(** X6.  When [store_document_data] reports success, the record under the
    session id has been replaced by one in stage [document_processed] whose
    document content is the first [MAX_CONTENT_SIZE] characters of the
    extracted content (all of it when it is not longer); the record says
    whether the content was cut and how long it was, names the object
    holding the full content exactly when it was cut, and carries no
    analysis, findings, report or error of an earlier run; nothing is
    invoked and nothing is written to object storage. *)
Theorem stored_record_of_document sid r bucket key w w' :
  store_document_data svc cfg sid r bucket key w = (Return true, w') →
  ∃ it,
    table w' = <[sid := it]> (table w)
    ∧ workflow_stage it = Some (py "document_processed")
    ∧ document_content it
      = Some (take (N.to_nat (MAX_CONTENT_SIZE cfg)) (content r))
    ∧ dict_get (py "content_truncated") (other_attrs it)
      = Some (PBool (MAX_CONTENT_SIZE cfg <? len (content r)))
    ∧ dict_get (py "full_content_length") (other_attrs it)
      = Some (PInt (Z.of_N (len (content r))))
    ∧ dict_get (py "full_content_s3_location") (other_attrs it)
      = (if MAX_CONTENT_SIZE cfg <? len (content r)
         then Some (PStr (py "s3://" ++ bucket ++ py "/" ++ key)) else None)
    ∧ (analysis_result it = None ∧ research_findings it = None
       ∧ final_report it = None ∧ error_message it = None)
    ∧ invoked w' = invoked w ∧ s3_written w' = s3_written w.
Proof.
  unfold store_document_data. unfold_monad. step_oracles.
  match goal with
  | |- context [put_item_fault svc ?x] =>
      destruct (put_item_fault svc x) as [[fault|] x']
  end; cbn [ext table invoked s3_written http_sent]; [discriminate|].
  intros [= <-]. cbn [ext table invoked s3_written http_sent].
  eexists. split; [reflexivity|].
  unfold document_item.
  cbn [workflow_stage document_content other_attrs analysis_result
       research_findings final_report error_message].
  split; [reflexivity|]. split.
  { destruct (MAX_CONTENT_SIZE cfg <? len (content r)) eqn:Hcut; [reflexivity|].
    apply N.ltb_ge in Hcut. unfold len in Hcut.
    rewrite take_ge by lia. reflexivity. }
  destruct (MAX_CONTENT_SIZE cfg <? len (content r));
    cbn [dict_get app]; decide_literals; done.
Qed.

(** X7.  [store_document_data] never raises; it invokes nothing and
    writes nothing to object storage, and when it reports failure the
    table is as it was. *)
Theorem store_document_data_never_raises sid r bucket key w :
  ∃ stored w',
    store_document_data svc cfg sid r bucket key w = (Return stored, w')
    ∧ invoked w' = invoked w ∧ s3_written w' = s3_written w
    ∧ (stored = false → table w' = table w).
Proof.
  unfold store_document_data. unfold_monad. step_oracles.
  match goal with
  | |- context [put_item_fault svc ?x] =>
      destruct (put_item_fault svc x) as [[fault|] x']
  end; cbn [ext table invoked s3_written http_sent];
    eexists _, _; (split; [reflexivity|]); done.
Qed.

(** X8.  The hand-off of the ingestion stage never raises and issues
    exactly one asynchronous invocation of the configured next function,
    carrying the session id.  When it reports success the table is as it
    was.  When it reports failure, either the record of the session is set
    to [error_document_processing] with the message [Failed to trigger
    analysis stage: ...] and its other attributes kept, or, the write of
    the error state having failed too, the table is as it was. *)
Theorem ingestion_trigger_next_stage_outcomes sid w :
  ∃ triggered w',
    Ingestion.trigger_next_stage svc lib cfg sid w = (Return triggered, w')
    ∧ (∃ stamp,
         invoked w'
         = invoked w
           ++ [ Invocation (NEXT_FUNCTION_NAME cfg) (py "Event")
                  (json_dumps lib
                     (PDict [ (py "session_id", PStr sid);
                              (py "trigger_source", PStr (py "document_ingestion"));
                              (py "timestamp", PStr stamp) ])) ])
    ∧ (triggered = true → table w' = table w)
    ∧ (triggered = false →
       table w' = table w
       ∨ ∃ e it',
           table w' = <[sid := it']> (table w)
           ∧ workflow_stage it' = Some (py "error_document_processing")
           ∧ error_message it'
             = Some (py "Failed to trigger analysis stage: " ++ exn_str e)
           ∧ document_content it' = table w !! sid ≫= document_content
           ∧ other_attrs it' = default [] (other_attrs <$> table w !! sid)).
Proof.
  unfold Ingestion.trigger_next_stage, invoke_async, _update_error_state, update_item.
  unfold_monad. step_oracles.
  match goal with
  | |- context [lambda_invoke svc ?i ?x] =>
      destruct (lambda_invoke svc i x) as [[status|e] x']
  end; cbn [ext table invoked s3_written http_sent].
  - eexists _, _. split; [reflexivity|]. world_simpl.
    split; [by eexists|]. done.
  - step_oracles.
    match goal with
    | |- context [update_item_fault svc ?x] =>
        destruct (update_item_fault svc x) as [[fault|] x'']
    end; world_simpl;
      (eexists _, _; split; [reflexivity|]; world_simpl;
       split; [by eexists|]; split; [done|]; intros _).
    + by left.
    + right. eexists e, _. split; [reflexivity|].
      destruct (table w !! sid) as [it|]; done.
Qed.

End IngestionStorage.

(** ** The ingestion handler *)

Section IngestionHandler.

Context {Ext : Type} (svc : services Ext) (lib : pylib) (cfg : config).
Implicit Types (w : world Ext) (record : event_record) (bucket key : pystr).

Lemma process_records_app before rest w :
  process_records svc lib cfg (before ++ rest) w
  = match process_records svc lib cfg before w with
    | (Return _, w1) => process_records svc lib cfg rest w1
    | (Raise e, w1) => (Raise e, w1)
    end.
Proof.
  revert w. induction before as [|record before IH]; intros w; [reflexivity|].
  cbn [app process_records]. unfold_monad.
  destruct (process_record svc lib cfg record w) as [[[]|e] w1]; [apply IH | reflexivity].
Qed.

(** X9.  The ingestion handler never raises: on every event of the
    model and every starting world it returns a result with a status code
    and a body.  For a notification and for a direct invocation the code
    is 200 or 500.  For a mapping with neither trigger it is 400 and the
    world is left as it is.  For an event that is not a mapping the world
    is left as it is and the code is 400 when the membership tests find
    neither ['Records'] nor both ['bucket'] and ['key'] in it (a list or a
    string without them), and 500 otherwise: when a membership test raises
    ([None], a boolean, a number) or finds the keys and the subscript that
    follows raises. *)
Theorem ingestion_handler_always_responds event w :
  ∃ code body w',
    Ingestion.lambda_handler svc lib cfg event w = (Return (response code body), w')
    ∧ match event with
      | RecordsEvent _ | DirectEvent _ _ => code = 200%Z ∨ code = 500%Z
      | OtherEvent => code = 400%Z ∧ w' = w
      | NonMappingEvent e =>
          code = (if lacks_trigger_keys (event_value e) then 400%Z else 500%Z)
          ∧ w' = w
      end.
Proof.
  unfold Ingestion.lambda_handler, ingestion_completed.
  destruct event as [records | bucket key | | e]; unfold_monad.
  - destruct (process_records svc lib cfg records w) as [[[]|e] w1];
      eexists _, _, _; (split; [reflexivity|]); auto.
  - destruct (get_object svc bucket key w) as [[file_bytes|e] w1];
      [|eexists _, _, _; (split; [reflexivity|]); auto].
    destruct (_generate_session_id svc lib key _ w1) as [[sid|e] w2];
      [|eexists _, _, _; (split; [reflexivity|]); auto].
    destruct (store_document_data svc cfg sid _ bucket key w2) as [[[|]|e] w3];
      [| |]; try (eexists _, _, _; (split; [reflexivity|]); auto).
    destruct (Ingestion.trigger_next_stage svc lib cfg sid w3) as [[triggered|e] w4];
      eexists _, _, _; (split; [reflexivity|]); auto.
  - eexists _, _, _. split; [reflexivity|]. done.
  - unfold lacks_trigger_keys.
    destruct e as [|b|z|r|s|l]; cbn [event_value py_contains py_getitem];
      try (eexists _, _, _; split; [reflexivity|]; done).
    + destruct (is_substring (py "Records") s);
        [eexists _, _, _; split; [reflexivity|]; done|].
      destruct (is_substring (py "bucket") s), (is_substring (py "key") s);
        eexists _, _, _; (split; [reflexivity|]); done.
    + destruct (existsb (is_str (py "Records")) l);
        [eexists _, _, _; split; [reflexivity|]; done|].
      destruct (existsb (is_str (py "bucket")) l), (existsb (is_str (py "key")) l);
        eexists _, _, _; (split; [reflexivity|]); done.
Qed.

(** X10.  An object that cannot be fetched is treated differently by the
    two trigger modes: a notification for it is skipped and the handler
    answers 200 "Document ingestion completed", a direct invocation for it
    answers 500 with the text of the error.  In both nothing is stored and
    nothing is invoked. *)
Theorem fetch_failure_by_trigger_mode bucket key e x w :
  s3_get_object svc bucket key (ext w) = (Raise e, x) →
  existsb (fun e => endswith e (lower key)) document_extensions = true →
  let after := World (table w) (invoked w) (s3_written w) (http_sent w) x in
  Ingestion.lambda_handler svc lib cfg
    (RecordsEvent [ EventRecord (Some (py "aws:s3")) (Some (S3Entity bucket key)) ]) w
  = (Return (ingestion_completed lib), after)
  ∧ Ingestion.lambda_handler svc lib cfg (DirectEvent bucket key) w
    = (Return (response 500 (error_body lib (exn_str e))), after).
Proof.
  intros Hget Hfilter after.
  unfold Ingestion.lambda_handler, process_records, process_record, get_object.
  cbn [eventSource s3 bucket_name object_key].
  rewrite decide_True by done. rewrite Hfilter. cbn [negb].
  unfold_monad. rewrite Hget. done.
Qed.

(** X11.  In the direct mode a failed write of the record is not
    reported: when the table refuses the write, the handler answers 200
    "Document ingestion completed", without a session id, and the table
    and the invocations are as they were. *)
Theorem direct_invocation_store_failure_is_silent bucket key file_bytes x data w :
  s3_get_object svc bucket key (ext w) = (Return file_bytes, x) →
  encode_utf8 lib (content (extract_text_content lib cfg file_bytes key)) = Return data →
  (∀ x, (put_item_fault svc x).1 ≠ None) →
  let run := Ingestion.lambda_handler svc lib cfg (DirectEvent bucket key) w in
  run.1 = Return (ingestion_completed lib)
  ∧ table run.2 = table w ∧ invoked run.2 = invoked w.
Proof.
  intros Hget Hdata Hput run. subst run.
  unfold Ingestion.lambda_handler, get_object, _generate_session_id, store_document_data.
  unfold_monad. rewrite Hget. cbv beta iota zeta.
  cbn [ext table invoked s3_written http_sent]. rewrite Hdata. step_oracles.
  match goal with
  | |- context [put_item_fault svc ?x] =>
      pose proof (Hput x) as Hx; destruct (put_item_fault svc x) as [[fault|] x']
  end; [|done].
  done.
Qed.

(** X12.  In a batch of notifications: a record that is not a storage
    notification, or whose key has none of the document extensions, is
    passed over without any call to a service; a record whose object
    cannot be fetched is passed over with the table, the invocations and
    the stored objects unchanged; and in each case the rest of the batch
    is processed. *)
Theorem batch_passes_over_and_continues record rest w :
  (eventSource record ≠ Some (py "aws:s3")
   ∨ (∃ loc, s3 record = Some loc
             ∧ existsb (fun e => endswith e (lower (object_key loc)))
                 document_extensions = false) →
   process_records svc lib cfg (record :: rest) w
   = process_records svc lib cfg rest w)
  ∧ (∀ loc e x,
       eventSource record = Some (py "aws:s3") → s3 record = Some loc →
       s3_get_object svc (bucket_name loc) (object_key loc) (ext w) = (Raise e, x) →
       ∃ w1, quiet w w1 ∧ http_sent w1 = http_sent w
             ∧ process_records svc lib cfg (record :: rest) w
               = process_records svc lib cfg rest w1).
Proof.
  split.
  - intros Hskip. cbn [process_records]. unfold process_record.
    case_decide as Hsource; [|reflexivity].
    destruct Hskip as [? | (loc & -> & ->)]; done.
  - intros loc e x Hsource Hloc Hget. cbn [process_records]. unfold process_record.
    rewrite decide_True by done. rewrite Hloc.
    destruct (negb _); [by exists w|].
    unfold get_object. unfold_monad. rewrite Hget.
    eexists. split; [|split; [|reflexivity]]; done.
Qed.

(** X13.  An exception while one record of a batch is processed ends the
    batch: the records after it are not processed, the handler answers 500
    with the text of the exception, and what the records before it did
    stays done. *)
Theorem exception_in_record_ends_batch before record rest e w w1 w2 :
  process_records svc lib cfg before w = (Return tt, w1) →
  process_record svc lib cfg record w1 = (Raise e, w2) →
  Ingestion.lambda_handler svc lib cfg (RecordsEvent (before ++ record :: rest)) w
  = (Return (response 500 (error_body lib (exn_str e))), w2).
Proof.
  intros Hbefore Hrecord. unfold Ingestion.lambda_handler. unfold_monad.
  rewrite process_records_app, Hbefore. cbn [process_records]. unfold_monad.
  by rewrite Hrecord.
Qed.

(** X14.  In the notification mode, an object that passes the filter, is
    fetched and is extracted successfully is stored under the session id
    generated from its key, its content and the clock, in stage
    [document_processed] or, when the hand-off failed, in the error state
    of the ingestion; and the next function is invoked exactly once. *)
Theorem notification_stores_and_hands_on record loc file_bytes x data w :
  eventSource record = Some (py "aws:s3") →
  s3 record = Some loc →
  existsb (fun e => endswith e (lower (object_key loc))) document_extensions = true →
  s3_get_object svc (bucket_name loc) (object_key loc) (ext w) = (Return file_bytes, x) →
  let r := extract_text_content lib cfg file_bytes (object_key loc) in
  extraction_success r = true →
  encode_utf8 lib (content r) = Return data →
  (∀ x, (put_item_fault svc x).1 = None) →
  let run := process_record svc lib cfg record w in
  let sid := before_first dot (object_key loc) ++ py "_"
             ++ take 8 (md5_hexdigest lib data) ++ py "_"
             ++ last_chars 6 (str_of_N (time_time svc x).1) in
  run.1 = Return tt
  ∧ (∃ it, table run.2 !! sid = Some it
           ∧ dict_get (py "s3_key") (other_attrs it) = Some (PStr (object_key loc))
           ∧ (workflow_stage it = Some (py "document_processed")
              ∨ workflow_stage it = Some (py "error_document_processing")))
  ∧ function_name <$> invoked run.2
    = (function_name <$> invoked w) ++ [NEXT_FUNCTION_NAME cfg].
Proof.
  intros Hsource Hloc Hfilter Hget r Hflag Hdata Hput run sid. subst run.
  unfold process_record. rewrite decide_True by done. rewrite Hloc, Hfilter.
  cbn [negb]. unfold get_object. unfold_monad. rewrite Hget.
  cbv beta iota zeta. fold r. rewrite Hflag. cbn [negb].
  match goal with
  | |- context [_generate_session_id svc lib ?k ?c ?w0] =>
      pose proof (generate_session_id_run svc lib k c data w0 Hdata) as Hsid;
      destruct (_generate_session_id svc lib k c w0) as [[sid'|e] w1] eqn:Hgen;
      cbn [fst] in Hsid; [|discriminate];
      assert (Hkeep : table w1 = table w ∧ invoked w1 = invoked w)
  end.
  { revert Hgen. unfold _generate_session_id. unfold_monad. rewrite Hdata.
    step_oracles. by intros [= _ <-]. }
  injection Hsid as ->. cbn [ext] in *. fold sid.
  destruct Hkeep as [Htable0 Hinvoked0].
  unfold store_document_data. unfold_monad. step_oracles.
  match goal with
  | |- context [put_item_fault svc ?x] =>
      pose proof (Hput x) as Hx; destruct (put_item_fault svc x) as [fault x']
  end.
  cbn in Hx. subst fault. cbn [ext table invoked s3_written http_sent].
  unfold Ingestion.trigger_next_stage, invoke_async, _update_error_state, update_item.
  unfold_monad. step_oracles.
  match goal with
  | |- context [lambda_invoke svc ?i ?x] =>
      destruct (lambda_invoke svc i x) as [[status|e] x'']
  end; cbn [ext table invoked s3_written http_sent].
  - split; [reflexivity|]. cbn [fst snd table invoked]. split.
    + eexists. rewrite lookup_insert_eq. split; [reflexivity|].
      split; [|by left]. unfold document_item. cbn [other_attrs].
      destruct (MAX_CONTENT_SIZE cfg <? _); cbn [dict_get app]; decide_literals; done.
    + by rewrite fmap_app, Hinvoked0.
  - step_oracles.
    match goal with
    | |- context [update_item_fault svc ?x] =>
        destruct (update_item_fault svc x) as [[fault|] ?]
    end; world_simpl.
    + split; [reflexivity|]. cbn [fst snd table invoked]. split.
      * eexists. rewrite lookup_insert_eq. split; [reflexivity|].
        split; [|by left]. unfold document_item. cbn [other_attrs].
        destruct (MAX_CONTENT_SIZE cfg <? _); cbn [dict_get app]; decide_literals; done.
      * by rewrite fmap_app, Hinvoked0.
    + split; [reflexivity|]. cbn [fst snd table invoked]. split.
      * eexists. rewrite !lookup_insert_eq. cbn [default id]. split; [reflexivity|].
        split; [|by right]. unfold document_item. cbn [other_attrs].
        destruct (MAX_CONTENT_SIZE cfg <? _); cbn [dict_get app]; decide_literals; done.
      * by rewrite fmap_app, Hinvoked0.
Qed.

End IngestionHandler.

Lemma stored_record_of_document_witness :
  let svc := Demo.services_with (Return []) (fun _ => Return [])
               Demo.unreachable Demo.unreachable Demo.accepted Demo.now in
  let r := extract_text_content (Samples.sample_lib []) Samples.small_cfg
             Samples.sample_bytes (py "q3-report.txt") in
  let sid := py "q3-report_82719c71_000000" in
  let run := store_document_data svc Samples.small_cfg sid r (py "uploads")
               (py "q3-report.txt") Demo.empty_world in
  run.1 = Return true
  ∧ ∃ it, table run.2 !! sid = Some it
          ∧ document_content it = Some (py "Our Q3 rev")
          ∧ dict_get (py "full_content_s3_location") (other_attrs it)
            = Some (PStr (py "s3://uploads/q3-report.txt")).
Proof.
  intros svc r sid run.
  assert (Hrun : run = (Return true, run.2)) by (vm_compute; reflexivity).
  split; [by rewrite Hrun|].
  destruct (stored_record_of_document svc Samples.small_cfg sid r (py "uploads")
              (py "q3-report.txt") Demo.empty_world run.2 Hrun)
    as (it & Htable & _ & Hdoc & _ & _ & Hlocation & _).
  exists it. rewrite Htable, lookup_insert_eq. split; [reflexivity|].
  split; [exact Hdoc | exact Hlocation].
Defined.

Lemma fetch_failure_by_trigger_mode_witness :
  let missing := Exn ServiceError (py "NoSuchKey") in
  let svc := Demo.services_with (Raise missing) (fun _ => Return [])
               Demo.unreachable Demo.unreachable Demo.accepted Demo.now in
  let lib := Demo.lib [] [] in
  Ingestion.lambda_handler svc lib Demo.cfg
    (RecordsEvent [ EventRecord (Some (py "aws:s3"))
                      (Some (S3Entity (py "uploads") (py "q3.pdf"))) ])
    Demo.empty_world
  = (Return (ingestion_completed lib), Demo.empty_world)
  ∧ Ingestion.lambda_handler svc lib Demo.cfg (DirectEvent (py "uploads") (py "q3.pdf"))
      Demo.empty_world
    = (Return (response 500 (error_body lib (py "NoSuchKey"))), Demo.empty_world).
Proof.
  intros missing svc lib.
  exact (fetch_failure_by_trigger_mode svc lib Demo.cfg (py "uploads") (py "q3.pdf")
           missing tt Demo.empty_world eq_refl eq_refl).
Defined.

Lemma direct_invocation_store_failure_is_silent_witness :
  let svc := Samples.put_refused
               (Demo.services_with (Return Samples.sample_bytes) (fun _ => Return [])
                  Demo.unreachable Demo.unreachable Demo.accepted Demo.now) in
  let lib := Samples.sample_lib [] in
  let run := Ingestion.lambda_handler svc lib Demo.cfg
               (DirectEvent (py "uploads") (py "q3-report.txt")) Demo.empty_world in
  (∀ x, (put_item_fault svc x).1 ≠ None)
  ∧ run.1 = Return (ingestion_completed lib)
  ∧ table run.2 = ∅ ∧ invoked run.2 = [].
Proof.
  intros svc lib run.
  assert (Hput : ∀ x, (put_item_fault svc x).1 ≠ None) by (intros x; discriminate).
  split; [exact Hput|].
  exact (direct_invocation_store_failure_is_silent svc lib Demo.cfg (py "uploads")
           (py "q3-report.txt") Samples.sample_bytes tt
           (default x00 ∘ Byte.of_N <$> py "Our Q3 revenue grew 12%.")
           Demo.empty_world eq_refl eq_refl Hput).
Defined.

Lemma batch_passes_over_and_continues_witness :
  let svc := Demo.services_with (Return Samples.sample_bytes) (fun _ => Return [])
               Demo.unreachable Demo.unreachable Demo.accepted Demo.now in
  let lib := Samples.sample_lib [] in
  let topic := EventRecord (Some (py "aws:sns")) None in
  let upload := EventRecord (Some (py "aws:s3"))
                  (Some (S3Entity (py "uploads") (py "q3-report.txt"))) in
  eventSource topic ≠ Some (py "aws:s3")
  ∧ process_records svc lib Demo.cfg [topic; upload] Demo.empty_world
    = process_records svc lib Demo.cfg [upload] Demo.empty_world.
Proof.
  intros svc lib topic upload.
  assert (H : eventSource topic ≠ Some (py "aws:s3"))
    by (intros E; vm_compute in E; discriminate).
  split; [exact H|].
  destruct (batch_passes_over_and_continues svc lib Demo.cfg topic [upload]
              Demo.empty_world) as [Hskip _].
  apply Hskip. by left.
Defined.

Lemma exception_in_record_ends_batch_witness :
  let svc := Demo.services_with (Return Samples.sample_bytes) (fun _ => Return [])
               Demo.unreachable Demo.unreachable Demo.accepted Demo.now in
  let lib := Samples.sample_lib [] in
  let malformed := EventRecord (Some (py "aws:s3")) None in
  let upload := EventRecord (Some (py "aws:s3"))
                  (Some (S3Entity (py "uploads") (py "q3-report.txt"))) in
  process_record svc lib Demo.cfg malformed Demo.empty_world
  = (Raise (key_error "s3"), Demo.empty_world)
  ∧ Ingestion.lambda_handler svc lib Demo.cfg (RecordsEvent [malformed; upload])
      Demo.empty_world
    = (Return (response 500 (error_body lib (py "'s3'"))), Demo.empty_world).
Proof.
  intros svc lib malformed upload.
  assert (H : process_record svc lib Demo.cfg malformed Demo.empty_world
              = (Raise (key_error "s3"), Demo.empty_world)) by reflexivity.
  split; [exact H|].
  exact (exception_in_record_ends_batch svc lib Demo.cfg [] malformed [upload]
           (key_error "s3") Demo.empty_world Demo.empty_world Demo.empty_world
           eq_refl H).
Defined.

Lemma notification_stores_and_hands_on_witness :
  let svc := Demo.services_with (Return Samples.sample_bytes) (fun _ => Return [])
               Demo.unreachable Demo.unreachable Demo.accepted Demo.now in
  let lib := Samples.sample_lib [] in
  let upload := EventRecord (Some (py "aws:s3"))
                  (Some (S3Entity (py "uploads") (py "q3-report.txt"))) in
  let run := process_record svc lib Demo.cfg upload Demo.empty_world in
  extraction_success
    (extract_text_content lib Demo.cfg Samples.sample_bytes (py "q3-report.txt")) = true
  ∧ run.1 = Return tt
  ∧ (∃ it, table run.2 !! py "q3-report_82719c71_000000" = Some it
           ∧ dict_get (py "s3_key") (other_attrs it) = Some (PStr (py "q3-report.txt")))
  ∧ function_name <$> invoked run.2 = [py "analysis-agent"].
Proof.
  intros svc lib upload run.
  assert (Hflag : extraction_success
                    (extract_text_content lib Demo.cfg Samples.sample_bytes
                       (py "q3-report.txt")) = true) by (vm_compute; reflexivity).
  split; [exact Hflag|].
  destruct (notification_stores_and_hands_on svc lib Demo.cfg upload
              (S3Entity (py "uploads") (py "q3-report.txt")) Samples.sample_bytes tt
              (default x00 ∘ Byte.of_N <$> py "Our Q3 revenue grew 12%.")
              Demo.empty_world eq_refl eq_refl eq_refl eq_refl Hflag eq_refl
              (fun _ => eq_refl))
    as (Hrun & (it & Hit & Hkey & _) & Hinvoked).
  split; [exact Hrun|]. split; [|exact Hinvoked].
  exists it. split; [|exact Hkey].
  rewrite <- Hit. f_equal.
Defined.

(** ** Runs of the Analysis Stage *)

Section AnalysisRuns.

Context {Ext : Type} (svc : services Ext) (lib : pylib).
Implicit Types (w : world Ext) (event : stage_event) (sid doc : pystr) (it : item).

(** The handler up to the answer of the model, for a record with a
    document. *)
Lemma analysis_handler_reaches_model event w sid it doc :
  event_session_id event = Some sid → sid ≠ [] →
  table w !! sid = Some it →
  document_content it = Some doc → doc ≠ [] →
  Analysis.lambda_handler svc lib event w
  = (outcome ← try_except
       (response_text ← Analysis.invoke_bedrock_model svc lib (analysis_prompt doc);
        parsed ← lift_result (py_json_loads lib response_text);
        mret (inl parsed))
       (fun e =>
          update_workflow_error svc sid (py "Bedrock analysis failed: " ++ exn_str e);;
          mret (inr (response 500 (error_body lib (exn_str e)))));
     match outcome with
     | inr failed => mret failed
     | inl parsed =>
         topics ← lift_result (py_get parsed "topics" (PList []));
         now ← ask (time_time svc);
         update_item sid [parsed; topics] (fun it =>
           Item (Some (py "analysis_complete")) (document_content it)
             (Some parsed) (Some topics) (research_findings it)
             (final_report it) (error_message it)
             (Some (PInt (Z.of_N now))) (other_attrs it));;
         try_except
           (_ ← invoke_async svc lib (py "research-agent")
                  (PDict [ (py "session_id", PStr sid) ]);
            mret tt)
           (fun e =>
              update_workflow_error svc sid
                (py "Failed to trigger research stage: " ++ exn_str e));;
         mret (response 200
                 (json_dumps lib
                    (PDict [ (py "message", PStr (py "Analysis complete"));
                             (py "session_id", PStr sid) ])))
     end) w.
Proof.
  intros Hsid Hne Hit Hdoc Hdocne. unfold Analysis.lambda_handler. rewrite Hsid.
  destruct sid as [|c sid]; [done|].
  unfold mbind at 1, M_bind at 1, get_table. rewrite Hit, Hdoc. cbn [default id].
  destruct doc; done.
Qed.




(** X18.  When the model answers with JSON that is not an object (a
    list, a string, a number, [null]), the Analysis Stage raises the
    [AttributeError] of the [get] it calls on the parsed value; the failure
    is not recorded: the table and the invocations are as they were. *)
Theorem analysis_non_object_answer_raises event w sid it doc response_text parsed w1 :
  event_session_id event = Some sid → sid ≠ [] →
  table w !! sid = Some it →
  document_content it = Some doc → doc ≠ [] →
  Analysis.invoke_bedrock_model svc lib (analysis_prompt doc) w
  = (Return response_text, w1) →
  py_json_loads lib response_text = Return parsed →
  (∀ d, parsed ≠ PDict d) →
  let run := Analysis.lambda_handler svc lib event w in
  run.1 = Raise (Exn AttributeError
                   (py "'" ++ py (type_name parsed)
                    ++ py "' object has no attribute 'get'"))
  ∧ table run.2 = table w ∧ invoked run.2 = invoked w.
Proof.
  intros Hsid Hne Hit Hdoc Hdocne Hmodel Hparsed Hshape run. subst run.
  rewrite (analysis_handler_reaches_model event w sid it doc) by done.
  pose proof (quiet_analysis_invoke_bedrock_model svc lib (analysis_prompt doc) w) as Hq.
  rewrite Hmodel in Hq. destruct Hq as (Htable & Hinvoked & _). cbn [snd] in *.
  unfold_monad. rewrite Hmodel. cbv beta iota. rewrite Hparsed.
  destruct parsed; try done. by destruct (Hshape d).
Qed.

End AnalysisRuns.




Lemma analysis_non_object_answer_raises_witness :
  let sid := py "q3-report_82719c71_000000" in
  let doc := py "Our Q3 revenue grew 12%." in
  let it := Item (Some (py "document_processed")) (Some doc) None None None None
              None None [] in
  let w := World {[ sid := it ]} [] [] [] tt in
  let answer := PList [ PStr (py "Q3 revenue") ] in
  let svc := Demo.services_with (Return []) (Demo.bedrock_says answer)
               Demo.unreachable Demo.unreachable Demo.accepted Demo.now in
  let lib := Demo.lib [ Demo.model_body answer; answer ] [] in
  let run := Analysis.lambda_handler svc lib (StageEvent (Some sid)) w in
  run.1 = Raise (Exn AttributeError (py "'list' object has no attribute 'get'"))
  ∧ stage_of run.2 sid = Some (py "document_processed").
Proof.
  intros sid doc it w answer svc lib run.
  assert (Hmodel : Analysis.invoke_bedrock_model svc lib (analysis_prompt doc) w
                   = (Return (PStr (Demo.dumps None 0 answer)), w))
    by (vm_compute; reflexivity).
  destruct (analysis_non_object_answer_raises svc lib (StageEvent (Some sid)) w sid it
              doc _ answer w
              eq_refl ltac:(discriminate) eq_refl eq_refl ltac:(discriminate)
              Hmodel eq_refl ltac:(discriminate))
    as (Hrun & Htable & _).
  fold run in Hrun, Htable. unfold stage_of. rewrite Hrun, Htable. split; reflexivity.
Defined.

(** ** Searching and validating in the Research Stage *)

Section ResearchSearch.

Context {Ext : Type} (svc : services Ext) (lib : pylib) (cfg : config).
Implicit Types (w : world Ext) (query question : pystr).

Lemma search_result_entry entry r :
  search_result entry = Return r → result_entry r.
Proof.
  destruct entry; try discriminate. intros [= <-]. by eexists.
Qed.

Lemma search_results_entries entries rs :
  search_results entries = Return rs → Forall result_entry rs.
Proof.
  revert rs. induction entries as [|entry entries IH]; intros rs; cbn [search_results].
  - by intros [= <-].
  - destruct (search_result entry) as [r|e] eqn:Hentry; [|discriminate].
    destruct (search_results entries) as [rs'|e]; [|discriminate].
    intros [= <-]. constructor; [by eapply search_result_entry | by apply IH].
Qed.

(** X19.  Whatever JSON the search service answers with, when the
    formatting of the answer succeeds every entry of the result list is a
    mapping with exactly the keys title, url, content, score and
    published_date, in this order; and when the answer carries a non-empty
    [answer], the summary built from it comes first. *)
Theorem search_results_have_five_keys data results :
  format_results data = Return results →
  Forall result_entry results
  ∧ ∀ answer, py_get data "answer" (PStr []) = Return answer →
      truthy answer = true → head results = Some (tavily_summary answer).
Proof.
  unfold format_results.
  destruct (py_contains "results" data) as [has_results|e]; [|discriminate].
  set (listed := if has_results then _ else _).
  assert (Hlisted : ∀ rs, listed = Return rs → Forall result_entry rs).
  { subst listed. destruct has_results; [|by intros rs [= <-]].
    destruct (py_getitem data "results") as [entries|e]; [|discriminate].
    destruct (py_iter entries) as [es|e]; [|discriminate].
    apply search_results_entries. }
  destruct listed as [rs|e]; [|discriminate].
  destruct (py_get data "answer" (PStr [])) as [tavily_answer|e]; [|discriminate].
  intros [= <-]. split.
  - destruct (truthy tavily_answer); [|by apply Hlisted].
    constructor; [by eexists | by apply Hlisted].
  - intros answer [= <-] ->. reflexivity.
Qed.

(** The key lookup never raises and changes nothing but the outside. *)
Lemma get_tavily_api_key_unavailable w :
  key_unavailable svc cfg →
  ∃ x, get_tavily_api_key svc cfg w
       = (Return [], World (table w) (invoked w) (s3_written w) (http_sent w) x).
Proof.
  intros [Henv Hssm]. unfold get_tavily_api_key.
  assert (Hfallback : ∃ x,
            try_except (call (ssm_get_parameter svc (py "/lambda/tavily/api-key")))
              (fun _ => mret []) w
            = (Return [], World (table w) (invoked w) (s3_written w) (http_sent w) x)).
  { unfold_monad. specialize (Hssm (ext w)).
    destruct (ssm_get_parameter svc _ (ext w)) as [[[|c k]|e] x]; cbn in Hssm;
      try done; by eexists. }
  by destruct Henv as [-> | ->].
Qed.

Lemma perform_tavily_search_unavailable query w :
  key_unavailable svc cfg →
  ∃ x, perform_tavily_search svc cfg query w
       = (Raise (Exn ValueError (py "Tavily API key not found")),
          World (table w) (invoked w) (s3_written w) (http_sent w) x).
Proof.
  intros Hkey. unfold perform_tavily_search.
  destruct (get_tavily_api_key_unavailable w Hkey) as [x Hx].
  unfold mbind, M_bind. rewrite Hx. cbn [nonempty negb]. by exists x.
Qed.

(** X20.  A search sends at most one request.  The request, when one is
    sent, is a POST to the search endpoint with a timeout of 30 seconds
    whose body carries the query and a non-empty key; and when no key can
    be had, the search raises [ValueError] "Tavily API key not found"
    without sending anything. *)
Theorem search_sends_at_most_one_request query w :
  let run := perform_tavily_search svc cfg query w in
  (http_sent run.2 = http_sent w
   ∨ ∃ r api_key,
       http_sent run.2 = http_sent w ++ [r]
       ∧ method r = POST ∧ url r = py "https://api.tavily.com/search"
       ∧ timeout r = Some 30
       ∧ api_key ≠ []
       ∧ json_body r ≫= (fun body => match py_get body "api_key" PNone with
                                    | Return v => Some v | Raise _ => None end)
         = Some (PStr api_key)
       ∧ json_body r ≫= (fun body => match py_get body "query" PNone with
                                    | Return v => Some v | Raise _ => None end)
         = Some (PStr query))
  ∧ (key_unavailable svc cfg →
     run.1 = Raise (Exn ValueError (py "Tavily API key not found"))
     ∧ http_sent run.2 = http_sent w).
Proof.
  intros run. split.
  - subst run. unfold perform_tavily_search.
    assert (Hkey : http_sent (get_tavily_api_key svc cfg w).2 = http_sent w).
    { unfold get_tavily_api_key.
      destruct (TAVILY_API_KEY cfg) as [[|c k]|]; try reflexivity;
        unfold_monad; by destruct (ssm_get_parameter svc _ (ext w)) as [[?|?] ?]. }
    unfold mbind, M_bind.
    destruct (get_tavily_api_key svc cfg w) as [[api_key|e] w1]; cbn [snd] in Hkey;
      [|by left].
    destruct api_key as [|c k]; cbn [nonempty negb]; [by left|].
    right. eexists _, (c :: k). split.
    { unfold do_post. unfold_monad.
      repeat match goal with
        | |- context [requests_post svc ?r ?x] =>
            destruct (requests_post svc r x) as [[?|?] ?]; world_simpl
        | |- context [raise_for_status ?r] =>
            destruct (raise_for_status r) as [[]|?]; world_simpl
        | |- context [response_json ?r] => destruct (response_json r); world_simpl
        | |- context [format_results ?d] => destruct (format_results d); world_simpl
        | |- context [is_RequestException ?e] =>
            destruct (is_RequestException e); world_simpl
        | |- context [is_JSONDecodeError ?e] =>
            destruct (is_JSONDecodeError e); world_simpl
        end;
        by rewrite Hkey. }
    do 4 (split; [done|]). split; reflexivity.
  - intros Hkey. subst run.
    destruct (perform_tavily_search_unavailable query w Hkey) as [x ->]. done.
Qed.

(** X21.  The model call of the Research Stage raises nothing but a plain
    [Exception] whose text starts with [Bedrock model invocation failed: ];
    and an answer of the model that is not JSON is not an error: the call
    returns the finding "Error parsing model response" with reliability
    Low. *)
Theorem research_model_failures_are_wrapped prompt model_id w :
  match (Research.invoke_bedrock_model svc lib prompt model_id w).1 with
  | Return _ => True
  | Raise e =>
      exn_kind e = PlainException
      ∧ ∃ cause, exn_str e = py "Bedrock model invocation failed: " ++ cause
  end
  ∧ (∀ raw x text e,
       bedrock_invoke_model svc model_id (research_request lib prompt) (ext w)
       = (Return raw, x) →
       first_content_text lib raw = Return text →
       py_json_loads lib text = Raise e →
       is_JSONDecodeError e = true →
       (Research.invoke_bedrock_model svc lib prompt model_id w).1
       = Return (finding (py "Error parsing model response"))).
Proof.
  unfold Research.invoke_bedrock_model, research_request. unfold_monad. split.
  - destruct (bedrock_invoke_model svc model_id _ (ext w)) as [[raw|e] x]; world_simpl.
    + destruct (first_content_text lib raw) as [text|e]; world_simpl.
      * destruct (py_json_loads lib text) as [v|e]; world_simpl; [done|].
        destruct (is_JSONDecodeError e); cbn; [done | eauto].
      * destruct (is_JSONDecodeError e); cbn; [done | eauto].
    + destruct (is_JSONDecodeError e); cbn; [done | eauto].
  - intros raw x text e -> Htext Hparsed Hjson. world_simpl.
    rewrite Htext. world_simpl. rewrite Hparsed. world_simpl. by rewrite Hjson.
Qed.

End ResearchSearch.

(** ** Runs of the Research Stage *)

Section ResearchRuns.

Context {Ext : Type} (svc : services Ext) (lib : pylib) (cfg : config).
Context (research_untyped : pystr → list pyval → lambda_context → M Ext pyval).
Implicit Types (w : world Ext) (event : stage_event) (sid question : pystr).






End ResearchRuns.

Lemma search_results_have_five_keys_witness :
  let data := PDict [ (py "results",
                       PList [ PDict [ (py "url", PStr (py "https://example.com/q3"));
                                       (py "title", PStr (py "Q3 results"));
                                       (py "raw_content", PNone) ] ]);
                      (py "answer", PStr (py "It grew.")) ] in
  let results :=
    [ tavily_summary (PStr (py "It grew."));
      PDict [ (py "title", PStr (py "Q3 results"));
              (py "url", PStr (py "https://example.com/q3"));
              (py "content", PStr []);
              (py "score", PInt 0);
              (py "published_date", PStr []) ] ] in
  format_results data = Return results ∧ Forall result_entry results.
Proof.
  intros data results.
  assert (H : format_results data = Return results) by (vm_compute; reflexivity).
  split; [exact H|].
  destruct (search_results_have_five_keys data results H) as [Hentries _].
  exact Hentries.
Defined.

Lemma search_sends_at_most_one_request_witness :
  let svc := Demo.services_with (Return []) (fun _ => Return [])
               Demo.unreachable Demo.unreachable Demo.accepted Demo.now in
  let run := perform_tavily_search svc Samples.no_key_cfg (py "What drove the growth?")
               Demo.empty_world in
  key_unavailable svc Samples.no_key_cfg
  ∧ run.1 = Raise (Exn ValueError (py "Tavily API key not found"))
  ∧ http_sent run.2 = [].
Proof.
  intros svc run.
  assert (Hkey : key_unavailable svc Samples.no_key_cfg)
    by (split; [by left | by intros x]).
  split; [exact Hkey|].
  destruct (search_sends_at_most_one_request svc Samples.no_key_cfg
              (py "What drove the growth?") Demo.empty_world) as [_ Hnone].
  exact (Hnone Hkey).
Defined.

Lemma research_model_failures_are_wrapped_witness :
  let text := py "Sorry, I cannot answer in JSON." in
  let svc := Demo.services_with (Return []) (Demo.bedrock_text text)
               Demo.unreachable Demo.unreachable Demo.accepted Demo.now in
  let lib := Demo.lib [ Demo.text_body text ] [] in
  is_JSONDecodeError
    (Exn JSONDecodeError (py "Expecting value: line 1 column 1 (char 0)")) = true
  ∧ (Research.invoke_bedrock_model svc lib (py "Summarize.") sonnet Demo.empty_world).1
    = Return (finding (py "Error parsing model response")).
Proof.
  intros text svc lib. split; [reflexivity|].
  destruct (research_model_failures_are_wrapped svc lib (py "Summarize.") sonnet
              Demo.empty_world) as [_ Hfallback].
  apply (Hfallback (Demo.dumps None 0 (Demo.text_body text)) tt (PStr text)
           (Exn JSONDecodeError (py "Expecting value: line 1 column 1 (char 0)")));
    reflexivity.
Defined.



(** ** Runs of the Report Generation Stage *)

Section ReportRuns.

Context {Ext : Type} (svc : services Ext) (lib : pylib).
Implicit Types (w : world Ext) (event : stage_event) (sid : pystr) (it : item).

Lemma bind_lift_return {A B} (a : A) (f : A → M Ext B) w :
  (lift_result (Return a) ≫= f) w = f a w.
Proof. reflexivity. Qed.

(** The prompt the stage builds from a record. *)
Lemma report_handler_reaches_model event w sid it :
  event_session_id event = Some sid →
  table w !! sid = Some it →
  Report.lambda_handler svc lib event w
  = (_ ← lift_result (dumps_stored (json_dumps_indent2 lib)
                        (default (PDict []) (analysis_result it)));
     _ ← lift_result (dumps_stored (json_dumps_indent2 lib)
                        (PDict (default [] (research_findings it))));
     report_text ← Report.invoke_bedrock_model svc lib
                     (report_prompt lib (default [] (document_content it))
                        (default (PDict []) (analysis_result it))
                        (PDict (default [] (research_findings it)))) haiku;
     key_time ← ask (time_time svc);
     let report_key :=
       py "reports/" ++ sid ++ py "_report_" ++ str_of_N key_time ++ py ".txt" in
     '(text, body) ← lift_result (py_encode lib report_text);
     log_s3_put (S3Object report_bucket report_key body (py "text/plain"));;
     now ← ask (time_time svc);
     update_item sid [] (fun it =>
       Item (Some (py "report_generated")) (document_content it)
         (analysis_result it) (extracted_topics it) (research_findings it)
         (Some text) (error_message it) (Some (PInt (Z.of_N now)))
         (other_attrs it));;
     mret (response 200
             (json_dumps lib
                (PDict [ (py "message", PStr (py "Report generated successfully"));
                         (py "session_id", PStr sid);
                         (py "report_s3_url",
                          PStr (py "s3://" ++ report_bucket ++ py "/" ++ report_key)) ])))) w.
Proof.
  intros Hsid Hit. unfold Report.lambda_handler. rewrite Hsid.
  unfold mbind at 1, M_bind at 1, get_table. by rewrite Hit.
Qed.


(** X25.  The Report Generation Stage has no handler of its own.  When
    the record's analysis or findings hold a number, which the table hands
    back as a [Decimal], the stage raises the [TypeError] of [json.dumps]
    while it builds the prompt, before the model is called, and the world
    is as it was.  Otherwise: when the call of the model raises, the stage
    raises the same exception; when the model's answer is not a text, it
    raises the [AttributeError] of the [encode] it calls on it; when the
    text cannot be encoded, it raises the error of the encoding.  In each
    case nothing has been written: the table, the stored objects and the
    invocations are as they were, and the record stays in the stage it was
    in. *)
Theorem report_failure_before_upload event w sid it :
  event_session_id event = Some sid →
  table w !! sid = Some it →
  let analysis := default (PDict []) (analysis_result it) in
  let findings := PDict (default [] (research_findings it)) in
  let prompt := report_prompt lib (default [] (document_content it)) analysis findings in
  let run := Report.lambda_handler svc lib event w in
  if has_number analysis || has_number findings
  then run = (Raise (Exn TypeError
                       (py "Object of type Decimal is not JSON serializable")), w)
  else
    quiet w (Report.invoke_bedrock_model svc lib prompt haiku w).2
    ∧ match (Report.invoke_bedrock_model svc lib prompt haiku w).1 with
      | Raise e => run.1 = Raise e ∧ quiet w run.2
      | Return (PStr text) =>
          ∀ e, encode_utf8 lib text = Raise e → run.1 = Raise e ∧ quiet w run.2
      | Return v =>
          run.1 = Raise (Exn AttributeError
                           (py "'" ++ py (type_name v)
                            ++ py "' object has no attribute 'encode'"))
          ∧ quiet w run.2
      end.
Proof.
  intros Hsid Hit analysis findings prompt run. subst run.
  rewrite (report_handler_reaches_model event w sid it) by done.
  fold analysis findings prompt. unfold dumps_stored.
  destruct (has_number analysis); cbn [orb]; [by destruct w|].
  destruct (has_number findings); [by destruct w|].
  rewrite bind_lift_return. cbv beta. rewrite bind_lift_return. cbv beta.
  pose proof (quiet_report_invoke_bedrock_model svc lib prompt haiku w) as Hq.
  split; [exact Hq|].
  destruct (Report.invoke_bedrock_model svc lib prompt haiku w) as [[v|e] w1] eqn:Hrun;
    unfold mbind, M_bind; rewrite Hrun; cbn [fst snd] in *; [|by split].
  assert (Hstep : ∀ w2, quiet w1 w2 → quiet w w2) by (intros w2 ?; by etrans).
  unfold py_encode.
  destruct v; unfold_monad; step_oracles;
    try (split; [reflexivity | apply Hstep; by repeat split]).
  intros e ->. split; [reflexivity | apply Hstep; by repeat split].
Qed.

End ReportRuns.


Lemma report_failure_before_upload_witness :
  let sid := py "q3-report_82719c71_000000" in
  let it := Item (Some (py "research_complete")) (Some (py "Our Q3 revenue grew 12%."))
              (Some Demo.analysis_value) (Some (PList [])) (Some []) None None None [] in
  let w := World {[ sid := it ]} [] [] [] tt in
  let svc := Demo.services_with (Return []) Samples.model_down
               Demo.unreachable Demo.unreachable Demo.accepted Demo.now in
  let run := Report.lambda_handler svc (Demo.lib [] []) (StageEvent (Some sid)) w in
  run.1 = Raise (Exn ServiceError (py "ModelTimeoutException"))
  ∧ quiet w run.2
  ∧ stage_of run.2 sid = Some (py "research_complete").
Proof.
  intros sid it w svc run.
  pose proof (report_failure_before_upload svc (Demo.lib [] []) (StageEvent (Some sid))
                w sid it eq_refl eq_refl) as Hfail.
  cbv zeta in Hfail.
  change (has_number (default (PDict []) (analysis_result it))
          || has_number (PDict (default [] (research_findings it)))) with false in Hfail.
  destruct Hfail as [_ Hfail].
  assert (Hmodel : (Report.invoke_bedrock_model svc (Demo.lib [] [])
                      (report_prompt (Demo.lib [] []) (default [] (document_content it))
                         (default (PDict []) (analysis_result it))
                         (PDict (default [] (research_findings it)))) haiku w).1
                   = Raise (Exn ServiceError (py "ModelTimeoutException")))
    by (vm_compute; reflexivity).
  cbv zeta in Hfail. rewrite Hmodel in Hfail. destruct Hfail as [Hrun Hquiet].
  fold run in Hrun, Hquiet. split; [exact Hrun|]. split; [exact Hquiet|].
  unfold stage_of. destruct Hquiet as (-> & _). reflexivity.
Defined.

(** ** The requests of the crawl tool *)

Section CrawlRequests.

Context {Ext : Type} (svc : services Ext) (lib : pylib) (cfg : config).
Implicit Types (w : world Ext) (target query : pystr).

(** X26.  The crawl tool sends at most two requests and never repeats
    one: the submission, and after it at most one retrieval, a GET to the
    crawl endpoint followed by [/] and the job identifier as text, with the
    retrieval headers.  The job is looked at once, right after its
    submission, whatever its status. *)
Theorem crawl_sends_at_most_two_requests target query w :
  let sent := http_sent (crawl_website svc lib cfg target query w).2 in
  sent = http_sent w ++ [ submission target query ]
  ∨ ∃ job,
      sent = http_sent w
             ++ [ submission target query;
                  HttpRequest GET
                    (py "https://api.firecrawl.dev/v2/crawl" ++ py "/" ++ py_str lib job)
                    (crawl_get_headers cfg) None None ].
Proof.
  unfold crawl_website, crawl_website_body, do_post, do_get, submission.
  unfold_monad.
  repeat match goal with
    | |- context [requests_post svc ?r ?x] =>
        destruct (requests_post svc r x) as [[?|?] ?]; world_simpl
    | |- context [requests_get svc ?r ?x] =>
        destruct (requests_get svc r x) as [[?|?] ?]; world_simpl
    | |- context [response_json ?r] => destruct (response_json r); world_simpl
    | |- context [py_get ?v ?k ?d] => destruct (py_get v k d); world_simpl
    end;
    rewrite <- ?app_assoc; cbn [app]; eauto.
Qed.

(** X27.  When the answer to the submission is a JSON object without an
    [id], the tool does not stop: it sends its retrieval to
    [https://api.firecrawl.dev/v2/crawl/None]. *)
Theorem crawl_without_job_id target query w resp x d :
  requests_post svc (submission target query) (ext w) = (Return resp, x) →
  response_json resp = Return (PDict d) →
  dict_get (py "id") d = None →
  http_sent (crawl_website svc lib cfg target query w).2
  = http_sent w
    ++ [ submission target query;
         HttpRequest GET (py "https://api.firecrawl.dev/v2/crawl/None")
           (crawl_get_headers cfg) None None ].
Proof.
  intros Hpost Hjson Hid.
  unfold crawl_website, crawl_website_body, do_post, do_get.
  unfold_monad. unfold submission in Hpost. rewrite Hpost. cbv beta iota zeta.
  rewrite Hjson. cbn [py_get]. rewrite Hid. cbn [py_str].
  change (py "https://api.firecrawl.dev/v2/crawl" ++ py "/" ++ py "None")
    with (py "https://api.firecrawl.dev/v2/crawl/None").
  world_simpl.
  repeat match goal with
    | |- context [requests_get svc ?r ?x] =>
        destruct (requests_get svc r x) as [[?|?] ?]; world_simpl
    | |- context [response_json ?r] => destruct (response_json r); world_simpl
    | |- context [py_get ?v ?k ?d] => destruct (py_get v k d); world_simpl
    end;
    by rewrite <- ?app_assoc.
Qed.

(** X28.  When the answer to the submission is JSON but not an object,
    the tool sends no retrieval and returns the mapping whose [error] is
    the text of the [AttributeError] of the [get] it calls on the answer. *)
Theorem crawl_non_object_submission_answer target query w resp x v :
  requests_post svc (submission target query) (ext w) = (Return resp, x) →
  response_json resp = Return v →
  (∀ d, v ≠ PDict d) →
  let run := crawl_website svc lib cfg target query w in
  run.1 = Return (PDict [ (py "error",
                           PStr (py "'" ++ py (type_name v)
                                 ++ py "' object has no attribute 'get'")) ])
  ∧ http_sent run.2 = http_sent w ++ [ submission target query ].
Proof.
  intros Hpost Hjson Hshape run. subst run.
  unfold crawl_website, crawl_website_body, do_post, do_get.
  unfold_monad. unfold submission in Hpost. rewrite Hpost. cbv beta iota zeta.
  rewrite Hjson.
  destruct v; try done. by destruct (Hshape d).
Qed.

End CrawlRequests.

Lemma crawl_without_job_id_witness :
  let accepted_without_id :=
    HttpResponse (Return tt) (Return (PDict [ (py "success", PBool false) ])) in
  let svc := Demo.services_with (Return []) (fun _ => Return [])
               (fun _ => Return accepted_without_id) Demo.unreachable
               Demo.accepted Demo.now in
  (url <$> http_sent (crawl_website svc (Demo.lib [] []) Demo.cfg
                         (py "https://example.com") (py "pricing") Demo.empty_world).2)
  = [ py "https://api.firecrawl.dev/v2/crawl";
      py "https://api.firecrawl.dev/v2/crawl/None" ].
Proof.
  intros accepted_without_id svc.
  rewrite (crawl_without_job_id svc (Demo.lib [] []) Demo.cfg (py "https://example.com")
             (py "pricing") Demo.empty_world accepted_without_id tt
             [ (py "success", PBool false) ] eq_refl eq_refl eq_refl).
  reflexivity.
Defined.

Lemma crawl_non_object_submission_answer_witness :
  let answered_with_list := HttpResponse (Return tt) (Return (PList [])) in
  let svc := Demo.services_with (Return []) (fun _ => Return [])
               (fun _ => Return answered_with_list) Demo.unreachable
               Demo.accepted Demo.now in
  let run := crawl_website svc (Demo.lib [] []) Demo.cfg (py "https://example.com")
               (py "pricing") Demo.empty_world in
  run.1 = Return (PDict [ (py "error",
                           PStr (py "'list' object has no attribute 'get'")) ])
  ∧ method <$> http_sent run.2 = [POST].
Proof.
  intros answered_with_list svc run.
  destruct (crawl_non_object_submission_answer svc (Demo.lib [] []) Demo.cfg
              (py "https://example.com") (py "pricing") Demo.empty_world
              answered_with_list tt (PList []) eq_refl eq_refl ltac:(discriminate))
    as [Hrun Hsent].
  fold run in Hrun, Hsent. rewrite Hrun, Hsent. split; reflexivity.
Defined.

(** ** Sessions do not interfere *)

Section Isolation.

Context {Ext : Type} (svc : services Ext) (lib : pylib) (cfg : config).
Context (research_untyped : pystr → list pyval → lambda_context → M Ext pyval).
Implicit Types (w : world Ext) (event : stage_event) (sid k : pystr).

(** X29.  A run of a downstream stage for one session leaves the record
    of every other session as it was: the Analysis and Report Generation
    stages for every event, the Research Stage for a session whose record
    has research questions that are strings. *)
Theorem stages_touch_only_their_session event w k :
  event_session_id event ≠ Some k →
  table (Analysis.lambda_handler svc lib event w).2 !! k = table w !! k
  ∧ table (Report.lambda_handler svc lib event w).2 !! k = table w !! k
  ∧ ∀ context sid it,
      event_session_id event = Some sid → table w !! sid = Some it →
      typed_questions it = true →
      table (Research.lambda_handler svc lib cfg research_untyped event context w).2 !! k
      = table w !! k.
Proof.
  intros Hother. split; [|split].
  - destruct (event_session_id event) as [sid|] eqn:Hsid.
    + pose proof (analysis_advances svc lib event w) as [Hrest _].
      rewrite Hsid in Hrest. apply Hrest. cbn [default id]. congruence.
    + unfold Analysis.lambda_handler. by rewrite Hsid.
  - destruct (event_session_id event) as [sid|] eqn:Hsid.
    + pose proof (report_advances svc lib event w) as [Hrest _].
      rewrite Hsid in Hrest. apply Hrest. cbn [default id]. congruence.
    + unfold Report.lambda_handler. by rewrite Hsid.
  - intros context sid it Hsid Hit Htyped.
    destruct (research_advances svc lib cfg research_untyped event context w sid it
                Hsid Hit Htyped) as [Hrest _].
    apply Hrest. congruence.
Qed.

End Isolation.

Lemma stages_touch_only_their_session_witness :
  let sid := py "q3-report_82719c71_000000" in
  let other := py "budget_5d41402a_000017" in
  let it := Item (Some (py "document_processed")) (Some (py "Our Q3 revenue grew 12%."))
              None None None None None None [] in
  let waiting := Item (Some (py "research_complete")) (Some (py "Budget 2024"))
                   None None None None None None [] in
  let w := World {[ sid := it; other := waiting ]} [] [] [] tt in
  let run := Analysis.lambda_handler Demo.pipeline_services Demo.pipeline_lib
               (StageEvent (Some sid)) w in
  stage_of run.2 sid = Some (py "analysis_complete")
  ∧ table run.2 !! other = Some waiting.
Proof.
  intros sid other it waiting w run.
  split; [vm_compute; reflexivity|].
  destruct (stages_touch_only_their_session Demo.pipeline_services Demo.pipeline_lib
              Demo.cfg Demo.no_untyped (StageEvent (Some sid)) w other)
    as (Hanalysis & _).
  { intros E. vm_compute in E. discriminate. }
  fold run in Hanalysis. rewrite Hanalysis. vm_compute. reflexivity.
Defined.

(** ** Byte-order marks in text files *)

Section ByteOrderMark.

Context (lib : pylib) (cfg : config).
Implicit Types (file_bytes rest : bytes) (name text : pystr).

Lemma drop_bom_cases file_bytes :
  (∃ rest, file_bytes = xef :: xbb :: xbf :: rest ∧ drop_bom file_bytes = rest)
  ∨ drop_bom file_bytes = file_bytes.
Proof.
  destruct file_bytes as [|b0 [|b1 [|b2 rest]]]; try (by right);
    destruct b0; try (by right); destruct b1; try (by right);
    destruct b2; try (by right).
  left. by exists rest.
Qed.

(** The method and the content of a text file, from the attempt that
    succeeded. *)
Lemma text_extraction_result file_bytes name enc text :
  lower (_get_file_extension name) ∈ [ py ".txt"; py ".md"; py ".csv" ] →
  try_encodings lib text_encodings file_bytes = Some (enc, text) →
  let r := extract_text_content lib cfg file_bytes name in
  extraction_method r = py "text_decode_" ++ encoding_name enc ∧ content r = text.
Proof.
  intros Hext Htry r. subst r. unfold extract_text_content, extract_branch.
  cbn [file_extension].
  set (ext := lower (_get_file_extension name)) in *.
  assert (Hcases : ext = py ".txt" ∨ ext = py ".md" ∨ ext = py ".csv")
    by (revert Hext; rewrite !elem_of_cons, elem_of_nil; tauto).
  rewrite (decide_False (P := ext = py ".pdf"))
    by (destruct Hcases as [-> | [-> | ->]]; vm_compute; congruence).
  rewrite (decide_False (P := ext = py ".docx" ∨ ext = py ".doc"))
    by (destruct Hcases as [-> | [-> | ->]]; vm_compute; intros [?|?]; congruence).
  rewrite (decide_True (P := ext = py ".txt" ∨ ext = py ".md" ∨ ext = py ".csv"))
    by done.
  rewrite Htry. cbv beta iota.
  match goal with
  | |- context [check_success ?r0] =>
      destruct (add_statistics_keeps (check_success r0)) as (_ & -> & -> & _);
      destruct (check_success_spec r0 eq_refl) as [_ ->];
      destruct (check_success_keeps r0) as [-> _]
  end.
  done.
Qed.

(** X30.  With a UTF-8 decoder that reads a byte-order mark as the
    character U+FEFF (as Python's does), the [utf-8-sig] attempt of the
    text extraction is never the one that succeeds: whatever [utf-8-sig]
    decodes, [utf-8] has decoded before it.  So the mark is never taken
    off: a [.txt], [.md] or [.csv] file that starts with it and is UTF-8
    after it has a content that starts with U+FEFF, by method
    [text_decode_utf-8]. *)
Theorem byte_order_mark_is_kept file_bytes name :
  (∀ rest text, decode_utf8 lib rest = inl text →
     decode_utf8 lib (xef :: xbb :: xbf :: rest) = inl (65279 :: text)) →
  lower (_get_file_extension name) ∈ [ py ".txt"; py ".md"; py ".csv" ] →
  let r := extract_text_content lib cfg file_bytes name in
  extraction_method r ≠ py "text_decode_utf-8-sig"
  ∧ ∀ rest text,
      file_bytes = xef :: xbb :: xbf :: rest → decode_utf8 lib rest = inl text →
      content r = 65279 :: text ∧ extraction_method r = py "text_decode_utf-8".
Proof.
  intros Hbom Hext r. subst r. split.
  - assert (Htry : ∃ enc text,
              try_encodings lib text_encodings file_bytes = Some (enc, text)
              ∧ enc ≠ UTF_8_SIG).
    { unfold text_encodings. cbn [try_encodings decode].
      destruct (decode_utf8 lib file_bytes) as [t|msg] eqn:Hplain;
        [by exists UTF_8, t|].
      destruct (drop_bom_cases file_bytes) as [(rest & -> & ->) | ->].
      - destruct (decode_utf8 lib rest) as [t|?] eqn:Hrest.
        + apply Hbom in Hrest. congruence.
        + by exists LATIN_1, (Byte.to_N <$> xef :: xbb :: xbf :: rest).
      - rewrite Hplain. by exists LATIN_1, (Byte.to_N <$> file_bytes). }
    destruct Htry as (enc & text & Htry & Henc).
    destruct (text_extraction_result file_bytes name enc text Hext Htry) as [-> _].
    destruct enc; try done; vm_compute; congruence.
  - intros rest text -> Hrest.
    assert (Htry : try_encodings lib text_encodings (xef :: xbb :: xbf :: rest)
                   = Some (UTF_8, 65279 :: text)).
    { unfold text_encodings. cbn [try_encodings decode]. by rewrite (Hbom rest text). }
    destruct (text_extraction_result _ name _ _ Hext Htry) as [-> ->]. done.
Qed.

End ByteOrderMark.

Lemma byte_order_mark_is_kept_witness :
  let file_bytes := [xef; xbb; xbf; x68; x69] in
  let r := extract_text_content Samples.bom_lib Demo.cfg file_bytes (py "hello.txt") in
  (∀ rest text, decode_utf8 Samples.bom_lib rest = inl text →
     decode_utf8 Samples.bom_lib (xef :: xbb :: xbf :: rest) = inl (65279 :: text))
  ∧ content r = 65279 :: py "hi"
  ∧ extraction_method r = py "text_decode_utf-8".
Proof.
  intros file_bytes r.
  assert (Hbom : ∀ rest text, decode_utf8 Samples.bom_lib rest = inl text →
            decode_utf8 Samples.bom_lib (xef :: xbb :: xbf :: rest) = inl (65279 :: text)).
  { intros rest text. cbn [decode_utf8 Samples.bom_lib].
    change (Samples.decode_ascii_bom (xef :: xbb :: xbf :: rest))
      with (cons 65279 <$> Samples.decode_ascii_bom rest).
    destruct (Samples.decode_ascii_bom rest); [|discriminate].
    by intros [= ->]. }
  assert (Hext : lower (_get_file_extension (py "hello.txt"))
                 ∈ [ py ".txt"; py ".md"; py ".csv" ])
    by (apply elem_of_cons; left; reflexivity).
  split; [exact Hbom|].
  destruct (byte_order_mark_is_kept Samples.bom_lib Demo.cfg file_bytes (py "hello.txt")
              Hbom Hext) as [_ Hkept].
  exact (Hkept [x68; x69] (py "hi") eq_refl eq_refl).
Defined.
